(** * gopenpgp: the decryption core and the decryption handle builder

    A shallow embedding of [crypto/decryption_core.go] and
    [crypto/decryption_handle_builder.go].

    The OpenPGP library (packet codec, ciphers, [openpgp.ReadMessage]) is an
    external collaborator: its operations are the [Variable]s of the sections
    below, and the theorems hold for every behaviour of the library.  Closed
    examples instantiate the library with the small reference codec of
    [Module Toy]. *)

From Stdlib Require Import ZArith String List Bool Lia.
From stdpp Require Import gmap strings list.

Open Scope string_scope.
Open Scope Z_scope.
Open Scope list_scope.

(** ** Bytes, errors and Go-style results *)

Definition bytes := list Byte.byte.

(** [github.com/pkg/errors]: [errors.New] builds a fresh error,
    [errors.Wrap] annotates a non-nil cause.  [io_EOF] and [library_error]
    are the errors the program receives from [io] and from the OpenPGP
    library. *)
Inductive error : Type :=
| errors_New (msg : string)
| withMessage (cause : error) (msg : string)
| io_EOF
| library_error (msg : string).

(** [errors.Wrap(err, msg)] returns nil when [err] is nil. *)
Definition errors_Wrap (err : option error) (msg : string) : option error :=
  match err with
  | None => None
  | Some e => Some (withMessage e msg)
  end.

(** ** Packets and readers *)

Definition SignatureType := Z.
Definition SigTypeBinary : SignatureType := 0.
Definition SigTypeText : SignatureType := 1.

Definition CipherFunction := Z.

Record LiteralData : Type := mkLiteralData {
  IsBinary : bool;
  FileName : string;
  Time : Z;
  Body : bytes
}.

(** The typed records handed out by [packet.Reader.Next].  The first two are
    the key-exchange packets, the next two the encrypted-data packets (the
    types implementing [packet.EncryptedDataPacket]). *)
Inductive Packet : Type :=
| EncryptedKey (keyId : Z) (encryptedSession : bytes)
| SymmetricKeyEncrypted (encryptedSession : bytes)
| SymmetricallyEncrypted (integrityProtected : bool) (contents : bytes)
| AEADEncrypted (contents : bytes)
| Compressed (body : bytes)
| LiteralDataPacket (l : LiteralData)
| OnePassSignature (sigType : SignatureType) (keyId : Z)
| Signature (sigType : SignatureType) (keyId : Z) (creationTime : Z)
| UserId (id : string).

(** An [io.Reader] over an OpenPGP message, at the level of its packets: the
    packets not yet read.  Reading is forward only: [Next] hands out the
    packet at the reading position and advances past it, and a packet that
    was handed out is not read again.  A packet is taken whole, body
    included; the library reads the body of an encrypted-data, literal or
    compressed packet lazily, so behind such a packet the position of the
    model stands for a position inside or behind its body. *)
Definition Reader := list Packet.
Definition ReadCloser := Reader.

(** [packet.NewReader(r).Next()]. *)
Definition Next (r : Reader) : (option Packet * option error) * Reader :=
  match r with
  | [] => ((None, Some io_EOF), [])
  | p :: r' => ((Some p, None), r')
  end.

(** The type assertion [p.(packet.EncryptedDataPacket)]. *)
Definition asEncryptedDataPacket (p : Packet) : option Packet :=
  match p with
  | SymmetricallyEncrypted _ _ | AEADEncrypted _ => Some p
  | _ => None
  end.

Definition isKeyPacket (p : Packet) : bool :=
  match p with
  | EncryptedKey _ _ | SymmetricKeyEncrypted _ => true
  | _ => false
  end.

Definition isDataPacket (p : Packet) : bool :=
  match p with
  | SymmetricallyEncrypted _ _ | AEADEncrypted _ => true
  | _ => false
  end.

(** ** Session keys *)

Record SessionKey : Type := mkSessionKey {
  Key : bytes;
  Algo : string;
  v6 : bool
}.

Section SessionKeyUnwrapper.

(** [SessionKey.GetCipherFunc] (sessionkey.go) and
    [packet.EncryptedDataPacket.Decrypt] (the OpenPGP library). *)
Variable GetCipherFunc : SessionKey -> CipherFunction * option error.
Variable Decrypt : Packet -> CipherFunction -> bytes -> error + ReadCloser.

(** The arm [case *packet.SymmetricallyEncrypted, *packet.AEADEncrypted]
    of the packet switch. *)
Definition decryptDataPacket (sessionKey : SessionKey) (p : Packet)
  : option ReadCloser * option error :=
  let '(dc, err) :=
    if negb (v6 sessionKey) then GetCipherFunc sessionKey else (0, None) in
  match err with
  | Some e =>
      (None, errors_Wrap (Some e) "gopenpgp: unable to decrypt with session key")
  | None =>
      match asEncryptedDataPacket p with
      | None => (None, errors_Wrap err "gopenpgp: unknown data packet")
      | Some encryptedDataPacket =>
          match Decrypt encryptedDataPacket dc (Key sessionKey) with
          | inl e =>
              (None, errors_Wrap (Some e) "gopenpgp: unable to decrypt symmetric packet")
          | inr decrypted => (Some decrypted, None)
          end
      end
  end.

(** [decryptStreamWithSessionKey]: the loop reads one packet per turn from
    [messageReader]; the second component is the reader as the call leaves
    it. *)
Fixpoint decryptStreamWithSessionKey (sessionKey : SessionKey)
    (messageReader : Reader) {struct messageReader}
  : (option ReadCloser * option error) * Reader :=
  match messageReader with
  | [] =>
      ((None, errors_Wrap (Some io_EOF) "gopenpgp: unable to read symmetric packet"), [])
  | p :: rest =>
      match p with
      | EncryptedKey _ _ | SymmetricKeyEncrypted _ =>
          decryptStreamWithSessionKey sessionKey rest
      | SymmetricallyEncrypted _ _ | AEADEncrypted _ =>
          (decryptDataPacket sessionKey p, rest)
      | _ => ((None, Some (errors_New "gopenpgp: invalid packet type")), rest)
      end
  end.

(** The candidate loop of [decryptStreamWithSessionAndParse]: the variables
    [decrypted], [err] and [selectedSessionKey], and the shared
    [messageReader]. *)
Fixpoint sessionKeyLoop (candidates : list SessionKey)
    (decrypted : option ReadCloser) (err : option error)
    (messageReader : Reader)
  : (option ReadCloser * option error * option SessionKey) * Reader :=
  match candidates with
  | [] => ((decrypted, err, None), messageReader)
  | sessionKeyCandidate :: others =>
      let '((decrypted', err'), messageReader') :=
        decryptStreamWithSessionKey sessionKeyCandidate messageReader in
      match err' with
      | None => ((decrypted', None, Some sessionKeyCandidate), messageReader')
      | Some _ => sessionKeyLoop others decrypted' err' messageReader'
      end
  end.

End SessionKeyUnwrapper.

(** ** Key rings, handles and library records *)

Definition loc := nat.

(** An entity of the OpenPGP library, named by its primary key id. *)
Definition Entity := Z.
Definition EntityList := list Entity.

Record KeyRing : Type := mkKeyRing { entities : EntityList }.

Record VerificationContext : Type := mkVerificationContext {
  Value : string;
  IsRequired : bool
}.

(** [type Clock func() time.Time], read through [.Unix()]: from the instant
    of the call to the unix time the clock reports. *)
Definition Clock := Z -> Z.
Definition NewConstantClock (unixTime : Z) : Clock := fun _ => unixTime.

(** The fields of [decryptionHandle] the two source files use.  Key rings
    are held by pointer: a location of the key-ring store.  The session key
    candidates are the keys the pointers of [SessionKeys] point to, none of
    them nil. *)
Record decryptionHandle : Type := mkDecryptionHandle {
  dh_DecryptionKeyRing : option loc;
  dh_SessionKey : option SessionKey;
  dh_SessionKeys : list SessionKey;
  dh_Password : option bytes;
  dh_VerifyKeyRing : option loc;
  dh_VerificationContext : option VerificationContext;
  dh_DisableVerifyTimeCheck : bool;
  dh_DisableIntendedRecipients : bool;
  dh_RetrieveSessionKey : bool;
  dh_clock : Clock
}.

(** [packet.Config], the fields the program sets. *)
Record Config : Type := mkConfig {
  cfg_CacheSessionKey : bool;
  cfg_CheckIntendedRecipients : option bool;
  cfg_Time : option Clock;
  cfg_KnownNotations : gmap string bool;
  cfg_CheckPacketSequence : option bool
}.

(** The readers that carry plaintext to the caller: the body reader the
    library returns, and the decorators the program wraps around it. *)
Inductive BodyReader : Type :=
| libraryBody (content : bytes)
| checkReader (decrypted : option ReadCloser) (body : BodyReader)
| NewSanitizeReader (r : BodyReader).

(** What a caller draining the reader receives.  [sanitize] is the
    transformation of [internal.NewSanitizeReader]. *)
Fixpoint readAll (sanitize : bytes -> bytes) (r : BodyReader) : bytes :=
  match r with
  | libraryBody content => content
  | checkReader _ body => readAll sanitize body
  | NewSanitizeReader r' => sanitize (readAll sanitize r')
  end.

Record SignatureCandidate : Type := mkSignatureCandidate {
  SigType : SignatureType;
  IssuerKeyId : Z
}.

(** [openpgp.MessageDetails], the fields the program reads or writes. *)
Record MessageDetails : Type := mkMessageDetails {
  md_IsSigned : bool;
  md_SignatureCandidates : list SignatureCandidate;
  md_UnverifiedBody : BodyReader;
  md_LiteralData : option LiteralData;
  md_SessionKey : option bytes
}.

Record VerifyDataReader : Type := mkVerifyDataReader {
  details : MessageDetails;
  internalReader : BodyReader;
  verifyKeyRing : option loc;
  verifyTime : Z;
  disableTimeCheck : bool;
  readAllDone : bool;
  verificationContext : option VerificationContext
}.

(** ** The one-shot password prompt *)

Definition PromptAnswer := (option bytes * option error)%type.

(** The closure returned by [createPasswordPrompt]: the captured [password]
    and the captured variable [firstTimeCalled]. *)
Record passwordPrompt : Type := mkPasswordPrompt {
  password : bytes;
  firstTimeCalled : bool
}.

Definition createPasswordPrompt (password : option bytes) : option passwordPrompt :=
  match password with
  | None => None
  | Some p => Some (mkPasswordPrompt p true)
  end.

Definition wrongPassword : error :=
  errors_New "gopenpgp: wrong password in symmetric decryption".

(** One invocation of the closure: its answer and its state afterwards. *)
Definition callPrompt (prompt : passwordPrompt) (keys : list Z) (symmetric : bool)
  : PromptAnswer * passwordPrompt :=
  if firstTimeCalled prompt
  then ((Some (password prompt), None), mkPasswordPrompt (password prompt) false)
  else ((None, Some wrongPassword), prompt).

(** ** [openpgp.ReadMessage]

    The library reads a message and, when it was handed a prompt, may invoke
    it any number of times before it returns.  A [ReadProc] is the library's
    side of such a call: it either returns, or invokes the prompt and goes on
    from the answer; whatever the answers, it returns after finitely many
    invocations. *)
Inductive ReadProc : Type :=
| Finished (res : error + MessageDetails)
| AskPrompt (keys : list Z) (symmetric : bool) (k : PromptAnswer -> ReadProc).

(** Runs the library against the closure: the result, the closure's final
    state and the answers it gave, in order. *)
Fixpoint runPrompt (p : ReadProc) (prompt : passwordPrompt)
  : (error + MessageDetails) * passwordPrompt * list PromptAnswer :=
  match p with
  | Finished res => (res, prompt, [])
  | AskPrompt keys symmetric k =>
      let '(answer, prompt') := callPrompt prompt keys symmetric in
      let '(res, final, answers) := runPrompt (k answer) prompt' in
      (res, final, answer :: answers)
  end.

(** The library as the program sees it: [ReadMessage] called with a nil
    prompt, and [ReadMessage] called with a prompt. *)
Record OpenPGP : Type := mkOpenPGP {
  ReadMessage_nilPrompt : option Reader -> EntityList -> Config -> error + MessageDetails;
  ReadMessage_prompting : option Reader -> EntityList -> Config -> ReadProc
}.

Definition ReadMessage (lib : OpenPGP) (r : option Reader) (keyring : EntityList)
    (prompt : option passwordPrompt) (config : Config)
  : (error + MessageDetails) * list PromptAnswer :=
  match prompt with
  | None => (ReadMessage_nilPrompt lib r keyring config, [])
  | Some p =>
      let '(res, _, answers) := runPrompt (ReadMessage_prompting lib r keyring config) p in
      (res, answers)
  end.

(** ** Go results *)

(** A call either returns or panics (a nil pointer dereference). *)
Inductive outcome (A : Type) : Type :=
| returns (a : A)
| panics.
Arguments returns {A} a.
Arguments panics {A}.

Definition setCheckIntendedRecipients (c : Config) (v : option bool) : Config :=
  mkConfig (cfg_CacheSessionKey c) v (cfg_Time c) (cfg_KnownNotations c)
           (cfg_CheckPacketSequence c).
Definition setTime (c : Config) (v : option Clock) : Config :=
  mkConfig (cfg_CacheSessionKey c) (cfg_CheckIntendedRecipients c) v
           (cfg_KnownNotations c) (cfg_CheckPacketSequence c).
Definition setKnownNotations (c : Config) (v : gmap string bool) : Config :=
  mkConfig (cfg_CacheSessionKey c) (cfg_CheckIntendedRecipients c) (cfg_Time c) v
           (cfg_CheckPacketSequence c).
Definition setCheckPacketSequence (c : Config) (v : option bool) : Config :=
  mkConfig (cfg_CacheSessionKey c) (cfg_CheckIntendedRecipients c) (cfg_Time c)
           (cfg_KnownNotations c) v.

(** [&packet.Config{}]. *)
Definition emptyConfig : Config := mkConfig false None None ∅ None.

Definition setUnverifiedBody (md : MessageDetails) (b : BodyReader) : MessageDetails :=
  mkMessageDetails (md_IsSigned md) (md_SignatureCandidates md) b
                   (md_LiteralData md) (md_SessionKey md).
Definition setSessionKey (md : MessageDetails) (k : option bytes) : MessageDetails :=
  mkMessageDetails (md_IsSigned md) (md_SignatureCandidates md) (md_UnverifiedBody md)
                   (md_LiteralData md) k.
Definition setLiteralData (md : MessageDetails) (l : option LiteralData) : MessageDetails :=
  mkMessageDetails (md_IsSigned md) (md_SignatureCandidates md) (md_UnverifiedBody md)
                   l (md_SessionKey md).
Definition setDetails (r : VerifyDataReader) (md : MessageDetails) : VerifyDataReader :=
  mkVerifyDataReader md (internalReader r) (verifyKeyRing r) (verifyTime r)
                     (disableTimeCheck r) (readAllDone r) (verificationContext r).

(** ** The decryption core *)

Section DecryptionCore.

(** The key-ring store the handle points into, the instant of the call,
    [constants.SignatureContextName], and the collaborators. *)
Variable keyrings : gmap loc KeyRing.
Variable now : Z.
Variable SignatureContextName : string.
Variable GetCipherFunc : SessionKey -> CipherFunction * option error.
Variable Decrypt : Packet -> CipherFunction -> bytes -> error + ReadCloser.
Variable lib : OpenPGP.
Variable verifyingDetachedReader :
  BodyReader -> BodyReader -> option loc -> option VerificationContext ->
  bool -> Config -> Clock -> option VerifyDataReader * option error.

(** [keyRing.entities] through the pointer [k]. *)
Definition entitiesAt (k : loc) : EntityList :=
  match keyrings !! k with
  | Some keyRing => entities keyRing
  | None => []
  end.

(** The test guarding [internal.NewSanitizeReader] in [decryptStream] and
    [decryptStreamWithSession]. *)
Definition lastSignatureIsText (messageDetails : MessageDetails) : bool :=
  let candidates := md_SignatureCandidates messageDetails in
  md_IsSigned messageDetails
  && (0 <? length candidates)%nat
  && match candidates !! (length candidates - 1)%nat with
     | Some candidate => SigType candidate =? SigTypeText
     | None => false
     end.

Definition selectInternalReader (messageDetails : MessageDetails) : BodyReader :=
  if lastSignatureIsText messageDetails
  then NewSanitizeReader (md_UnverifiedBody messageDetails)
  else md_UnverifiedBody messageDetails.

(** The entity list and the configuration [decryptStream] hands to the
    library. *)
Definition decryptStreamSetup (dh : decryptionHandle) : EntityList * Config :=
  let config := mkConfig (dh_RetrieveSessionKey dh) None None ∅ None in
  let '(entries, config) :=
    match dh_DecryptionKeyRing dh with
    | Some k =>
        (entitiesAt k,
         setCheckIntendedRecipients config
           (Some (negb (dh_DisableIntendedRecipients dh))))
    | None => ([], config)
    end in
  let entries :=
    match dh_VerifyKeyRing dh with
    | Some k => entries ++ entitiesAt k
    | None => entries
    end in
  let verifyTime := dh_clock dh now in
  let config := setTime config (Some (NewConstantClock verifyTime)) in
  let config :=
    match dh_VerificationContext dh with
    | Some _ => setKnownNotations config {[ SignatureContextName := true ]}
    | None => config
    end in
  (entries, config).

(** [decryptStream], with the answers the prompt gave during the call. *)
Definition decryptStream (dh : decryptionHandle) (encryptedMessage : Reader)
  : (option VerifyDataReader * option error) * list PromptAnswer :=
  let '(entries, config) := decryptStreamSetup dh in
  let '(read, answers) :=
    match dh_DecryptionKeyRing dh with
    | Some _ =>
        let '(res, answers) :=
          ReadMessage lib (Some encryptedMessage) entries None config in
        match res with
        | inl e =>
            (inl (errors_Wrap (Some e)
                    "gopenpgp: decrypting message with private keys failed"),
             answers)
        | inr messageDetails => (inr messageDetails, answers)
        end
    | None =>
        let prompt := createPasswordPrompt (dh_Password dh) in
        let '(res, answers) :=
          ReadMessage lib (Some encryptedMessage) entries prompt config in
        match res with
        | inl _ =>
            (inl (Some (errors_New
                    "gopenpgp: error in reading password protected message: wrong password or malformed message")),
             answers)
        | inr messageDetails => (inr messageDetails, answers)
        end
    end in
  match read with
  | inl err => ((None, err), answers)
  | inr messageDetails =>
      let verifyTime :=
        match cfg_Time config with Some t => t now | None => now end in
      ((Some (mkVerifyDataReader messageDetails
                (selectInternalReader messageDetails)
                (dh_VerifyKeyRing dh) verifyTime
                (dh_DisableVerifyTimeCheck dh) false
                (dh_VerificationContext dh)), None), answers)
  end.

(** The key ring and the configuration [decryptStreamWithSessionAndParse]
    hands to the library, from [config := &packet.Config{...}] to
    [config.CheckPacketSequence = &checkPacketSequence]. *)
Definition sessionParseSetup (dh : decryptionHandle) : EntityList * Config :=
  let config := setTime emptyConfig (Some (NewConstantClock (dh_clock dh now))) in
  let config :=
    match dh_VerificationContext dh with
    | Some _ => setKnownNotations config {[ SignatureContextName := true ]}
    | None => config
    end in
  let keyring : EntityList := [] in
  let keyring :=
    match dh_VerifyKeyRing dh with
    | Some k => keyring ++ entitiesAt k
    | None => keyring
    end in
  let keyring :=
    match dh_DecryptionKeyRing dh with
    | Some k => keyring ++ entitiesAt k
    | None => keyring
    end in
  let checkIntendedRecipients := negb (dh_DisableIntendedRecipients dh) in
  let checkPacketSequence := false in
  let config := setCheckIntendedRecipients config (Some checkIntendedRecipients) in
  let config := setCheckPacketSequence config (Some checkPacketSequence) in
  (keyring, config).

(** [decryptStreamWithSessionAndParse]. *)
Definition decryptStreamWithSessionAndParse (dh : decryptionHandle)
    (messageReader : Reader)
  : option MessageDetails * Z * option error :=
  let '((decrypted, err, selectedSessionKey), _) :=
    sessionKeyLoop GetCipherFunc Decrypt (dh_SessionKeys dh) None None messageReader in
  match selectedSessionKey with
  | None =>
      (None, 0, errors_Wrap err "gopenpgp: unable to decrypt message with session key")
  | Some selected =>
      let '(keyring, config) := sessionParseSetup dh in
      match fst (ReadMessage lib decrypted keyring None config) with
      | inl e =>
          (None, 0, errors_Wrap (Some e) "gopenpgp: unable to decode symmetric packet")
      | inr md =>
          let md := setSessionKey md (Some (Key selected)) in
          let md := setUnverifiedBody md (checkReader decrypted (md_UnverifiedBody md)) in
          (Some md,
           match cfg_Time config with Some t => t now | None => now end,
           None)
      end
  end.

(** [decryptStreamWithSession]. *)
Definition decryptStreamWithSession (dh : decryptionHandle)
    (dataPacketReader : Reader)
  : outcome (option VerifyDataReader * option error) :=
  let '(messageDetails, verifyTime, err) :=
    decryptStreamWithSessionAndParse dh dataPacketReader in
  match err with
  | Some e => returns (None, errors_Wrap (Some e) "gopenpgp: error in reading message")
  | None =>
      match messageDetails with
      | None => panics
      | Some messageDetails =>
          returns
            (Some (mkVerifyDataReader messageDetails
                     (selectInternalReader messageDetails)
                     (dh_VerifyKeyRing dh) verifyTime
                     (dh_DisableVerifyTimeCheck dh) false
                     (dh_VerificationContext dh)), None)
      end
  end.

(** The tail of [decryptStreamAndVerifyDetached], from
    [checkIntendedRecipients := ...] on: binds the data message and the
    decrypted signature. *)
Definition bindDetached (dh : decryptionHandle) (verifyTime : Z)
    (mdData : option MessageDetails) (signature : BodyReader)
  : outcome (option VerifyDataReader * option error) :=
  match mdData with
  | None => panics
  | Some mdData =>
      let checkIntendedRecipients := negb (dh_DisableIntendedRecipients dh) in
      let config :=
        setCheckIntendedRecipients emptyConfig (Some checkIntendedRecipients) in
      let '(sigVerifyReader, err) :=
        verifyingDetachedReader (md_UnverifiedBody mdData) signature
          (dh_VerifyKeyRing dh) (dh_VerificationContext dh)
          (dh_DisableVerifyTimeCheck dh) config (NewConstantClock verifyTime) in
      match err with
      | Some e => returns (None, Some e)
      | None =>
          match sigVerifyReader with
          | None => panics
          | Some sigVerifyReader =>
              let d := details sigVerifyReader in
              let d := setLiteralData d (md_LiteralData mdData) in
              let d := setSessionKey d (md_SessionKey mdData) in
              returns (Some (setDetails sigVerifyReader d), None)
          end
      end
  end.

(** The configuration and the entity list of the branch "Password or private
    keys" of [decryptStreamAndVerifyDetached]. *)
Definition detachedSetup (dh : decryptionHandle) : EntityList * Config :=
  let verifyTime := dh_clock dh now in
  let config :=
    mkConfig (dh_RetrieveSessionKey dh) None
             (Some (NewConstantClock verifyTime)) ∅ None in
  let entries : EntityList := [] in
  let entries :=
    match dh_DecryptionKeyRing dh with
    | Some k => entries ++ entitiesAt k
    | None => entries
    end in
  (entries, config).

(** [decryptStreamAndVerifyDetached], with the answers the prompt of the
    data stream and the prompt of the signature stream gave. *)
Definition decryptStreamAndVerifyDetached (dh : decryptionHandle)
    (encryptedData encryptedSignature : Reader)
  : outcome (option VerifyDataReader * option error)
    * (list PromptAnswer * list PromptAnswer) :=
  let verifyTime := dh_clock dh now in
  if (0 <? length (dh_SessionKeys dh))%nat then
    let '(mdData, _, err) := decryptStreamWithSessionAndParse dh encryptedData in
    match err with
    | Some e =>
        (returns (None, errors_Wrap (Some e) "gopenpgp: error in reading data message"),
         ([], []))
    | None =>
        let '(mdSig, _, err) :=
          decryptStreamWithSessionAndParse dh encryptedSignature in
        match err with
        | Some e =>
            (returns (None, errors_Wrap (Some e)
                       "gopenpgp: error in reading detached signature message"),
             ([], []))
        | None =>
            match mdSig with
            | None => (panics, ([], []))
            | Some mdSig =>
                (bindDetached dh verifyTime mdData (md_UnverifiedBody mdSig), ([], []))
            end
        end
    end
  else
    let '(entries, config) := detachedSetup dh in
    let prompt := createPasswordPrompt (dh_Password dh) in
    let '(res, answersData) :=
      ReadMessage lib (Some encryptedData) entries prompt config in
    match res with
    | inl e =>
        (returns (None, errors_Wrap (Some e) "gopenpgp: error in reading data message"),
         (answersData, []))
    | inr mdData =>
        let prompt := createPasswordPrompt (dh_Password dh) in
        let config := setCheckPacketSequence config (Some false) in
        let '(res, answersSig) :=
          ReadMessage lib (Some encryptedSignature) entries prompt config in
        match res with
        | inl e =>
            (returns (None, errors_Wrap (Some e)
                       "gopenpgp: error in reading detached signature message"),
             (answersData, answersSig))
        | inr mdSig =>
            (bindDetached dh verifyTime (Some mdData) (md_UnverifiedBody mdSig),
             (answersData, answersSig))
        end
    end.

End DecryptionCore.

(** ** The decryption handle builder *)

(** The heap: the [decryptionHandle] objects and the [KeyRing] objects, by
    address. *)
Record Heap : Type := mkHeap {
  handles : gmap loc decryptionHandle;
  keyringStore : gmap loc KeyRing
}.

Record DecryptionHandleBuilder : Type := mkBuilder {
  handle : loc;
  defaultClock : Clock;
  err : option error
}.

Definition setHandles (σ : Heap) (hs : gmap loc decryptionHandle) : Heap :=
  mkHeap hs (keyringStore σ).
Definition setKeyrings (σ : Heap) (ks : gmap loc KeyRing) : Heap :=
  mkHeap (handles σ) ks.
Definition setErr (dpb : DecryptionHandleBuilder) (e : option error)
  : DecryptionHandleBuilder :=
  mkBuilder (handle dpb) (defaultClock dpb) e.

Definition setDecryptionKeyRing (h : decryptionHandle) (v : option loc) :=
  mkDecryptionHandle v (dh_SessionKey h) (dh_SessionKeys h) (dh_Password h)
    (dh_VerifyKeyRing h) (dh_VerificationContext h) (dh_DisableVerifyTimeCheck h)
    (dh_DisableIntendedRecipients h) (dh_RetrieveSessionKey h) (dh_clock h).
Definition setHandleSessionKey (h : decryptionHandle) (v : option SessionKey) :=
  mkDecryptionHandle (dh_DecryptionKeyRing h) v (dh_SessionKeys h) (dh_Password h)
    (dh_VerifyKeyRing h) (dh_VerificationContext h) (dh_DisableVerifyTimeCheck h)
    (dh_DisableIntendedRecipients h) (dh_RetrieveSessionKey h) (dh_clock h).
Definition setPassword (h : decryptionHandle) (v : option bytes) :=
  mkDecryptionHandle (dh_DecryptionKeyRing h) (dh_SessionKey h) (dh_SessionKeys h) v
    (dh_VerifyKeyRing h) (dh_VerificationContext h) (dh_DisableVerifyTimeCheck h)
    (dh_DisableIntendedRecipients h) (dh_RetrieveSessionKey h) (dh_clock h).
Definition setVerifyKeyRing (h : decryptionHandle) (v : option loc) :=
  mkDecryptionHandle (dh_DecryptionKeyRing h) (dh_SessionKey h) (dh_SessionKeys h)
    (dh_Password h) v (dh_VerificationContext h) (dh_DisableVerifyTimeCheck h)
    (dh_DisableIntendedRecipients h) (dh_RetrieveSessionKey h) (dh_clock h).
Definition setVerificationContext (h : decryptionHandle)
    (v : option VerificationContext) :=
  mkDecryptionHandle (dh_DecryptionKeyRing h) (dh_SessionKey h) (dh_SessionKeys h)
    (dh_Password h) (dh_VerifyKeyRing h) v (dh_DisableVerifyTimeCheck h)
    (dh_DisableIntendedRecipients h) (dh_RetrieveSessionKey h) (dh_clock h).
Definition setDisableVerifyTimeCheck (h : decryptionHandle) (v : bool) :=
  mkDecryptionHandle (dh_DecryptionKeyRing h) (dh_SessionKey h) (dh_SessionKeys h)
    (dh_Password h) (dh_VerifyKeyRing h) (dh_VerificationContext h) v
    (dh_DisableIntendedRecipients h) (dh_RetrieveSessionKey h) (dh_clock h).
Definition setDisableIntendedRecipients (h : decryptionHandle) (v : bool) :=
  mkDecryptionHandle (dh_DecryptionKeyRing h) (dh_SessionKey h) (dh_SessionKeys h)
    (dh_Password h) (dh_VerifyKeyRing h) (dh_VerificationContext h)
    (dh_DisableVerifyTimeCheck h) v (dh_RetrieveSessionKey h) (dh_clock h).
Definition setRetrieveSessionKey (h : decryptionHandle) (v : bool) :=
  mkDecryptionHandle (dh_DecryptionKeyRing h) (dh_SessionKey h) (dh_SessionKeys h)
    (dh_Password h) (dh_VerifyKeyRing h) (dh_VerificationContext h)
    (dh_DisableVerifyTimeCheck h) (dh_DisableIntendedRecipients h) v (dh_clock h).
Definition setClock (h : decryptionHandle) (v : Clock) :=
  mkDecryptionHandle (dh_DecryptionKeyRing h) (dh_SessionKey h) (dh_SessionKeys h)
    (dh_Password h) (dh_VerifyKeyRing h) (dh_VerificationContext h)
    (dh_DisableVerifyTimeCheck h) (dh_DisableIntendedRecipients h)
    (dh_RetrieveSessionKey h) v.

(** Builder methods run on the heap; [None] is a dereference of an address
    that holds no object, which a heap reached from
    [newDecryptionHandleBuilder] never produces. *)
Definition M (A : Type) : Type := Heap -> option (A * Heap).

Definition mret {A} (a : A) : M A := fun σ => Some (a, σ).
Definition mbind {A B} (m : M A) (f : A -> M B) : M B :=
  fun σ => match m σ with
           | Some (a, σ') => f a σ'
           | None => None
           end.

Notation "'do' x <- m ; k" := (mbind m (fun x => k))
  (at level 10, x name, m at level 100, k at level 200).

(** [*dpb.handle]. *)
Definition readHandle (dpb : DecryptionHandleBuilder) : M decryptionHandle :=
  fun σ => match handles σ !! handle dpb with
           | Some h => Some (h, σ)
           | None => None
           end.
Definition writeHandle (dpb : DecryptionHandleBuilder) (h : decryptionHandle) : M unit :=
  fun σ => Some (tt, setHandles σ (<[handle dpb := h]> (handles σ))).
Definition readKeyRing (k : loc) : M KeyRing :=
  fun σ => match keyringStore σ !! k with
           | Some kr => Some (kr, σ)
           | None => None
           end.
Definition writeKeyRing (k : loc) (kr : KeyRing) : M unit :=
  fun σ => Some (tt, setKeyrings σ (<[k := kr]> (keyringStore σ))).
(** [&KeyRing{...}]: a new object at an unused address. *)
Definition allocKeyRing (kr : KeyRing) : M loc :=
  fun σ => let k := fresh (dom (keyringStore σ)) in
           Some (k, setKeyrings σ (<[k := kr]> (keyringStore σ))).
Definition allocHandle (h : decryptionHandle) : M loc :=
  fun σ => let l := fresh (dom (handles σ)) in
           Some (l, setHandles σ (<[l := h]> (handles σ))).
Definition getKeyrings : M (gmap loc KeyRing) := fun σ => Some (keyringStore σ, σ).

(** Updates one field of the draft: [dpb.handle.F = v; return dpb]. *)
Definition updateHandle (dpb : DecryptionHandleBuilder)
    (f : decryptionHandle -> decryptionHandle) : M DecryptionHandleBuilder :=
  do h <- readHandle dpb ;
  do _ <- writeHandle dpb (f h) ;
  mret dpb.

Section Builder.

(** Of this package but outside the two files: the type [Key],
    [NewKeyRing] and [KeyRing.AddKey] (keyring.go), and
    [decryptionHandle.validate] (decryption_handle.go).  [AddKey] returns
    the key ring as the call leaves it. *)
Variable Key : Type.
Variable NewKeyRing : Key -> option KeyRing * option error.
Variable AddKey : KeyRing -> Key -> KeyRing * option error.
Variable validate : gmap loc KeyRing -> decryptionHandle -> option error.
(** The value of the object [defaultDecryptionHandle(clock)] points to. *)
Variable defaultDecryptionHandle : Clock -> decryptionHandle.

Definition newDecryptionHandleBuilder (clock : Clock) : M DecryptionHandleBuilder :=
  do l <- allocHandle (defaultDecryptionHandle clock) ;
  mret (mkBuilder l clock None).

Definition DecryptionKeys (dpb : DecryptionHandleBuilder)
    (decryptionKeyRing : option loc) : M DecryptionHandleBuilder :=
  updateHandle dpb (fun h => setDecryptionKeyRing h decryptionKeyRing).

(** The body shared by [DecryptionKey] and [VerifyKey]: [get] and [set]
    are the key-ring field of the draft the method works on. *)
Definition addKeyTo (get : decryptionHandle -> option loc)
    (set : decryptionHandle -> option loc -> decryptionHandle)
    (dpb : DecryptionHandleBuilder) (key : Key) : M DecryptionHandleBuilder :=
  do h <- readHandle dpb ;
  match get h with
  | None =>
      let '(keyRing, e) := NewKeyRing key in
      match keyRing with
      | Some kr =>
          do k <- allocKeyRing kr ;
          do _ <- writeHandle dpb (set h (Some k)) ;
          mret (setErr dpb e)
      | None =>
          do _ <- writeHandle dpb (set h None) ;
          mret (setErr dpb e)
      end
  | Some k =>
      do kr <- readKeyRing k ;
      let '(kr', e) := AddKey kr key in
      do _ <- writeKeyRing k kr' ;
      mret (setErr dpb e)
  end.

Definition DecryptionKey (dpb : DecryptionHandleBuilder) (decryptionKey : Key)
  : M DecryptionHandleBuilder :=
  addKeyTo dh_DecryptionKeyRing setDecryptionKeyRing dpb decryptionKey.

Definition SessionKey_ (dpb : DecryptionHandleBuilder)
    (sessionKey : option SessionKey) : M DecryptionHandleBuilder :=
  updateHandle dpb (fun h => setHandleSessionKey h sessionKey).

Definition Password (dpb : DecryptionHandleBuilder) (password : option bytes)
  : M DecryptionHandleBuilder :=
  updateHandle dpb (fun h => setPassword h password).

Definition VerifyKeys (dpb : DecryptionHandleBuilder) (verifyKeys : option loc)
  : M DecryptionHandleBuilder :=
  updateHandle dpb (fun h => setVerifyKeyRing h verifyKeys).

Definition VerifyKey (dpb : DecryptionHandleBuilder) (key : Key)
  : M DecryptionHandleBuilder :=
  addKeyTo dh_VerifyKeyRing setVerifyKeyRing dpb key.

Definition VerificationContext_ (dpb : DecryptionHandleBuilder)
    (verifyContext : option VerificationContext) : M DecryptionHandleBuilder :=
  updateHandle dpb (fun h => setVerificationContext h verifyContext).

Definition VerifyTime (dpb : DecryptionHandleBuilder) (unixTime : Z)
  : M DecryptionHandleBuilder :=
  updateHandle dpb (fun h => setClock h (NewConstantClock unixTime)).

Definition DisableVerifyTimeCheck (dpb : DecryptionHandleBuilder)
  : M DecryptionHandleBuilder :=
  updateHandle dpb (fun h => setDisableVerifyTimeCheck h true).

Definition DisableIntendedRecipients (dpb : DecryptionHandleBuilder)
  : M DecryptionHandleBuilder :=
  updateHandle dpb (fun h => setDisableIntendedRecipients h true).

Definition RetrieveSessionKey (dpb : DecryptionHandleBuilder)
  : M DecryptionHandleBuilder :=
  updateHandle dpb (fun h => setRetrieveSessionKey h true).

(** [New]: the returned pair, and the builder afterwards. *)
Definition New (dpb : DecryptionHandleBuilder)
  : M ((option loc * option error) * DecryptionHandleBuilder) :=
  match err dpb with
  | Some e => mret ((None, Some e), dpb)
  | None =>
      do h <- readHandle dpb ;
      do ks <- getKeyrings ;
      let dpb := setErr dpb (validate ks h) in
      match err dpb with
      | Some e => mret ((None, Some e), dpb)
      | None =>
          let handle0 := handle dpb in
          do l <- allocHandle (defaultDecryptionHandle (defaultClock dpb)) ;
          mret ((Some handle0, None), mkBuilder l (defaultClock dpb) (err dpb))
      end
  end.

Definition Error (dpb : DecryptionHandleBuilder) : option error := err dpb.

(** A call of one of the configuration methods. *)
Inductive setterCall : Type :=
| callDecryptionKeys (decryptionKeyRing : option loc)
| callDecryptionKey (decryptionKey : Key)
| callSessionKey (sessionKey : option SessionKey)
| callPassword (password : option bytes)
| callVerifyKeys (verifyKeys : option loc)
| callVerifyKey (key : Key)
| callVerificationContext (verifyContext : option VerificationContext)
| callVerifyTime (unixTime : Z)
| callDisableVerifyTimeCheck
| callDisableIntendedRecipients
| callRetrieveSessionKey.

Definition applySetter (dpb : DecryptionHandleBuilder) (c : setterCall)
  : M DecryptionHandleBuilder :=
  match c with
  | callDecryptionKeys r => DecryptionKeys dpb r
  | callDecryptionKey k => DecryptionKey dpb k
  | callSessionKey s => SessionKey_ dpb s
  | callPassword p => Password dpb p
  | callVerifyKeys r => VerifyKeys dpb r
  | callVerifyKey k => VerifyKey dpb k
  | callVerificationContext c => VerificationContext_ dpb c
  | callVerifyTime t => VerifyTime dpb t
  | callDisableVerifyTimeCheck => DisableVerifyTimeCheck dpb
  | callDisableIntendedRecipients => DisableIntendedRecipients dpb
  | callRetrieveSessionKey => RetrieveSessionKey dpb
  end.

(** A chain [dpb.A(...).B(...)...]. *)
Fixpoint applySetters (dpb : DecryptionHandleBuilder) (cs : list setterCall)
  : M DecryptionHandleBuilder :=
  match cs with
  | [] => mret dpb
  | c :: cs' => do dpb' <- applySetter dpb c ; applySetters dpb' cs'
  end.

(** The error the key-ring helper returns when [key] is added to the key
    ring in the field [get] of the draft [h]: the outcome of the call. *)
Definition keyAdditionError (get : decryptionHandle -> option loc)
    (h : decryptionHandle) (σ : Heap) (key : Key) : option error :=
  match get h with
  | None => snd (NewKeyRing key)
  | Some k =>
      match keyringStore σ !! k with
      | Some kr => snd (AddKey kr key)
      | None => None
      end
  end.

(** Whether the call hands the key ring at [k] to the builder. *)
Definition passesKeyRing (c : setterCall) (k : loc) : Prop :=
  match c with
  | callDecryptionKeys r | callVerifyKeys r => r = Some k
  | _ => False
  end.

End Builder.

(** ** Notions the statements use *)

(** The stream after its leading key-exchange packets. *)
Fixpoint skipKeyPackets (r : Reader) : Reader :=
  match r with
  | p :: rest => if isKeyPacket p then skipKeyPackets rest else r
  | [] => []
  end.

(** A candidate is correct for a stream when a decryption attempt with it
    alone, on the stream as the caller hands it over, succeeds. *)
Definition correctCandidate
    (GetCipherFunc : SessionKey -> CipherFunction * option error)
    (Decrypt : Packet -> CipherFunction -> bytes -> error + ReadCloser)
    (sessionKey : SessionKey) (messageReader : Reader) : Prop :=
  snd (fst (decryptStreamWithSessionKey GetCipherFunc Decrypt sessionKey messageReader))
  = None.

(** Whether the library's run hands every error of the prompt back to its
    caller, as [openpgp.ReadMessage] does. *)
Inductive propagatesPromptError : ReadProc -> Prop :=
| propagates_Finished res : propagatesPromptError (Finished res)
| propagates_AskPrompt keys symmetric k :
    (forall e, k (None, Some e) = Finished (inl e)) ->
    (forall a, propagatesPromptError (k a)) ->
    propagatesPromptError (AskPrompt keys symmetric k).

(** How many answers carry the password. *)
Definition passwordAnswers (answers : list PromptAnswer) : nat :=
  length (List.filter (fun a : PromptAnswer => match fst a with Some _ => true | None => false end)
                 answers).

(** The message details of the data stream alone, as
    [decryptStreamAndVerifyDetached] obtains them. *)
Definition detachedDataDetails (keyrings : gmap loc KeyRing) (now : Z)
    (SignatureContextName : string)
    (GetCipherFunc : SessionKey -> CipherFunction * option error)
    (Decrypt : Packet -> CipherFunction -> bytes -> error + ReadCloser)
    (lib : OpenPGP) (dh : decryptionHandle) (encryptedData : Reader)
  : option MessageDetails :=
  if (0 <? length (dh_SessionKeys dh))%nat then
    fst (fst (decryptStreamWithSessionAndParse keyrings now SignatureContextName
                GetCipherFunc Decrypt lib dh encryptedData))
  else
    match fst (ReadMessage lib (Some encryptedData)
                 (fst (detachedSetup keyrings now dh))
                 (createPasswordPrompt (dh_Password dh))
                 (snd (detachedSetup keyrings now dh))) with
    | inl _ => None
    | inr md => Some md
    end.

(** The answers of a one-shot prompt for [pw]: the password at the first
    invocation, the terminal error at every later one. *)
Definition oneShotAnswers (pw : bytes) (answers : list PromptAnswer) : Prop :=
  forall (i : nat) (a : PromptAnswer),
    answers !! i = Some a ->
    a = if (i =? 0)%nat then (Some pw, None) else (None, Some wrongPassword).

Definition wrongPasswordOrMalformed : error :=
  errors_New
    "gopenpgp: error in reading password protected message: wrong password or malformed message".

(** The message is signed and the last of its signature candidates declares
    the text type. *)
Definition lastCandidateIsText (md : MessageDetails) : Prop :=
  md_IsSigned md = true
  /\ exists cs c, md_SignatureCandidates md = cs ++ [c] /\ SigType c = SigTypeText.

(** The message carries a signature candidate that declares the text type. *)
Definition carriesTextSignature (md : MessageDetails) : Prop :=
  md_IsSigned md = true
  /\ exists c, c ∈ md_SignatureCandidates md /\ SigType c = SigTypeText.

(** A library that reports the message details [md] for every message. *)
Definition constantLibrary (md : MessageDetails) : OpenPGP :=
  mkOpenPGP (fun _ _ _ => inr md) (fun _ _ _ => Finished (inr md)).

(** The key ring at [k] is out of the draft's reach: it is in the store and
    neither key-ring field of the draft points to it. *)
Definition outOfReach (k : loc) (kr : KeyRing) (dpb : DecryptionHandleBuilder)
    (σ : Heap) : Prop :=
  keyringStore σ !! k = Some kr
  /\ forall h, handles σ !! handle dpb = Some h ->
               dh_DecryptionKeyRing h <> Some k /\ dh_VerifyKeyRing h <> Some k.

(** ** A reference library for the closed examples

    A small instance of the collaborators: a cipher given by its table, a
    cipher-name lookup, and a message reader over packet lists. *)
Module Toy.

Fixpoint bytes_eqb (a b : bytes) : bool :=
  match a, b with
  | [], [] => true
  | x :: a', y :: b' => Byte.eqb x y && bytes_eqb a' b'
  | _, _ => false
  end.

(** The cipher identifiers of RFC 4880 for the names the package knows. *)
Definition GetCipherFunc (sk : SessionKey) : CipherFunction * option error :=
  if String.eqb (Algo sk) "aes128" then (7, None)
  else if String.eqb (Algo sk) "aes256" then (9, None)
  else (0, Some (errors_New "gopenpgp: unsupported cipher function")).

(** One line of the cipher's table: the packets [plain] were encrypted to
    the contents [cipherText] under [key]. *)
Record entry : Type := mkEntry {
  cipherText : bytes;
  key : bytes;
  plain : list Packet
}.

Fixpoint lookupEntry (book : list entry) (contents k : bytes) : option (list Packet) :=
  match book with
  | [] => None
  | e :: book' =>
      if bytes_eqb (cipherText e) contents && bytes_eqb (key e) k
      then Some (plain e)
      else lookupEntry book' contents k
  end.

(** An integrity-checked cipher: decryption succeeds under the key the
    contents were encrypted with and under no other. *)
Definition Decrypt (book : list entry) (p : Packet) (dc : CipherFunction) (k : bytes)
  : error + ReadCloser :=
  match p with
  | SymmetricallyEncrypted _ contents | AEADEncrypted contents =>
      match lookupEntry book contents k with
      | Some packets => inr packets
      | None => inl (library_error "openpgp: incorrect key")
      end
  | _ => inl (library_error "openpgp: not an encrypted data packet")
  end.

(** The one-pass signature packets in front of the literal data. *)
Fixpoint onePassSignatures (r : Reader) : list SignatureCandidate * Reader :=
  match r with
  | OnePassSignature t k :: rest =>
      let '(cs, rest') := onePassSignatures rest in
      (mkSignatureCandidate t k :: cs, rest')
  | _ => ([], r)
  end.

Definition isSignature (p : Packet) : bool :=
  match p with
  | Signature _ _ _ => true
  | _ => false
  end.

Definition trailingCandidates (r : Reader) : list SignatureCandidate :=
  flat_map (fun p => match p with
                     | Signature t k _ => [mkSignatureCandidate t k]
                     | _ => []
                     end) r.

(** Reads a plaintext message: one-pass signatures, the literal data, the
    signatures.  With the sequence check on, every signature needs its
    one-pass packet in front; with the check off, signatures may follow the
    literal data on their own. *)
Definition parseMessage (strict : bool) (r : Reader) : error + MessageDetails :=
  let '(ops, rest) := onePassSignatures r in
  match rest with
  | LiteralDataPacket l :: sigs =>
      if negb (forallb isSignature sigs)
      then inl (library_error "openpgp: unexpected packet")
      else if strict && negb (length sigs =? length ops)%nat
      then inl (library_error "openpgp: invalid packet sequence")
      else
        let candidates := if (0 <? length ops)%nat then ops else trailingCandidates sigs in
        inr (mkMessageDetails (0 <? length candidates)%nat candidates
               (libraryBody (Body l)) (Some l) None)
  | _ => inl (library_error "openpgp: no literal data")
  end.

(** [Config.StrictPacketSequence]: the check is on unless switched off. *)
Definition strictPacketSequence (config : Config) : bool :=
  match cfg_CheckPacketSequence config with
  | Some b => b
  | None => true
  end.

(** [ReadMessage] without a prompt, on a plaintext packet stream. *)
Definition readPlain (r : option Reader) (keyring : EntityList) (config : Config)
  : error + MessageDetails :=
  match r with
  | None => inl (library_error "openpgp: nil reader")
  | Some packets => parseMessage (strictPacketSequence config) packets
  end.

Definition decryptWithPassphrase (book : list entry) (config : Config)
    (contents pw : bytes) : option (error + MessageDetails) :=
  match lookupEntry book contents pw with
  | Some packets => Some (parseMessage (strictPacketSequence config) packets)
  | None => None
  end.

(** [ReadMessage] with a prompt, on a password-encrypted message: asks for
    the passphrase, tries it, and asks once more when it does not fit; an
    error of the prompt ends the call. *)
Definition readWithPrompt (book : list entry) (r : option Reader)
    (keyring : EntityList) (config : Config) : ReadProc :=
  match r with
  | Some (SymmetricKeyEncrypted _ :: SymmetricallyEncrypted _ contents :: _) =>
      AskPrompt [] true (fun a1 =>
        match a1 with
        | (_, Some e) => Finished (inl e)
        | (None, None) => Finished (inl (library_error "openpgp: incorrect key"))
        | (Some pw1, None) =>
            match decryptWithPassphrase book config contents pw1 with
            | Some res => Finished res
            | None =>
                AskPrompt [] true (fun a2 =>
                  match a2 with
                  | (_, Some e) => Finished (inl e)
                  | (None, None) => Finished (inl (library_error "openpgp: incorrect key"))
                  | (Some pw2, None) =>
                      match decryptWithPassphrase book config contents pw2 with
                      | Some res => Finished res
                      | None => Finished (inl (library_error "openpgp: incorrect key"))
                      end
                  end)
            end
        end)
  | _ => Finished (inl (library_error "openpgp: no symmetric key packet"))
  end.

Definition lib (book : list entry) : OpenPGP :=
  mkOpenPGP readPlain (readWithPrompt book).

(** A detached-signature reader that verifies nothing: it hands on the data
    body and records the signature stream as the literal data it saw. *)
Definition verifyingDetachedReader (data signature : BodyReader)
    (verifyKeyRing : option loc) (verificationContext : option VerificationContext)
    (disableTimeCheck : bool) (config : Config) (clock : Clock)
  : option VerifyDataReader * option error :=
  (Some (mkVerifyDataReader
           (mkMessageDetails true [] data
              (Some (mkLiteralData false "signature" 0 (readAll (fun b => b) signature)))
              None)
           data verifyKeyRing (clock 0) disableTimeCheck false verificationContext),
   None).

(** Modelled from the spec: the canonicalizing filter of
    [internal.NewSanitizeReader] (package [internal], not among the source
    files), which "normalizes line endings" of a body that "used CR, LF, or
    CRLF": every line ending becomes a single LF. *)
Fixpoint canonicalize (b : bytes) : bytes :=
  match b with
  | [] => []
  | Byte.x0d :: rest =>
      match rest with
      | Byte.x0a :: _ => canonicalize rest
      | _ => Byte.x0a :: canonicalize rest
      end
  | c :: rest => c :: canonicalize rest
  end.

(** Modelled from the spec: [decryptionHandle.validate]
    (decryption_handle.go, not among the source files), which rejects "a
    request with zero unlock sources". *)
Definition validate (ks : gmap loc KeyRing) (h : decryptionHandle) : option error :=
  match dh_DecryptionKeyRing h, dh_Password h, dh_SessionKey h, dh_SessionKeys h with
  | None, None, None, [] =>
      Some (errors_New "gopenpgp: no decryption key material provided")
  | _, _, _, _ => None
  end.

(** Modelled from the spec: [defaultDecryptionHandle] (decryption_handle.go,
    not among the source files), the "fresh default": nothing configured,
    the builder's clock. *)
Definition defaultDecryptionHandle (clock : Clock) : decryptionHandle :=
  mkDecryptionHandle None None [] None None None false false false clock.

(** A key as the key-ring helpers see it: its id, and whether it is a
    private key that is still locked. *)
Record Key : Type := mkKey { keyId : Z; locked : bool }.

(** Stand-ins for [KeyRing.AddKey] and [NewKeyRing] (keyring.go, not among
    the source files), of which the builder only uses that they return a key
    ring and an error: here a locked key is refused with an error, any other
    key is appended. *)
Definition AddKey (kr : KeyRing) (k : Key) : KeyRing * option error :=
  if locked k
  then (kr, Some (errors_New "gopenpgp: unable to add locked key to a keyring"))
  else (mkKeyRing (entities kr ++ [keyId k]), None).

Definition NewKeyRing (k : Key) : option KeyRing * option error :=
  let '(kr, e) := AddKey (mkKeyRing []) k in (Some kr, e).

End Toy.

(** ** Inputs of the closed examples *)
Module Examples.

Import Byte.

Definition k1 : SessionKey := mkSessionKey [x11; x11] "aes128" false.
Definition k2 : SessionKey := mkSessionKey [x22; x22] "aes256" false.
(** A candidate whose cipher name the package does not know. *)
Definition kUnknown : SessionKey := mkSessionKey [x33; x33] "rot13" false.

Definition hello : LiteralData :=
  mkLiteralData true "filename.txt" 1700000000 [x48; x65; x6c; x6c; x6f].

Definition signatureLiteral : LiteralData :=
  mkLiteralData false "signature.sig" 1600000000 [x73; x69; x67].
Definition otherLiteral : LiteralData :=
  mkLiteralData false "other.sig" 1500000000 [x73].

(** The cipher's table: [hello] under [k1], under [k2], and under the
    passphrase [x70 x77]; a literal followed by a signature without its
    one-pass packet, and two further literals, under [k1]. *)
Definition book : list Toy.entry :=
  [ Toy.mkEntry [xa1] (Key k1) [LiteralDataPacket hello];
    Toy.mkEntry [xa2] (Key k2) [LiteralDataPacket hello];
    Toy.mkEntry [xa3] [x70; x77] [LiteralDataPacket hello];
    Toy.mkEntry [xa4] (Key k1)
      [LiteralDataPacket hello; Signature SigTypeBinary 5 1700000000];
    Toy.mkEntry [xa5] (Key k1) [LiteralDataPacket signatureLiteral];
    Toy.mkEntry [xa6] (Key k1) [LiteralDataPacket otherLiteral] ].

Definition dataUnderK1 : Packet := SymmetricallyEncrypted true [xa1].
Definition dataUnderK2 : Packet := SymmetricallyEncrypted true [xa2].

Definition sessionHandle (candidates : list SessionKey) : decryptionHandle :=
  mkDecryptionHandle None None candidates None None None false false false
    (NewConstantClock 1700000000).

Definition passwordHandle (pw : bytes) : decryptionHandle :=
  mkDecryptionHandle None None [] (Some pw) None None false false false
    (NewConstantClock 1700000000).

Definition passwordMessage : Reader :=
  [SymmetricKeyEncrypted [x00]; SymmetricallyEncrypted true [xa3]].

(** A signed message with two signature candidates, the first of text type
    and the last binary, over a body with a CRLF line ending. *)
Definition mixedSignatures : MessageDetails :=
  mkMessageDetails true
    [mkSignatureCandidate SigTypeText 5; mkSignatureCandidate SigTypeBinary 6]
    (libraryBody [x61; x0d; x0a; x62]) None None.

(** A signed message whose only signature candidate is of text type. *)
Definition textSigned : MessageDetails :=
  mkMessageDetails true [mkSignatureCandidate SigTypeText 5]
    (libraryBody [x61; x0d; x0a; x62]) None None.

Definition keyHandle (k : loc) (pw : option bytes) : decryptionHandle :=
  mkDecryptionHandle (Some k) None [] pw None None false false false
    (NewConstantClock 1700000000).

(** Builder states: a new builder whose draft is at address 0, and a
    builder whose draft holds a password. *)
Definition clock : Clock := NewConstantClock 1700000000.
Definition builder0 : DecryptionHandleBuilder := mkBuilder 0%nat clock None.
Definition heapNew : Heap := mkHeap {[ 0%nat := Toy.defaultDecryptionHandle clock ]} ∅.
Definition heapPassword : Heap := mkHeap {[ 0%nat := passwordHandle [x70; x77] ]} ∅.

Definition lockedKey : Toy.Key := Toy.mkKey 7 true.
Definition unlockedKey : Toy.Key := Toy.mkKey 8 false.

(** The new builder after [DecryptionKey(lockedKey)], which fails. *)
Definition builderAfterLocked : DecryptionHandleBuilder :=
  mkBuilder 0%nat clock
    (Some (errors_New "gopenpgp: unable to add locked key to a keyring")).
Definition heapAfterLocked : Heap :=
  mkHeap {[ 0%nat := setDecryptionKeyRing (Toy.defaultDecryptionHandle clock) (Some 0%nat) ]}
         {[ 0%nat := mkKeyRing [] ]}.

End Examples.

(** ** [getSignaturePacket] *)

Section SignaturePacket.

(** [packet.Read(bytes.NewReader(sig))] (the OpenPGP library). *)
Variable packet_Read : bytes -> option Packet * option error.

(** The type assertion of [p] to a pointer to [packet.Signature]. *)
Definition asSignature (p : option Packet) : option Packet :=
  match p with
  | Some (Signature t k c) => Some (Signature t k c)
  | _ => None
  end.

Definition getSignaturePacket (sig : bytes) : option Packet * option error :=
  let '(p, err) := packet_Read sig in
  match err with
  | Some e => (None, Some e)
  | None =>
      match asSignature p with
      | None => (None, errors_Wrap err "gopenpgp: invalid signature packet")
      | Some sigPacket => (Some sigPacket, None)
      end
  end.

End SignaturePacket.

(** ** One packet of an attempt *)

Section PacketAttempt.

Variable GetCipherFunc : SessionKey -> CipherFunction * option error.
Variable Decrypt : Packet -> CipherFunction -> bytes -> error + ReadCloser.

(** What one packet that is not a key-exchange packet gives an attempt. *)
Definition attemptOnPacket (sessionKey : SessionKey) (p : Packet)
  : option ReadCloser * option error :=
  if isDataPacket p
  then decryptDataPacket GetCipherFunc Decrypt sessionKey p
  else (None, Some (errors_New "gopenpgp: invalid packet type")).

End PacketAttempt.

(** The handle with other session key candidates. *)
Definition setSessionKeys (h : decryptionHandle) (v : list SessionKey) :=
  mkDecryptionHandle (dh_DecryptionKeyRing h) (dh_SessionKey h) v (dh_Password h)
    (dh_VerifyKeyRing h) (dh_VerificationContext h) (dh_DisableVerifyTimeCheck h)
    (dh_DisableIntendedRecipients h) (dh_RetrieveSessionKey h) (dh_clock h).

(** ** Sequences of builder calls *)

Section BuilderCalls.

Variable Key : Type.
Variable NewKeyRing : Key -> option KeyRing * option error.
Variable AddKey : KeyRing -> Key -> KeyRing * option error.
Variable validate : gmap loc KeyRing -> decryptionHandle -> option error.
Variable defaultDecryptionHandle : Clock -> decryptionHandle.

(** A call on the builder: a configuration method, or [New]. *)
Inductive builderCall : Type :=
| configure (c : setterCall Key)
| build.

(** Runs the calls in order: the builder afterwards and what each [New]
    returned. *)
Fixpoint runCalls (dpb : DecryptionHandleBuilder) (cs : list builderCall)
  : M (DecryptionHandleBuilder * list (option loc * option error)) :=
  match cs with
  | [] => mret (dpb, [])
  | configure c :: cs' =>
      do dpb' <- applySetter Key NewKeyRing AddKey dpb c ;
      runCalls dpb' cs'
  | build :: cs' =>
      do r <- New validate defaultDecryptionHandle dpb ;
      do rest <- runCalls (snd r) cs' ;
      mret (fst rest, fst r :: snd rest)
  end.

(** [DecryptionKey] and [VerifyKey], the methods that assign [err]. *)
Definition isKeySetter (c : setterCall Key) : bool :=
  match c with
  | callDecryptionKey _ _ | callVerifyKey _ _ => true
  | _ => false
  end.

(** The key ring the call hands over, if any, is an object of the heap. *)
Definition validCall (σ : Heap) (c : builderCall) : Prop :=
  match c with
  | configure (callDecryptionKeys _ (Some k))
  | configure (callVerifyKeys _ (Some k)) => is_Some (keyringStore σ !! k)
  | _ => True
  end.

End BuilderCalls.

(** The builder's pointers hold objects: the draft is on the heap, and so
    are the key rings the draft points to. *)
Definition wellFormed (dpb : DecryptionHandleBuilder) (σ : Heap) : Prop :=
  exists h, handles σ !! handle dpb = Some h
    /\ (forall k, dh_DecryptionKeyRing h = Some k -> is_Some (keyringStore σ !! k))
    /\ (forall k, dh_VerifyKeyRing h = Some k -> is_Some (keyringStore σ !! k)).

(** ** The signature handle builder *)

Module Sign.

Record SigningContext : Type := mkSigningContext {
  sc_Value : string;
  sc_IsCritical : bool
}.

(** The fields of [signatureHandle] the source file uses; [P] is the type
    [SignProfile]. *)
Record signatureHandle (P : Type) : Type := mkSignatureHandle {
  sh_SignKeyRing : option loc;
  sh_SignContext : option SigningContext;
  sh_Detached : bool;
  sh_Armored : bool;
  sh_ArmorHeaders : option (gmap string string);
  sh_IsUTF8 : bool;
  sh_clock : Clock;
  sh_profile : P
}.
Arguments mkSignatureHandle {P} _ _ _ _ _ _ _ _.
Arguments sh_SignKeyRing {P} _.
Arguments sh_SignContext {P} _.
Arguments sh_Detached {P} _.
Arguments sh_Armored {P} _.
Arguments sh_ArmorHeaders {P} _.
Arguments sh_IsUTF8 {P} _.
Arguments sh_clock {P} _.
Arguments sh_profile {P} _.

Record SignHeap (P : Type) : Type := mkSignHeap {
  signHandles : gmap loc (signatureHandle P);
  signKeyrings : gmap loc KeyRing
}.
Arguments mkSignHeap {P} _ _.
Arguments signHandles {P} _.
Arguments signKeyrings {P} _.

Record SignHandleBuilder : Type := mkSignBuilder {
  shb_handle : loc;
  shb_defaultClock : Clock;
  shb_err : option error
}.

Section SignBuilder.

(** Of this package but outside the source file: the types [SignProfile] and
    [Key], [NewKeyRing] and [KeyRing.AddKey], [signatureHandle.validate],
    and the value of the object [defaultSignatureHandle(profile, clock)]
    points to. *)
Variable P : Type.
Variable Key : Type.
Variable NewKeyRing : Key -> option KeyRing * option error.
Variable AddKey : KeyRing -> Key -> KeyRing * option error.
Variable validate : gmap loc KeyRing -> signatureHandle P -> option error.
Variable defaultSignatureHandle : P -> Clock -> signatureHandle P.

Definition S (A : Type) : Type := SignHeap P -> option (A * SignHeap P).

(** [&signatureHandle{...}]: a new object at an unused address. *)
Definition allocSignHandle (h : signatureHandle P) (σ : SignHeap P)
  : loc * SignHeap P :=
  let l := fresh (dom (signHandles σ)) in
  (l, mkSignHeap (<[l := h]> (signHandles σ)) (signKeyrings σ)).

Definition newSignHandleBuilder (profile : P) (clock : Clock) : S SignHandleBuilder :=
  fun σ =>
    let '(l, σ') := allocSignHandle (defaultSignatureHandle profile clock) σ in
    Some (mkSignBuilder l clock None, σ').

(** Updates the draft: [shb.handle.F = v; return shb]. *)
Definition updateSignHandle (shb : SignHandleBuilder)
    (f : signatureHandle P -> signatureHandle P) : S SignHandleBuilder :=
  fun σ =>
    match signHandles σ !! shb_handle shb with
    | Some h =>
        Some (shb, mkSignHeap (<[shb_handle shb := f h]> (signHandles σ))
                     (signKeyrings σ))
    | None => None
    end.

Definition setSignKeyRing (h : signatureHandle P) (v : option loc) :=
  mkSignatureHandle v (sh_SignContext h) (sh_Detached h) (sh_Armored h)
    (sh_ArmorHeaders h) (sh_IsUTF8 h) (sh_clock h) (sh_profile h).
Definition setSignContext (h : signatureHandle P) (v : option SigningContext) :=
  mkSignatureHandle (sh_SignKeyRing h) v (sh_Detached h) (sh_Armored h)
    (sh_ArmorHeaders h) (sh_IsUTF8 h) (sh_clock h) (sh_profile h).
Definition setDetached (h : signatureHandle P) (v : bool) :=
  mkSignatureHandle (sh_SignKeyRing h) (sh_SignContext h) v (sh_Armored h)
    (sh_ArmorHeaders h) (sh_IsUTF8 h) (sh_clock h) (sh_profile h).
Definition setArmored (h : signatureHandle P) (v : bool) :=
  mkSignatureHandle (sh_SignKeyRing h) (sh_SignContext h) (sh_Detached h) v
    (sh_ArmorHeaders h) (sh_IsUTF8 h) (sh_clock h) (sh_profile h).
Definition setArmorHeaders (h : signatureHandle P) (v : option (gmap string string)) :=
  mkSignatureHandle (sh_SignKeyRing h) (sh_SignContext h) (sh_Detached h)
    (sh_Armored h) v (sh_IsUTF8 h) (sh_clock h) (sh_profile h).
Definition setIsUTF8 (h : signatureHandle P) (v : bool) :=
  mkSignatureHandle (sh_SignKeyRing h) (sh_SignContext h) (sh_Detached h)
    (sh_Armored h) (sh_ArmorHeaders h) v (sh_clock h) (sh_profile h).
Definition setSignClock (h : signatureHandle P) (v : Clock) :=
  mkSignatureHandle (sh_SignKeyRing h) (sh_SignContext h) (sh_Detached h)
    (sh_Armored h) (sh_ArmorHeaders h) (sh_IsUTF8 h) v (sh_profile h).

Definition SigningKey (shb : SignHandleBuilder) (key : Key) : S SignHandleBuilder :=
  fun σ =>
    match signHandles σ !! shb_handle shb with
    | None => None
    | Some h =>
        match sh_SignKeyRing h with
        | None =>
            let '(keyRing, e) := NewKeyRing key in
            match keyRing with
            | Some kr =>
                let k := fresh (dom (signKeyrings σ)) in
                Some (mkSignBuilder (shb_handle shb) (shb_defaultClock shb) e,
                      mkSignHeap
                        (<[shb_handle shb := setSignKeyRing h (Some k)]> (signHandles σ))
                        (<[k := kr]> (signKeyrings σ)))
            | None =>
                Some (mkSignBuilder (shb_handle shb) (shb_defaultClock shb) e,
                      mkSignHeap
                        (<[shb_handle shb := setSignKeyRing h None]> (signHandles σ))
                        (signKeyrings σ))
            end
        | Some k =>
            match signKeyrings σ !! k with
            | None => None
            | Some kr =>
                let '(kr', e) := AddKey kr key in
                Some (mkSignBuilder (shb_handle shb) (shb_defaultClock shb) e,
                      mkSignHeap (signHandles σ) (<[k := kr']> (signKeyrings σ)))
            end
        end
    end.

Definition SigningKeys (shb : SignHandleBuilder) (signingKeys : option loc)
  : S SignHandleBuilder :=
  updateSignHandle shb (fun h => setSignKeyRing h signingKeys).

Definition SigningContext_ (shb : SignHandleBuilder)
    (siningContext : option SigningContext) : S SignHandleBuilder :=
  updateSignHandle shb (fun h => setSignContext h siningContext).

Definition Detached (shb : SignHandleBuilder) : S SignHandleBuilder :=
  updateSignHandle shb (fun h => setDetached h true).

Definition Armor (shb : SignHandleBuilder) : S SignHandleBuilder :=
  updateSignHandle shb (fun h => setArmored h true).

(** The body of [ArmorWithHeader] on the draft. *)
Definition armorWithHeader (version comment : string) (h : signatureHandle P)
  : signatureHandle P :=
  let h := setArmored h true in
  let headers :=
    match sh_ArmorHeaders h with
    | None => ∅
    | Some m => m
    end in
  let headers := <["Version" := version]> headers in
  let headers := <["Comment" := comment]> headers in
  setArmorHeaders h (Some headers).

Definition ArmorWithHeader (shb : SignHandleBuilder) (version comment : string)
  : S SignHandleBuilder :=
  updateSignHandle shb (armorWithHeader version comment).

Definition UTF8 (shb : SignHandleBuilder) : S SignHandleBuilder :=
  updateSignHandle shb (fun h => setIsUTF8 h true).

Definition SignTime (shb : SignHandleBuilder) (unixTime : Z) : S SignHandleBuilder :=
  updateSignHandle shb (fun h => setSignClock h (NewConstantClock unixTime)).

(** [New]: the returned pair, and the builder afterwards. *)
Definition New (shb : SignHandleBuilder)
  : S ((option loc * option error) * SignHandleBuilder) :=
  fun σ =>
    match shb_err shb with
    | Some e => Some (((None, Some e), shb), σ)
    | None =>
        match signHandles σ !! shb_handle shb with
        | None => None
        | Some h =>
            let e := validate (signKeyrings σ) h in
            let shb := mkSignBuilder (shb_handle shb) (shb_defaultClock shb) e in
            match shb_err shb with
            | Some e' => Some (((None, Some e'), shb), σ)
            | None =>
                let handle0 := shb_handle shb in
                let '(l, σ') :=
                  allocSignHandle
                    (defaultSignatureHandle (sh_profile h) (shb_defaultClock shb)) σ in
                Some (((Some handle0, None),
                       mkSignBuilder l (shb_defaultClock shb) (shb_err shb)), σ')
            end
        end
    end.

Definition Error (shb : SignHandleBuilder) : option error := shb_err shb.

(** A call of one of the configuration methods. *)
Inductive signCall : Type :=
| callSigningKey (key : Key)
| callSigningKeys (signingKeys : option loc)
| callSigningContext (siningContext : option SigningContext)
| callDetached
| callArmor
| callArmorWithHeader (version comment : string)
| callUTF8
| callSignTime (unixTime : Z).

Definition applySignCall (shb : SignHandleBuilder) (c : signCall) : S SignHandleBuilder :=
  match c with
  | callSigningKey k => SigningKey shb k
  | callSigningKeys r => SigningKeys shb r
  | callSigningContext c => SigningContext_ shb c
  | callDetached => Detached shb
  | callArmor => Armor shb
  | callArmorWithHeader v c => ArmorWithHeader shb v c
  | callUTF8 => UTF8 shb
  | callSignTime t => SignTime shb t
  end.

(** A chain [shb.A(...).B(...)...]. *)
Fixpoint applySignCalls (shb : SignHandleBuilder) (cs : list signCall)
  : S SignHandleBuilder :=
  match cs with
  | [] => fun σ => Some (shb, σ)
  | c :: cs' =>
      fun σ =>
        match applySignCall shb c σ with
        | Some (shb', σ') => applySignCalls shb' cs' σ'
        | None => None
        end
  end.

Definition isSigningKey (c : signCall) : bool :=
  match c with
  | callSigningKey _ => true
  | _ => false
  end.

(** The armor headers of a handle, a nil map holding nothing. *)
Definition armorHeader (h : signatureHandle P) (name : string) : option string :=
  match sh_ArmorHeaders h with
  | Some m => m !! name
  | None => None
  end.

End SignBuilder.

End Sign.

(** ** Further inputs of the closed examples *)
Module MoreExamples.

Import Byte Examples.

(** A packet reader over serialized packets that knows two byte strings. *)
Definition readTable (sig : bytes) : option Packet * option error :=
  match sig with
  | [x01] => (Some (Signature SigTypeBinary 5 1700000000), None)
  | [x02] => (Some (UserId "alice"), None)
  | _ => (None, Some io_EOF)
  end.

Definition keyPackets : Reader := [EncryptedKey 5 [x00]; SymmetricKeyEncrypted [x00]].

Definition v6Key : SessionKey := mkSessionKey [x11; x11] "rot13" true.

(** A builder with a stored error whose draft holds nothing. *)
Definition builderFailed : DecryptionHandleBuilder :=
  mkBuilder 0%nat clock
    (Some (errors_New "gopenpgp: no decryption key material provided")).

(** A caller's key ring at address 3, and a draft pointing to it. *)
Definition heapCallerRing : Heap :=
  mkHeap {[ 0%nat := setDecryptionKeyRing (Toy.defaultDecryptionHandle clock) (Some 3%nat) ]}
         {[ 3%nat := mkKeyRing [42] ]}.

Definition signDefault (profile : Z) (c : Clock) : Sign.signatureHandle Z :=
  Sign.mkSignatureHandle None None false false None false c profile.

Definition signValidate (ks : gmap loc KeyRing) (h : Sign.signatureHandle Z)
  : option error :=
  match Sign.sh_SignKeyRing h with
  | None => Some (errors_New "gopenpgp: no signing key provided")
  | Some _ => None
  end.

Definition signBuilder0 : Sign.SignHandleBuilder := Sign.mkSignBuilder 0%nat clock None.

(** A heap whose draft holds no signing key ring. *)
Definition signHeapNoKey : Sign.SignHeap Z :=
  Sign.mkSignHeap {[ 0%nat := signDefault 7 clock ]} ∅.

Definition signHeap0 : Sign.SignHeap Z :=
  Sign.mkSignHeap
    {[ 0%nat := Sign.mkSignatureHandle (Some 0%nat) None true false
                  (Some {[ "Hash" := "SHA512" ]}) false clock 7 ]}
    {[ 0%nat := mkKeyRing [42] ]}.

End MoreExamples.

(** * Properties *)

(** ** One decryption attempt with one session key *)

Section SessionKeyFacts.

Variable GetCipherFunc : SessionKey -> CipherFunction * option error.
Variable Decrypt : Packet -> CipherFunction -> bytes -> error + ReadCloser.

Local Abbreviation attempt := (decryptStreamWithSessionKey GetCipherFunc Decrypt).
Local Abbreviation loop := (sessionKeyLoop GetCipherFunc Decrypt).

(** The loop body in terms of [Next]: one packet is read per turn. *)
Lemma decryptStreamWithSessionKey_Next sk r :
  attempt sk r =
  match Next r with
  | ((_, Some e), r') =>
      ((None, errors_Wrap (Some e) "gopenpgp: unable to read symmetric packet"), r')
  | ((Some p, None), r') =>
      if isKeyPacket p then attempt sk r'
      else if isDataPacket p then (decryptDataPacket GetCipherFunc Decrypt sk p, r')
      else ((None, Some (errors_New "gopenpgp: invalid packet type")), r')
  | ((None, None), r') => ((None, None), r')
  end.
Proof. destruct r as [|p r]; [reflexivity|]. destruct p; reflexivity. Qed.

Lemma decryptStreamWithSessionKey_skip sk r :
  attempt sk r = attempt sk (skipKeyPackets r).
Proof.
  induction r as [|p r IH]; [reflexivity|].
  destruct p; simpl; try reflexivity; exact IH.
Qed.

Lemma skipKeyPackets_head r p rest :
  skipKeyPackets r = p :: rest -> isKeyPacket p = false.
Proof.
  induction r as [|q r IH]; simpl; [discriminate|].
  destruct (isKeyPacket q) eqn:Hq; [exact IH|].
  intros [= -> _]. exact Hq.
Qed.

Lemma attempt_end_of_stream sk r :
  skipKeyPackets r = [] ->
  attempt sk r =
  ((None, Some (withMessage io_EOF "gopenpgp: unable to read symmetric packet")), []).
Proof. intros H. rewrite decryptStreamWithSessionKey_skip, H. reflexivity. Qed.

Lemma attempt_data_packet sk r p rest :
  skipKeyPackets r = p :: rest -> isDataPacket p = true ->
  attempt sk r = (decryptDataPacket GetCipherFunc Decrypt sk p, rest).
Proof.
  intros H Hd. rewrite decryptStreamWithSessionKey_skip, H.
  destruct p; simpl in Hd; try discriminate; reflexivity.
Qed.

(** A single attempt stops with "invalid packet type" at the first packet
    that is neither a key-exchange nor an encrypted-data packet, and produces
    no decrypted stream. *)
Lemma attempt_invalid_packet sk r p rest :
  skipKeyPackets r = p :: rest -> isDataPacket p = false ->
  attempt sk r = ((None, Some (errors_New "gopenpgp: invalid packet type")), rest).
Proof.
  intros H Hd. pose proof (skipKeyPackets_head _ _ _ H) as Hk.
  rewrite decryptStreamWithSessionKey_skip, H.
  destruct p; simpl in Hd, Hk; try discriminate; reflexivity.
Qed.

(** The arm for encrypted-data packets either fails or yields a stream. *)
Lemma decryptDataPacket_result sk p :
  isDataPacket p = true ->
  (exists e, decryptDataPacket GetCipherFunc Decrypt sk p = (None, Some e)) \/
  (exists d, decryptDataPacket GetCipherFunc Decrypt sk p = (Some d, None)).
Proof.
  intros Hp. unfold decryptDataPacket.
  destruct (if negb (v6 sk) then GetCipherFunc sk else (0, None)) as [dc [e|]].
  - left. eexists. reflexivity.
  - assert (asEncryptedDataPacket p = Some p) as ->
      by (destruct p; simpl in Hp; try discriminate; reflexivity).
    destruct (Decrypt p dc (Key sk)) as [e|d].
    + left. eexists. reflexivity.
    + right. eexists. reflexivity.
Qed.

Lemma attempt_result sk r :
  (exists e, fst (attempt sk r) = (None, Some e)) \/
  (exists d, fst (attempt sk r) = (Some d, None)).
Proof.
  induction r as [|p r IH]; simpl.
  - left. eexists. reflexivity.
  - destruct p; simpl; try exact IH;
      try (left; eexists; reflexivity);
      apply decryptDataPacket_result; reflexivity.
Qed.

(** Reading is forward only: an attempt leaves a suffix of the stream, and on
    a stream that is not at its end it has consumed at least one packet. *)
Lemma attempt_leaves_suffix sk r :
  exists consumed, r = consumed ++ snd (attempt sk r)
                   /\ (r <> [] -> consumed <> []).
Proof.
  induction r as [|p r [c [IH _]]]; simpl.
  - exists []. split; [reflexivity|congruence].
  - destruct p; simpl;
      first [ exists (EncryptedKey keyId encryptedSession :: c)
            | exists (SymmetricKeyEncrypted encryptedSession :: c)
            | eexists [_] ];
      (split; [simpl; try (f_equal; exact IH); reflexivity | discriminate]).
Qed.

Lemma attempt_consumes sk r :
  r <> [] -> (length (snd (attempt sk r)) < length r)%nat.
Proof.
  intros Hr. destruct (attempt_leaves_suffix sk r) as [c [Heq Hc]].
  specialize (Hc Hr). rewrite Heq at 2. rewrite length_app.
  destruct c; [congruence|simpl; lia].
Qed.

(** *** The candidate loop *)

Lemma loop_success c cs d0 e0 r d r' :
  attempt c r = ((d, None), r') ->
  loop (c :: cs) d0 e0 r = ((d, None, Some c), r').
Proof. intros H. simpl. rewrite H. reflexivity. Qed.

Lemma loop_failure c cs d0 e0 r d e r' :
  attempt c r = ((d, Some e), r') ->
  loop (c :: cs) d0 e0 r = loop cs d (Some e) r'.
Proof. intros H. simpl. rewrite H. reflexivity. Qed.

Lemma loop_app xs ys d0 e0 r :
  loop (xs ++ ys) d0 e0 r =
  match loop xs d0 e0 r with
  | ((d, e, Some c), r') => ((d, e, Some c), r')
  | ((d, e, None), r') => loop ys d e r'
  end.
Proof.
  revert d0 e0 r. induction xs as [|x xs IH]; intros d0 e0 r; simpl; [reflexivity|].
  destruct (attempt x r) as [[d [e|]] r']; [apply IH|reflexivity].
Qed.

(** Candidates are tried in list order and the first whose attempt succeeds
    is selected: everything in front of the selected candidate was tried and
    failed, and the attempts share one reader. *)
Lemma loop_selects_first_success cs d0 e0 r d e c r' :
  loop cs d0 e0 r = ((d, e, Some c), r') ->
  exists before after d1 e1 r1,
    cs = before ++ c :: after
    /\ loop before d0 e0 r = ((d1, e1, None), r1)
    /\ attempt c r1 = ((d, None), r')
    /\ e = None.
Proof.
  revert d0 e0 r. induction cs as [|x cs IH]; intros d0 e0 r; simpl; [discriminate|].
  destruct (attempt x r) as [[dx [ex|]] rx] eqn:Hx.
  - intros H. destruct (IH _ _ _ H) as (b & a & d1 & e1 & r1 & -> & Hb & Hc & He).
    exists (x :: b), a, d1, e1, r1. simpl. rewrite Hx. auto.
  - intros [= <- <- <- <-]. exists [], cs, d0, e0, r. simpl. auto.
Qed.

(** When no candidate is selected, the error left in [err] is the error of
    the attempt with the last candidate. *)
Lemma loop_reports_last_error cs c d0 e0 r d e r' :
  loop (cs ++ [c]) d0 e0 r = ((d, e, None), r') ->
  exists d1 e1 r1 e',
    loop cs d0 e0 r = ((d1, e1, None), r1)
    /\ attempt c r1 = ((d, Some e'), r')
    /\ e = Some e'.
Proof.
  rewrite loop_app. destruct (loop cs d0 e0 r) as [[[d1 e1] [s|]] r1]; [discriminate|].
  simpl. destruct (attempt c r1) as [[dc [ec|]] rc] eqn:Hc; [|discriminate].
  intros [= <- <- <-]. exists d1, e1, r1, ec. auto.
Qed.

(** A correct candidate at the head of the list is selected. *)
Lemma loop_first_candidate_correct c cs r :
  correctCandidate GetCipherFunc Decrypt c r ->
  exists d r', loop (c :: cs) None None r = ((Some d, None, Some c), r').
Proof.
  unfold correctCandidate. intros H.
  destruct (attempt c r) as [[d e] r'] eqn:Ha. simpl in H. subst e.
  destruct (attempt_result c r) as [[e He]|[d' Hd]]; rewrite Ha in *; simpl in *.
  - discriminate.
  - injection Hd as ->. exists d', r'. rewrite Ha. reflexivity.
Qed.

(** At the end of the stream every attempt fails with the end-of-file
    error. *)
Lemma loop_at_end_of_stream cs d e :
  cs <> [] ->
  loop cs d e [] =
  ((None, Some (withMessage io_EOF "gopenpgp: unable to read symmetric packet"), None), []).
Proof.
  revert d e. induction cs as [|c cs IH]; intros d e Hne; [congruence|].
  simpl. destruct cs as [|c' cs]; [reflexivity|]. apply IH. discriminate.
Qed.

(** On a message with one encrypted-data packet, once the first candidate has
    failed every other candidate is tried at the end of the stream: no
    candidate is selected, whichever keys follow. *)
Lemma loop_behind_failed_candidate c c' cs r p :
  skipKeyPackets r = [p] -> isDataPacket p = true ->
  snd (fst (attempt c r)) <> None ->
  loop (c :: c' :: cs) None None r =
  ((None, Some (withMessage io_EOF "gopenpgp: unable to read symmetric packet"), None), []).
Proof.
  intros Hs Hp Hfail. rewrite (attempt_data_packet _ _ _ _ Hs Hp) in Hfail.
  cbn [sessionKeyLoop]. rewrite (attempt_data_packet _ _ _ _ Hs Hp).
  cbn [fst snd] in Hfail.
  destruct (decryptDataPacket GetCipherFunc Decrypt c p) as [d [e|]];
    [|exfalso; apply Hfail; reflexivity].
  assert (c' :: cs <> []) as Hne by discriminate.
  exact (loop_at_end_of_stream (c' :: cs) d (Some e) Hne).
Qed.

End SessionKeyFacts.

(** ** Session-key mode as a whole *)

Section SessionModeFacts.

Variable keyrings : gmap loc KeyRing.
Variable now : Z.
Variable SignatureContextName : string.
Variable GetCipherFunc : SessionKey -> CipherFunction * option error.
Variable Decrypt : Packet -> CipherFunction -> bytes -> error + ReadCloser.
Variable lib : OpenPGP.

Local Abbreviation attempt := (decryptStreamWithSessionKey GetCipherFunc Decrypt).
Local Abbreviation loop := (sessionKeyLoop GetCipherFunc Decrypt).
Local Abbreviation andParse :=
  (decryptStreamWithSessionAndParse keyrings now SignatureContextName
     GetCipherFunc Decrypt lib).

(** With no candidate selected the call fails, and the error wraps the error
    of the attempt with the last candidate. *)
Lemma andParse_no_candidate_succeeds dh cs c r d e r' :
  dh_SessionKeys dh = cs ++ [c] ->
  loop (cs ++ [c]) None None r = ((d, e, None), r') ->
  exists d1 e1 r1 e',
    loop cs None None r = ((d1, e1, None), r1)
    /\ attempt c r1 = ((d, Some e'), r')
    /\ andParse dh r =
       (None, 0,
        Some (withMessage e' "gopenpgp: unable to decrypt message with session key")).
Proof.
  intros Hcs Hl.
  destruct (loop_reports_last_error _ _ _ _ _ _ _ _ _ _ Hl)
    as (d1 & e1 & r1 & e' & H1 & H2 & ->).
  exists d1, e1, r1, e'. split; [exact H1|]. split; [exact H2|].
  unfold decryptStreamWithSessionAndParse. rewrite Hcs, Hl. reflexivity.
Qed.

(** With a single candidate, a packet that is neither a key-exchange nor an
    encrypted-data packet in front of the data packet fails the call. *)
Lemma andParse_single_candidate_invalid_packet dh c r p rest :
  dh_SessionKeys dh = [c] ->
  skipKeyPackets r = p :: rest -> isDataPacket p = false ->
  andParse dh r =
  (None, 0,
   Some (withMessage (errors_New "gopenpgp: invalid packet type")
           "gopenpgp: unable to decrypt message with session key")).
Proof.
  intros Hc Hs Hp. unfold decryptStreamWithSessionAndParse. rewrite Hc. simpl.
  rewrite (attempt_invalid_packet _ _ _ _ _ _ Hs Hp). reflexivity.
Qed.

(** With an empty candidate list nothing is read and the call returns
    neither message details nor an error ([errors.Wrap] of a nil error). *)
Lemma andParse_no_candidates dh r :
  dh_SessionKeys dh = [] -> andParse dh r = (None, 0, None).
Proof. intros H. unfold decryptStreamWithSessionAndParse. rewrite H. reflexivity. Qed.

(** A successful call: a candidate was selected by the loop over the full
    list, the library accepted the decrypted stream, and the details record
    the key of the selected candidate. *)
Lemma andParse_success_inv dh r md t :
  andParse dh r = (Some md, t, None) ->
  exists decrypted selected r' md0,
    loop (dh_SessionKeys dh) None None r = ((decrypted, None, Some selected), r')
    /\ ReadMessage_nilPrompt lib decrypted
         (fst (sessionParseSetup keyrings now SignatureContextName dh))
         (snd (sessionParseSetup keyrings now SignatureContextName dh)) = inr md0
    /\ md_SessionKey md = Some (Key selected)
    /\ md_LiteralData md = md_LiteralData md0.
Proof.
  unfold decryptStreamWithSessionAndParse.
  destruct (loop (dh_SessionKeys dh) None None r) as [[[d e] [sel|]] r'] eqn:Hl.
  - destruct (loop_selects_first_success _ _ _ _ _ _ _ _ _ _ Hl)
      as (_ & _ & _ & _ & _ & _ & _ & _ & ->).
    destruct (sessionParseSetup keyrings now SignatureContextName dh) as [keyring config].
    simpl. destruct (ReadMessage_nilPrompt lib d keyring config) as [e'|md0] eqn:Hr;
      [discriminate|].
    intros [= <- _]. exists d, sel, r', md0. auto.
  - destruct e; discriminate.
Qed.

End SessionModeFacts.

Section SessionModeExamples.

Import Examples.

Local Abbreviation attempt := (decryptStreamWithSessionKey Toy.GetCipherFunc (Toy.Decrypt book)).
Local Abbreviation andParse :=
  (decryptStreamWithSessionAndParse ∅ 0 "context" Toy.GetCipherFunc
     (Toy.Decrypt book) (Toy.lib book)).

(** C1, checked on the code: the candidates are tried in list order and the
    first success is selected, but every attempt reads from the one shared
    reader and leaves it advanced.  The stream holds a single data packet
    encrypted under [k2], so [k2] is a correct candidate and is selected when
    it comes first.  When a candidate that fails comes first (its cipher name
    is unknown, or its key is the wrong one), the attempt with [k2] starts
    behind the data packet, finds the end of the stream, and the call fails
    although the list contains the correct key. *)
Theorem session_key_after_failed_candidate_reads_consumed_stream :
  correctCandidate Toy.GetCipherFunc (Toy.Decrypt book) k2 [dataUnderK2]
  /\ snd (andParse (sessionHandle [k2; k1]) [dataUnderK2]) = None
  /\ snd (attempt kUnknown [dataUnderK2]) = []
  /\ andParse (sessionHandle [kUnknown; k2]) [dataUnderK2] =
     (None, 0,
      Some (withMessage
              (withMessage io_EOF "gopenpgp: unable to read symmetric packet")
              "gopenpgp: unable to decrypt message with session key"))
  /\ andParse (sessionHandle [k1; k2]) [dataUnderK2] =
     (None, 0,
      Some (withMessage
              (withMessage io_EOF "gopenpgp: unable to read symmetric packet")
              "gopenpgp: unable to decrypt message with session key")).
Proof. repeat split; vm_compute; reflexivity. Qed.

(** C6, checked on the code: a single attempt stops at a signature packet in
    front of the data packet with "invalid packet type", and so does the
    call with one candidate.  With two candidates the failed attempt has
    consumed the signature packet, the attempt with the next candidate starts
    at the data packet, and the call succeeds and exposes the plaintext. *)
Theorem invalid_packet_is_consumed_by_failed_attempt :
  attempt k2 [Signature SigTypeBinary 5 0; dataUnderK2] =
    ((None, Some (errors_New "gopenpgp: invalid packet type")), [dataUnderK2])
  /\ andParse (sessionHandle [k2]) [Signature SigTypeBinary 5 0; dataUnderK2] =
     (None, 0,
      Some (withMessage (errors_New "gopenpgp: invalid packet type")
              "gopenpgp: unable to decrypt message with session key"))
  /\ exists md t,
       andParse (sessionHandle [k1; k2]) [Signature SigTypeBinary 5 0; dataUnderK2]
       = (Some md, t, None)
       /\ md_SessionKey md = Some (Key k2)
       /\ readAll (fun b => b) (md_UnverifiedBody md) = Body hello.
Proof.
  split; [vm_compute; reflexivity|]. split; [vm_compute; reflexivity|].
  eexists _, _. split; [vm_compute; reflexivity|]. split; reflexivity.
Qed.

End SessionModeExamples.

(** ** The password prompt *)

Section PromptFacts.

Lemma callPrompt_first pw keys symmetric :
  callPrompt (mkPasswordPrompt pw true) keys symmetric
  = ((Some pw, None), mkPasswordPrompt pw false).
Proof. reflexivity. Qed.

Lemma callPrompt_later pw keys symmetric :
  callPrompt (mkPasswordPrompt pw false) keys symmetric
  = ((None, Some wrongPassword), mkPasswordPrompt pw false).
Proof. reflexivity. Qed.

(** Once the closure has been invoked, every answer is the terminal error
    and the closure never changes again. *)
Lemma runPrompt_used p pw res final answers :
  runPrompt p (mkPasswordPrompt pw false) = (res, final, answers) ->
  Forall (fun a => a = (None, Some wrongPassword)) answers
  /\ final = mkPasswordPrompt pw false.
Proof.
  revert res final answers.
  induction p as [r|keys symmetric k IH]; intros res final answers; simpl.
  - intros [= <- <- <-]. split; [constructor|reflexivity].
  - destruct (runPrompt (k (None, Some wrongPassword)) (mkPasswordPrompt pw false))
      as [[res' final'] answers'] eqn:Hrun.
    intros [= <- <- <-]. destruct (IH _ _ _ _ Hrun) as [Hall ->].
    split; [constructor; [reflexivity|exact Hall]|reflexivity].
Qed.

Lemma runPrompt_fresh p pw res final answers :
  runPrompt p (mkPasswordPrompt pw true) = (res, final, answers) ->
  oneShotAnswers pw answers.
Proof.
  destruct p as [r|keys symmetric k]; simpl.
  - intros [= <- <- <-] i a Hi. destruct i; discriminate Hi.
  - destruct (runPrompt (k (Some pw, None)) (mkPasswordPrompt pw false))
      as [[res' final'] answers'] eqn:Hrun.
    intros [= <- <- <-] i a Hi. destruct (runPrompt_used _ _ _ _ _ Hrun) as [Hall _].
    destruct i as [|i]; simpl in *; [congruence|].
    rewrite Forall_forall in Hall. apply Hall.
    apply list_elem_of_lookup. exists i. exact Hi.
Qed.

Lemma oneShotAnswers_password_once pw answers :
  oneShotAnswers pw answers -> (passwordAnswers answers <= 1)%nat.
Proof.
  intros H. unfold passwordAnswers. destruct answers as [|a rest]; simpl; [lia|].
  assert (List.filter
            (fun a : PromptAnswer => match fst a with Some _ => true | None => false end)
            rest = []) as ->.
  { assert (forall i a, rest !! i = Some a -> a = (None, Some wrongPassword)) as Hrest
      by (intros i b Hb; exact (H (S i) b Hb)).
    clear H. induction rest as [|b rest IH]; simpl; [reflexivity|].
    rewrite (Hrest 0%nat b eq_refl). simpl. apply IH.
    intros i c Hc. exact (Hrest (S i) c Hc). }
  destruct (match fst a with Some _ => true | None => false end); simpl; lia.
Qed.

(** A library that hands the prompt's errors back returns at the second
    invocation, with the prompt's error. *)
Lemma runPrompt_used_propagates p pw res final answers :
  propagatesPromptError p ->
  runPrompt p (mkPasswordPrompt pw false) = (res, final, answers) ->
  answers = [] \/ (answers = [(None, Some wrongPassword)] /\ res = inl wrongPassword).
Proof.
  intros Hp. destruct Hp as [r|keys symmetric k Herr _]; simpl.
  - intros [= <- <- <-]. left. reflexivity.
  - rewrite Herr. simpl. intros [= <- <- <-]. right. split; reflexivity.
Qed.

Lemma runPrompt_fresh_propagates p pw res final answers :
  propagatesPromptError p ->
  runPrompt p (mkPasswordPrompt pw true) = (res, final, answers) ->
  (1 < length answers)%nat ->
  length answers = 2%nat /\ res = inl wrongPassword.
Proof.
  intros Hp. destruct Hp as [r|keys symmetric k _ Hk]; simpl.
  - intros [= <- <- <-]. simpl. lia.
  - destruct (runPrompt (k (Some pw, None)) (mkPasswordPrompt pw false))
      as [[res' final'] answers'] eqn:Hrun.
    intros [= <- <- <-] Hlen.
    destruct (runPrompt_used_propagates _ _ _ _ _ (Hk _) Hrun) as [->|[-> ->]];
      simpl in *; [lia|]. split; reflexivity.
Qed.

End PromptFacts.

(** ** [decryptStream] *)

Section DecryptStreamFacts.

Variable keyrings : gmap loc KeyRing.
Variable now : Z.
Variable SignatureContextName : string.
Variable lib : OpenPGP.

Local Abbreviation setup := (decryptStreamSetup keyrings now SignatureContextName).
Local Abbreviation decrypt := (decryptStream keyrings now SignatureContextName lib).

Lemma decryptStreamSetup_time dh :
  cfg_Time (snd (setup dh)) = Some (NewConstantClock (dh_clock dh now)).
Proof.
  unfold decryptStreamSetup.
  destruct (dh_DecryptionKeyRing dh), (dh_VerifyKeyRing dh),
    (dh_VerificationContext dh); reflexivity.
Qed.

(** The password path, unfolded. *)
Lemma decryptStream_password_path dh msg :
  dh_DecryptionKeyRing dh = None ->
  decrypt dh msg =
  let '(res, answers) :=
    ReadMessage lib (Some msg) (fst (setup dh))
      (createPasswordPrompt (dh_Password dh)) (snd (setup dh)) in
  match res with
  | inl _ => ((None, Some wrongPasswordOrMalformed), answers)
  | inr md =>
      ((Some (mkVerifyDataReader md (selectInternalReader md) (dh_VerifyKeyRing dh)
                (dh_clock dh now) (dh_DisableVerifyTimeCheck dh) false
                (dh_VerificationContext dh)), None), answers)
  end.
Proof.
  intros Hk. unfold decryptStream.
  pose proof (decryptStreamSetup_time dh) as Ht.
  destruct (setup dh) as [entries config]. simpl in *. rewrite Hk.
  destruct (ReadMessage lib (Some msg) entries (createPasswordPrompt (dh_Password dh)) config)
    as [[e|md] answers]; [reflexivity|]. rewrite Ht. reflexivity.
Qed.

(** The private-key path, unfolded. *)
Lemma decryptStream_private_key_path dh msg k :
  dh_DecryptionKeyRing dh = Some k ->
  decrypt dh msg =
  match ReadMessage_nilPrompt lib (Some msg) (fst (setup dh)) (snd (setup dh)) with
  | inl e =>
      ((None, Some (withMessage e "gopenpgp: decrypting message with private keys failed")),
       [])
  | inr md =>
      ((Some (mkVerifyDataReader md (selectInternalReader md) (dh_VerifyKeyRing dh)
                (dh_clock dh now) (dh_DisableVerifyTimeCheck dh) false
                (dh_VerificationContext dh)), None), [])
  end.
Proof.
  intros Hk. unfold decryptStream.
  pose proof (decryptStreamSetup_time dh) as Ht.
  destruct (setup dh) as [entries config]. simpl in *. rewrite Hk. simpl.
  destruct (ReadMessage_nilPrompt lib (Some msg) entries config) as [e|md];
    [reflexivity|]. rewrite Ht. reflexivity.
Qed.

Lemma decryptStreamSetup_ignores_password dh p :
  setup (setPassword dh p) = setup dh.
Proof. reflexivity. Qed.

(** C2: in password mode the prompt answers with the configured password at
    its first invocation and with the terminal error at every later one, so
    the password is handed out at most once; and when the library hands the
    prompt's error back, a second invocation ends the call: exactly two
    invocations, one of them with the password, no reader, and the error
    "wrong password or malformed message". *)
Theorem password_prompt_answers_once dh msg pw reader e answers :
  dh_DecryptionKeyRing dh = None ->
  dh_Password dh = Some pw ->
  decrypt dh msg = ((reader, e), answers) ->
  oneShotAnswers pw answers
  /\ (passwordAnswers answers <= 1)%nat
  /\ (reader = None -> e = Some wrongPasswordOrMalformed)
  /\ (propagatesPromptError
        (ReadMessage_prompting lib (Some msg) (fst (setup dh)) (snd (setup dh))) ->
      (1 < length answers)%nat ->
      length answers = 2%nat /\ reader = None /\ e = Some wrongPasswordOrMalformed).
Proof.
  intros Hk Hpw. rewrite (decryptStream_password_path _ _ Hk), Hpw. simpl.
  destruct (runPrompt (ReadMessage_prompting lib (Some msg) (fst (setup dh)) (snd (setup dh)))
              (mkPasswordPrompt pw true)) as [[res final] ans] eqn:Hrun.
  intros Heq.
  assert (answers = ans) as -> by (destruct res; injection Heq; congruence).
  pose proof (runPrompt_fresh _ _ _ _ _ Hrun) as Hshape.
  split; [exact Hshape|]. split; [exact (oneShotAnswers_password_once _ _ Hshape)|].
  split.
  - destruct res; injection Heq as <- <-; [reflexivity|discriminate].
  - intros Hprop Hlen.
    destruct (runPrompt_fresh_propagates _ _ _ _ _ Hprop Hrun Hlen) as [Hl ->].
    injection Heq as <- <-. auto.
Qed.

(** C10: with a decryption key ring on the handle the library is called with
    a nil prompt, so no prompt is ever invoked and the configured password
    has no influence on the call; the password prompt is built and handed to
    the library only when there is no decryption key ring. *)
Theorem private_keys_take_precedence_over_password dh msg :
  (forall k, dh_DecryptionKeyRing dh = Some k ->
     snd (decrypt dh msg) = []
     /\ (forall p, decrypt (setPassword dh p) msg = decrypt dh msg)
     /\ fst (decrypt dh msg) =
        match ReadMessage_nilPrompt lib (Some msg) (fst (setup dh)) (snd (setup dh)) with
        | inl e =>
            (None,
             Some (withMessage e "gopenpgp: decrypting message with private keys failed"))
        | inr md =>
            (Some (mkVerifyDataReader md (selectInternalReader md) (dh_VerifyKeyRing dh)
                     (dh_clock dh now) (dh_DisableVerifyTimeCheck dh) false
                     (dh_VerificationContext dh)), None)
        end)
  /\ (dh_DecryptionKeyRing dh = None ->
      snd (decrypt dh msg) =
        snd (ReadMessage lib (Some msg) (fst (setup dh))
               (createPasswordPrompt (dh_Password dh)) (snd (setup dh)))
      /\ (fst (fst (decrypt dh msg)) <> None <->
          exists md, fst (ReadMessage lib (Some msg) (fst (setup dh))
                            (createPasswordPrompt (dh_Password dh)) (snd (setup dh)))
                     = inr md)).
Proof.
  split.
  - intros k Hk. split; [|split].
    + rewrite (decryptStream_private_key_path _ _ _ Hk).
      destruct (ReadMessage_nilPrompt lib _ _ _); reflexivity.
    + intros p.
      rewrite (decryptStream_private_key_path (setPassword dh p) msg k Hk).
      rewrite (decryptStream_private_key_path _ _ _ Hk).
      reflexivity.
    + rewrite (decryptStream_private_key_path _ _ _ Hk).
      destruct (ReadMessage_nilPrompt lib _ _ _); reflexivity.
  - intros Hk. rewrite (decryptStream_password_path _ _ Hk).
    destruct (ReadMessage lib (Some msg) (fst (setup dh))
                (createPasswordPrompt (dh_Password dh)) (snd (setup dh)))
      as [[e|md] answers]; simpl.
    + split; [reflexivity|]. split; [congruence|]. intros [md [=]].
    + split; [reflexivity|]. split; [eauto|discriminate].
Qed.

End DecryptStreamFacts.

(** ** The line-ending filter *)

Section SanitizerFacts.

Lemma lastSignatureIsText_spec md :
  lastSignatureIsText md = true <-> lastCandidateIsText md.
Proof.
  unfold lastSignatureIsText, lastCandidateIsText.
  destruct (md_IsSigned md); simpl; [|split; [discriminate|intros [[=] _]]].
  destruct (md_SignatureCandidates md) as [|c0 cs0] using rev_ind; simpl.
  - split; [discriminate|]. intros [_ (cs & c & H & _)]. destruct cs; discriminate H.
  - clear IHcs0. rewrite length_app. simpl.
    replace (length cs0 + 1 - 1)%nat with (length cs0 + 0)%nat by lia.
    rewrite lookup_app_r by lia.
    replace (length cs0 + 0 - length cs0)%nat with 0%nat by lia. simpl.
    replace (0 <? length cs0 + 1)%nat with true
      by (symmetry; apply Nat.ltb_lt; lia). simpl.
    rewrite Z.eqb_eq. split.
    + intros H. split; [reflexivity|]. exists cs0, c0. auto.
    + intros [_ (cs & c & Heq & Ht)]. apply app_inj_tail in Heq as [_ ->]. exact Ht.
Qed.

Lemma selectInternalReader_sanitized md :
  selectInternalReader md = NewSanitizeReader (md_UnverifiedBody md)
  <-> lastCandidateIsText md.
Proof.
  rewrite <- lastSignatureIsText_spec. unfold selectInternalReader.
  destruct (lastSignatureIsText md); split; try reflexivity; try discriminate.
  intros H. exfalso. revert H. generalize (md_UnverifiedBody md).
  induction b; intros H; try discriminate. injection H as H. auto.
Qed.

Lemma selectInternalReader_raw md :
  ~ lastCandidateIsText md -> selectInternalReader md = md_UnverifiedBody md.
Proof.
  rewrite <- lastSignatureIsText_spec. unfold selectInternalReader.
  destruct (lastSignatureIsText md); [intros []; reflexivity|reflexivity].
Qed.

(** When all signature candidates declare one type, as the code assumes,
    the last candidate is of text type exactly when some candidate is. *)
Lemma lastCandidateIsText_one_type md :
  (forall c c', c ∈ md_SignatureCandidates md -> c' ∈ md_SignatureCandidates md ->
                SigType c = SigType c') ->
  lastCandidateIsText md <-> carriesTextSignature md.
Proof.
  intros Hsame. unfold lastCandidateIsText, carriesTextSignature. split.
  - intros [Hs (cs & c & Heq & Ht)]. split; [exact Hs|]. exists c. split; [|exact Ht].
    rewrite Heq. apply elem_of_app. right. apply list_elem_of_singleton. reflexivity.
  - intros [Hs (c & Hin & Ht)]. split; [exact Hs|].
    destruct (md_SignatureCandidates md) as [|c0 cs0] using rev_ind.
    + apply elem_of_nil in Hin as [].
    + exists cs0, c0. split; [reflexivity|]. rewrite <- Ht. apply Hsame; [|exact Hin].
      apply elem_of_app. right. apply list_elem_of_singleton. reflexivity.
Qed.

Variable keyrings : gmap loc KeyRing.
Variable now : Z.
Variable SignatureContextName : string.
Variable GetCipherFunc : SessionKey -> CipherFunction * option error.
Variable Decrypt : Packet -> CipherFunction -> bytes -> error + ReadCloser.
Variable lib : OpenPGP.

Local Abbreviation decrypt := (decryptStream keyrings now SignatureContextName lib).
Local Abbreviation decryptSession :=
  (decryptStreamWithSession keyrings now SignatureContextName GetCipherFunc Decrypt lib).

Lemma decryptStream_reader dh msg reader e :
  fst (decrypt dh msg) = (Some reader, e) ->
  internalReader reader = selectInternalReader (details reader).
Proof.
  unfold decryptStream. destruct (decryptStreamSetup _ _ _ dh) as [entries config].
  destruct (dh_DecryptionKeyRing dh).
  - destruct (ReadMessage lib (Some msg) entries None config) as [[e'|md] answers]; simpl.
    + discriminate.
    + intros [= <- _]. reflexivity.
  - destruct (ReadMessage lib (Some msg) entries _ config) as [[e'|md] answers]; simpl.
    + discriminate.
    + intros [= <- _]. reflexivity.
Qed.

Lemma decryptStreamWithSession_reader dh r reader e :
  decryptSession dh r = returns (Some reader, e) ->
  internalReader reader = selectInternalReader (details reader).
Proof.
  unfold decryptStreamWithSession.
  destruct (decryptStreamWithSessionAndParse _ _ _ _ _ _ dh r) as [[[md|] t] [e'|]];
    try discriminate.
  intros [= <- _]. reflexivity.
Qed.

(** The filter, as the code has it: the reader exposed by [decryptStream] and by
    [decryptStreamWithSession] is the line-ending filter over the body
    exactly when the message is signed and the last of its signature
    candidates declares the text type, and is the body itself otherwise; the
    caller then reads the filtered, respectively the unfiltered, bytes.  When
    all candidates declare one type, this is exactly when the message carries
    a text signature. *)
Theorem sanitizer_follows_last_signature_candidate dh msg reader (sanitize : bytes -> bytes) :
  fst (decrypt dh msg) = (Some reader, None)
  \/ decryptSession dh msg = returns (Some reader, None) ->
  let md := details reader in
  (internalReader reader = NewSanitizeReader (md_UnverifiedBody md)
     <-> lastCandidateIsText md)
  /\ (lastCandidateIsText md ->
      readAll sanitize (internalReader reader)
      = sanitize (readAll sanitize (md_UnverifiedBody md)))
  /\ (~ lastCandidateIsText md ->
      internalReader reader = md_UnverifiedBody md)
  /\ ((forall c c', c ∈ md_SignatureCandidates md -> c' ∈ md_SignatureCandidates md ->
                    SigType c = SigType c') ->
      (internalReader reader = NewSanitizeReader (md_UnverifiedBody md)
       <-> carriesTextSignature md)).
Proof.
  intros H md.
  assert (internalReader reader = selectInternalReader md) as ->.
  { destruct H as [H|H];
      [exact (decryptStream_reader _ _ _ _ H)
      |exact (decryptStreamWithSession_reader _ _ _ _ H)]. }
  split; [apply selectInternalReader_sanitized|].
  split.
  - intros Ht. apply selectInternalReader_sanitized in Ht. rewrite Ht. reflexivity.
  - split; [apply selectInternalReader_raw|].
    intros Hsame. rewrite selectInternalReader_sanitized.
    apply lastCandidateIsText_one_type. exact Hsame.
Qed.

End SanitizerFacts.

Section SanitizerExamples.

Import Examples Byte.

(** C3, checked on the code: the filter is added when the last signature
    candidate declares the text type, under the assumption (the TODO of the
    source) that only one type of signature is present.  This message
    carries a signature candidate of text type followed by a binary one:
    [decryptStream] and [decryptStreamWithSession] expose the body itself,
    and the caller reads the CRLF of the body unchanged although the filter
    would rewrite it.  The same body under the text signature alone is
    exposed through the filter. *)
Theorem text_signature_not_last_is_not_sanitized :
  carriesTextSignature mixedSignatures
  /\ (exists reader,
        fst (decryptStream ∅ 0 "context" (constantLibrary mixedSignatures)
               (passwordHandle [x70; x77]) passwordMessage) = (Some reader, None)
        /\ details reader = mixedSignatures
        /\ internalReader reader = md_UnverifiedBody mixedSignatures
        /\ internalReader reader <> NewSanitizeReader (md_UnverifiedBody mixedSignatures)
        /\ readAll Toy.canonicalize (internalReader reader) = [x61; x0d; x0a; x62]
        /\ Toy.canonicalize [x61; x0d; x0a; x62] = [x61; x0a; x62])
  /\ (exists reader,
        decryptStreamWithSession ∅ 0 "context" Toy.GetCipherFunc (Toy.Decrypt book)
          (constantLibrary mixedSignatures) (sessionHandle [k1]) [dataUnderK1]
        = returns (Some reader, None)
        /\ md_SignatureCandidates (details reader)
           = md_SignatureCandidates mixedSignatures
        /\ readAll Toy.canonicalize (internalReader reader) = [x61; x0d; x0a; x62])
  /\ (exists reader,
        fst (decryptStream ∅ 0 "context" (constantLibrary textSigned)
               (passwordHandle [x70; x77]) passwordMessage) = (Some reader, None)
        /\ internalReader reader = NewSanitizeReader (md_UnverifiedBody textSigned)
        /\ md_UnverifiedBody textSigned = md_UnverifiedBody mixedSignatures
        /\ readAll Toy.canonicalize (internalReader reader) = [x61; x0a; x62]).
Proof.
  split; [|split; [|split]].
  - split; [reflexivity|]. exists (mkSignatureCandidate SigTypeText 5).
    split; [apply list_elem_of_here|reflexivity].
  - eexists. split; [vm_compute; reflexivity|]. simpl.
    repeat split; try reflexivity. discriminate.
  - eexists. split; [vm_compute; reflexivity|]. split; reflexivity.
  - eexists. split; [vm_compute; reflexivity|]. repeat split; reflexivity.
Qed.

Lemma sanitizer_follows_last_signature_candidate_witness :
  let reader :=
    mkVerifyDataReader textSigned (NewSanitizeReader (md_UnverifiedBody textSigned))
      None 1700000000 false false None in
  lastCandidateIsText textSigned
  /\ readAll Toy.canonicalize (internalReader reader) = [x61; x0a; x62].
Proof.
  intros reader.
  assert (fst (decryptStream ∅ 0 "context" (constantLibrary textSigned)
                 (passwordHandle [x70; x77]) passwordMessage) = (Some reader, None)
          \/ decryptStreamWithSession ∅ 0 "context" Toy.GetCipherFunc (Toy.Decrypt book)
               (constantLibrary textSigned) (passwordHandle [x70; x77]) passwordMessage
             = returns (Some reader, None)) as H
    by (left; vm_compute; reflexivity).
  destruct (sanitizer_follows_last_signature_candidate ∅ 0 "context" Toy.GetCipherFunc
              (Toy.Decrypt book) (constantLibrary textSigned)
              (passwordHandle [x70; x77]) passwordMessage reader Toy.canonicalize H)
    as (Hiff & Hread & _).
  assert (lastCandidateIsText textSigned) as Ht by (apply Hiff; reflexivity).
  split; [exact Ht|]. rewrite (Hread Ht). reflexivity.
Defined.

End SanitizerExamples.

(** ** Parsing the decrypted stream, and detached verification *)

Section DetachedFacts.

Variable keyrings : gmap loc KeyRing.
Variable now : Z.
Variable SignatureContextName : string.
Variable GetCipherFunc : SessionKey -> CipherFunction * option error.
Variable Decrypt : Packet -> CipherFunction -> bytes -> error + ReadCloser.
Variable lib : OpenPGP.
Variable verifyingDetachedReader :
  BodyReader -> BodyReader -> option loc -> option VerificationContext ->
  bool -> Config -> Clock -> option VerifyDataReader * option error.

Local Abbreviation loop := (sessionKeyLoop GetCipherFunc Decrypt).
Local Abbreviation parseSetup := (sessionParseSetup keyrings now SignatureContextName).
Local Abbreviation andParse :=
  (decryptStreamWithSessionAndParse keyrings now SignatureContextName
     GetCipherFunc Decrypt lib).
Local Abbreviation bind := (bindDetached verifyingDetachedReader).
Local Abbreviation detached :=
  (decryptStreamAndVerifyDetached keyrings now SignatureContextName
     GetCipherFunc Decrypt lib verifyingDetachedReader).
Local Abbreviation dataDetails :=
  (detachedDataDetails keyrings now SignatureContextName GetCipherFunc Decrypt lib).

Lemma sessionParseSetup_config dh :
  cfg_CheckPacketSequence (snd (parseSetup dh)) = Some false
  /\ cfg_Time (snd (parseSetup dh)) = Some (NewConstantClock (dh_clock dh now))
  /\ cfg_CheckIntendedRecipients (snd (parseSetup dh))
     = Some (negb (dh_DisableIntendedRecipients dh)).
Proof.
  unfold sessionParseSetup.
  destruct (dh_VerificationContext dh), (dh_VerifyKeyRing dh),
    (dh_DecryptionKeyRing dh); repeat split.
Qed.

(** Once a candidate is selected, the decrypted stream is handed to the
    same [openpgp.ReadMessage] that reads outer messages, with a nil prompt
    and the packet-sequence check switched off; the call succeeds exactly
    when the library accepts the content under that configuration, whatever
    it would say with the check on. *)
Theorem session_parse_disables_packet_sequence_check dh r decrypted e selected r' :
  loop (dh_SessionKeys dh) None None r = ((decrypted, e, Some selected), r') ->
  cfg_CheckPacketSequence (snd (parseSetup dh)) = Some false
  /\ andParse dh r =
     match ReadMessage_nilPrompt lib decrypted (fst (parseSetup dh)) (snd (parseSetup dh)) with
     | inl e' =>
         (None, 0, Some (withMessage e' "gopenpgp: unable to decode symmetric packet"))
     | inr md =>
         (Some (setUnverifiedBody (setSessionKey md (Some (Key selected)))
                  (checkReader decrypted (md_UnverifiedBody md))),
          dh_clock dh now, None)
     end.
Proof.
  intros Hl. destruct (sessionParseSetup_config dh) as (Hseq & Ht & _).
  split; [exact Hseq|].
  unfold decryptStreamWithSessionAndParse. rewrite Hl.
  destruct (parseSetup dh) as [keyring config]. simpl in *.
  destruct (ReadMessage_nilPrompt lib decrypted keyring config); [reflexivity|].
  rewrite Ht. reflexivity.
Qed.

(** C7: in session-key mode, once a candidate has decrypted the data packet,
    the decrypted packets are read by the same [openpgp.ReadMessage] that
    reads outer messages, with the packet-sequence check switched off.
    Hence, for content that the library reads once the check is off and
    refuses as long as it is not, the parse succeeds and gives the library's
    details of that content, while the same content handed as an outer
    message to [decryptStream], which leaves the check as the library has
    it, is refused. *)
Theorem session_parse_accepts_content_refused_by_sequence_check
    dh r content e selected r' :
  sessionKeyLoop GetCipherFunc Decrypt (dh_SessionKeys dh) None None r
  = ((Some content, e, Some selected), r') ->
  (forall keyring config,
     cfg_CheckPacketSequence config = Some false ->
     exists md, ReadMessage_nilPrompt lib (Some content) keyring config = inr md) ->
  (forall keyring config,
     cfg_CheckPacketSequence config <> Some false ->
     exists e', ReadMessage_nilPrompt lib (Some content) keyring config = inl e') ->
  (exists md,
     ReadMessage_nilPrompt lib (Some content)
       (fst (sessionParseSetup keyrings now SignatureContextName dh))
       (snd (sessionParseSetup keyrings now SignatureContextName dh)) = inr md
     /\ decryptStreamWithSessionAndParse keyrings now SignatureContextName
          GetCipherFunc Decrypt lib dh r
        = (Some (setUnverifiedBody (setSessionKey md (Some (Key selected)))
                   (checkReader (Some content) (md_UnverifiedBody md))),
           dh_clock dh now, None))
  /\ (forall dh' k,
        dh_DecryptionKeyRing dh' = Some k ->
        exists e',
          decryptStream keyrings now SignatureContextName lib dh' content
          = ((None,
              Some (withMessage e'
                      "gopenpgp: decrypting message with private keys failed")),
             [])).
Proof.
  intros Hl Hoff Hon. split.
  - destruct (sessionParseSetup_config dh) as (Hseq & Ht & _).
    destruct (Hoff (fst (parseSetup dh)) (snd (parseSetup dh)) Hseq) as [md Hmd].
    exists md. split; [exact Hmd|].
    unfold decryptStreamWithSessionAndParse. rewrite Hl.
    destruct (parseSetup dh) as [keyring config]. simpl in *.
    rewrite Hmd, Ht. reflexivity.
  - intros dh' k Hk.
    rewrite (decryptStream_private_key_path keyrings now SignatureContextName lib
               dh' content k Hk).
    assert (cfg_CheckPacketSequence
              (snd (decryptStreamSetup keyrings now SignatureContextName dh'))
            <> Some false) as Hseq.
    { unfold decryptStreamSetup.
      destruct (dh_DecryptionKeyRing dh'), (dh_VerifyKeyRing dh'),
        (dh_VerificationContext dh'); discriminate. }
    destruct (Hon (fst (decryptStreamSetup keyrings now SignatureContextName dh'))
                (snd (decryptStreamSetup keyrings now SignatureContextName dh')) Hseq)
      as [e' He'].
    exists e'.
    match goal with
    | |- context [ReadMessage_nilPrompt lib ?a ?b ?c] =>
        replace (ReadMessage_nilPrompt lib a b c) with (@inl error MessageDetails e')
          by (symmetry; exact He')
    end.
    reflexivity.
Qed.

(** The tail of the detached path takes the literal data and the session key
    from the details of the data message. *)
Lemma bindDetached_details dh t mdData signature reader :
  bind dh t mdData signature = returns (Some reader, None) ->
  exists md, mdData = Some md
             /\ md_LiteralData (details reader) = md_LiteralData md
             /\ md_SessionKey (details reader) = md_SessionKey md.
Proof.
  unfold bindDetached. destruct mdData as [md|]; [|discriminate].
  destruct (verifyingDetachedReader _ _ _ _ _ _ _) as [[v|] [e'|]]; try discriminate.
  intros [= <-]. exists md. auto.
Qed.

(** The session-key branch, unfolded. *)
Lemma detached_session_mode dh data sig :
  (0 < length (dh_SessionKeys dh))%nat ->
  detached dh data sig =
  (match andParse dh data with
   | (_, _, Some e) =>
       returns (None, Some (withMessage e "gopenpgp: error in reading data message"))
   | (mdData, _, None) =>
       match andParse dh sig with
       | (_, _, Some e) =>
           returns (None, Some (withMessage e
                      "gopenpgp: error in reading detached signature message"))
       | (Some mdSig, _, None) =>
           bind dh (dh_clock dh now) mdData (md_UnverifiedBody mdSig)
       | (None, _, None) => panics
       end
   end, ([], [])).
Proof.
  intros Hlen. unfold decryptStreamAndVerifyDetached.
  apply Nat.ltb_lt in Hlen. rewrite Hlen.
  destruct (andParse dh data) as [[mdData t] [e|]]; [reflexivity|].
  destruct (andParse dh sig) as [[[mdSig|] t'] [e|]]; reflexivity.
Qed.

(** What the branch "Password or private keys" hands to the library: the
    entities of the decryption key ring and no others, the handle's
    session-key cache flag, and the clock fixed at the time of the call;
    the two checks are left as the library has them. *)
Lemma detachedSetup_fields dh :
  fst (detachedSetup keyrings now dh)
  = match dh_DecryptionKeyRing dh with
    | Some k => entitiesAt keyrings k
    | None => []
    end
  /\ cfg_CacheSessionKey (snd (detachedSetup keyrings now dh)) = dh_RetrieveSessionKey dh
  /\ cfg_Time (snd (detachedSetup keyrings now dh))
     = Some (NewConstantClock (dh_clock dh now))
  /\ cfg_CheckPacketSequence (snd (detachedSetup keyrings now dh)) = None
  /\ cfg_CheckIntendedRecipients (snd (detachedSetup keyrings now dh)) = None.
Proof.
  unfold detachedSetup. destruct (dh_DecryptionKeyRing dh); repeat split.
Qed.

(** The other branch, unfolded: each stream is read with a prompt of its
    own, created from the configured password just before the read. *)
Lemma detached_prompt_mode dh data sig :
  dh_SessionKeys dh = [] ->
  forall entries config, detachedSetup keyrings now dh = (entries, config) ->
  detached dh data sig =
  match ReadMessage lib (Some data) entries (createPasswordPrompt (dh_Password dh)) config with
  | (inl e, answersData) =>
      (returns (None, Some (withMessage e "gopenpgp: error in reading data message")),
       (answersData, []))
  | (inr mdData, answersData) =>
      match ReadMessage lib (Some sig) entries (createPasswordPrompt (dh_Password dh))
              (setCheckPacketSequence config (Some false)) with
      | (inl e, answersSig) =>
          (returns (None, Some (withMessage e
                      "gopenpgp: error in reading detached signature message")),
           (answersData, answersSig))
      | (inr mdSig, answersSig) =>
          (bind dh (dh_clock dh now) (Some mdData) (md_UnverifiedBody mdSig),
           (answersData, answersSig))
      end
  end.
Proof.
  intros Hk entries config Hs. unfold decryptStreamAndVerifyDetached.
  rewrite Hk, Hs. cbn [length Nat.ltb Nat.leb].
  destruct (ReadMessage lib (Some data) entries (createPasswordPrompt (dh_Password dh)) config)
    as [[e|mdData] answersData]; [reflexivity|].
  destruct (ReadMessage lib (Some sig) entries (createPasswordPrompt (dh_Password dh))
              (setCheckPacketSequence config (Some false))) as [[e|mdSig] answersSig];
    reflexivity.
Qed.

Lemma ReadMessage_answers r entries pw config :
  oneShotAnswers pw
    (snd (ReadMessage lib r entries (createPasswordPrompt (Some pw)) config)).
Proof.
  simpl.
  destruct (runPrompt (ReadMessage_prompting lib r entries config) (mkPasswordPrompt pw true))
    as [[res final] answers] eqn:Hrun.
  simpl. exact (runPrompt_fresh _ _ _ _ _ Hrun).
Qed.

(** With session keys on the handle, the data stream and the signature
    stream each go through [decryptStreamWithSessionAndParse] with the same
    handle, hence each through the candidate loop over the full list from
    its head, and each stream has a candidate selected by its own run of the
    loop.  Otherwise each stream is read by the library with a prompt
    created for that read: the answers on either stream begin with the
    password whatever happened on the other stream, and the answers on the
    data stream do not depend on the signature stream. *)
Theorem detached_streams_are_decrypted_independently dh data sig :
  ((0 < length (dh_SessionKeys dh))%nat ->
   fst (detached dh data sig) =
   match andParse dh data with
   | (_, _, Some e) =>
       returns (None, Some (withMessage e "gopenpgp: error in reading data message"))
   | (mdData, _, None) =>
       match andParse dh sig with
       | (_, _, Some e) =>
           returns (None, Some (withMessage e
                      "gopenpgp: error in reading detached signature message"))
       | (Some mdSig, _, None) =>
           bind dh (dh_clock dh now) mdData (md_UnverifiedBody mdSig)
       | (None, _, None) => panics
       end
   end)
  /\ ((0 < length (dh_SessionKeys dh))%nat ->
      forall reader,
        fst (detached dh data sig) = returns (Some reader, None) ->
        exists selectedData selectedSig dd ds rd rs,
          loop (dh_SessionKeys dh) None None data = ((dd, None, Some selectedData), rd)
          /\ loop (dh_SessionKeys dh) None None sig = ((ds, None, Some selectedSig), rs)
          /\ md_SessionKey (details reader) = Some (Key selectedData))
  /\ (dh_SessionKeys dh = [] ->
      forall pw, dh_Password dh = Some pw ->
        let entries := fst (detachedSetup keyrings now dh) in
        let config := snd (detachedSetup keyrings now dh) in
        let answers := snd (detached dh data sig) in
        oneShotAnswers pw (fst answers)
        /\ oneShotAnswers pw (snd answers)
        /\ fst answers
           = snd (ReadMessage lib (Some data) entries (createPasswordPrompt (Some pw)) config)
        /\ (forall sig', fst (snd (detached dh data sig')) = fst answers)
        /\ ((exists mdData,
               fst (ReadMessage lib (Some data) entries (createPasswordPrompt (Some pw)) config)
               = inr mdData) ->
            snd answers
            = snd (ReadMessage lib (Some sig) entries (createPasswordPrompt (Some pw))
                     (setCheckPacketSequence config (Some false))))).
Proof.
  split; [|split].
  - intros Hlen. rewrite (detached_session_mode _ _ _ Hlen). reflexivity.
  - intros Hlen reader. rewrite (detached_session_mode _ _ _ Hlen). cbn [fst].
    destruct (andParse dh data) as [[mdData t] [e|]] eqn:Hd; [discriminate|].
    destruct (andParse dh sig) as [[[mdSig|] t'] [e|]] eqn:Hs; try discriminate.
    intros Hb. destruct (bindDetached_details _ _ _ _ _ Hb) as (md & -> & _ & Hkey).
    destruct (andParse_success_inv _ _ _ _ _ _ _ _ _ _ Hd)
      as (dd & cd & rd & _ & Hld & _ & Hkd & _).
    destruct (andParse_success_inv _ _ _ _ _ _ _ _ _ _ Hs)
      as (ds & cs & rs & _ & Hls & _).
    exists cd, cs, dd, ds, rd, rs. split; [exact Hld|]. split; [exact Hls|].
    congruence.
  - intros Hk pw Hpw entries config answers.
    assert (forall s, snd (detached dh data s) =
              match ReadMessage lib (Some data) entries (createPasswordPrompt (Some pw)) config with
              | (inl e, answersData) => (answersData, [])
              | (inr mdData, answersData) =>
                  (answersData,
                   snd (ReadMessage lib (Some s) entries (createPasswordPrompt (Some pw))
                          (setCheckPacketSequence config (Some false))))
              end) as Hans.
    { intros s.
      rewrite (detached_prompt_mode _ _ _ Hk entries config
                 (surjective_pairing _)), Hpw.
      destruct (ReadMessage lib (Some data) entries (createPasswordPrompt (Some pw)) config)
        as [[e|mdData] answersData]; [reflexivity|].
      destruct (ReadMessage lib (Some s) entries (createPasswordPrompt (Some pw))
                  (setCheckPacketSequence config (Some false))) as [[e|mdSig] answersSig];
        reflexivity. }
    subst answers. rewrite Hans.
    pose proof (ReadMessage_answers (Some data) entries pw config) as Hd.
    pose proof (ReadMessage_answers (Some sig) entries pw
                  (setCheckPacketSequence config (Some false))) as Hs.
    assert (forall sig', fst (snd (detached dh data sig')) =
              snd (ReadMessage lib (Some data) entries (createPasswordPrompt (Some pw)) config))
      as Hind.
    { intros s. rewrite Hans.
      destruct (ReadMessage lib (Some data) entries _ config) as [[e|mdData] answersData];
        reflexivity. }
    destruct (ReadMessage lib (Some data) entries _ config) as [[e|mdData] answersData]
      eqn:Hread; simpl in *.
    + split; [exact Hd|]. split; [intros i a Hi; destruct i; discriminate Hi|].
      split; [reflexivity|]. split; [exact Hind|]. intros [md [=]].
    + split; [exact Hd|]. split; [exact Hs|].
      split; [reflexivity|]. split; [exact Hind|]. reflexivity.
Qed.

(** C8: the literal data the resulting reader exposes is the literal data of
    the message details obtained from the data stream; whatever signature
    stream the call succeeds with, the exposed literal data is the same. *)
Theorem detached_metadata_comes_from_data_stream dh data sig reader :
  fst (decryptStreamAndVerifyDetached keyrings now SignatureContextName
         GetCipherFunc Decrypt lib verifyingDetachedReader dh data sig)
  = returns (Some reader, None) ->
  (exists mdData,
     detachedDataDetails keyrings now SignatureContextName GetCipherFunc Decrypt lib
       dh data = Some mdData
     /\ md_LiteralData (details reader) = md_LiteralData mdData)
  /\ (forall sig' reader',
        fst (decryptStreamAndVerifyDetached keyrings now SignatureContextName
               GetCipherFunc Decrypt lib verifyingDetachedReader dh data sig')
        = returns (Some reader', None) ->
        md_LiteralData (details reader') = md_LiteralData (details reader)).
Proof.
  assert (forall s rd, fst (detached dh data s) = returns (Some rd, None) ->
            exists mdData, dataDetails dh data = Some mdData
                           /\ md_LiteralData (details rd) = md_LiteralData mdData) as Hkey.
  { intros s rd. unfold detachedDataDetails.
    destruct (0 <? length (dh_SessionKeys dh))%nat eqn:Hlen.
    - apply Nat.ltb_lt in Hlen. rewrite (detached_session_mode _ _ _ Hlen). cbn [fst].
      destruct (andParse dh data) as [[mdData t] [e|]]; [discriminate|].
      destruct (andParse dh s) as [[[mdSig|] t'] [e|]]; try discriminate.
      intros Hb. destruct (bindDetached_details _ _ _ _ _ Hb) as (md & -> & Hl & _).
      exists md. auto.
    - assert (dh_SessionKeys dh = []) as Hk
        by (destruct (dh_SessionKeys dh); [reflexivity|discriminate Hlen]).
      rewrite (detached_prompt_mode _ _ _ Hk _ _ (surjective_pairing _)).
      destruct (ReadMessage lib (Some data) (fst (detachedSetup keyrings now dh))
                  (createPasswordPrompt (dh_Password dh))
                  (snd (detachedSetup keyrings now dh))) as [[e|mdData] answersData];
        [discriminate|].
      destruct (ReadMessage lib (Some s) (fst (detachedSetup keyrings now dh))
                  (createPasswordPrompt (dh_Password dh))
                  (setCheckPacketSequence (snd (detachedSetup keyrings now dh)) (Some false)))
        as [[e|mdSig] answersSig]; [discriminate|]. cbn [fst].
      intros Hb. destruct (bindDetached_details _ _ _ _ _ Hb) as (md & [= <-] & Hl & _).
      exists mdData. auto. }
  intros H. split; [exact (Hkey _ _ H)|].
  intros sig' reader' H'.
  destruct (Hkey _ _ H) as (m & Hm & ->). destruct (Hkey _ _ H') as (m' & Hm' & ->).
  congruence.
Qed.

End DetachedFacts.

Section DetachedExamples.

Import Examples Byte.

(** C4, checked on the code: the data stream is encrypted under [k1] and the
    signature stream under [k2], and each stream on its own is decrypted by
    its key.  With both keys on the handle the detached call fails, in
    either order of the candidates: the stream whose key is not the first
    candidate is not decrypted, because the attempt with the first candidate
    has read its data packet (the defect of the candidate loop). *)
Theorem detached_streams_under_different_candidates_fail :
  (exists md,
     decryptStreamWithSessionAndParse ∅ 0 "context" Toy.GetCipherFunc
       (Toy.Decrypt book) (Toy.lib book) (sessionHandle [k1]) [dataUnderK1]
     = (Some md, 1700000000, None))
  /\ (exists md,
        decryptStreamWithSessionAndParse ∅ 0 "context" Toy.GetCipherFunc
          (Toy.Decrypt book) (Toy.lib book) (sessionHandle [k2]) [dataUnderK2]
        = (Some md, 1700000000, None))
  /\ (exists e,
        fst (decryptStreamAndVerifyDetached ∅ 0 "context" Toy.GetCipherFunc
               (Toy.Decrypt book) (Toy.lib book) Toy.verifyingDetachedReader
               (sessionHandle [k1; k2]) [dataUnderK1] [dataUnderK2])
        = returns (None, Some (withMessage e
                     "gopenpgp: error in reading detached signature message")))
  /\ (exists e,
        fst (decryptStreamAndVerifyDetached ∅ 0 "context" Toy.GetCipherFunc
               (Toy.Decrypt book) (Toy.lib book) Toy.verifyingDetachedReader
               (sessionHandle [k2; k1]) [dataUnderK1] [dataUnderK2])
        = returns (None, Some (withMessage e
                     "gopenpgp: error in reading data message")))
  /\ (exists reader,
        fst (decryptStreamAndVerifyDetached ∅ 0 "context" Toy.GetCipherFunc
               (Toy.Decrypt book) (Toy.lib book) Toy.verifyingDetachedReader
               (sessionHandle [k1; k2]) [dataUnderK1]
               [SymmetricallyEncrypted true [xa5]])
        = returns (Some reader, None)).
Proof.
  repeat split; eexists; vm_compute; reflexivity.
Qed.

End DetachedExamples.

(** ** The builder *)

Section BuilderFacts.

Variable Key : Type.
Variable NewKeyRing : Key -> option KeyRing * option error.
Variable AddKey : KeyRing -> Key -> KeyRing * option error.
Variable validate : gmap loc KeyRing -> decryptionHandle -> option error.
Variable defaultDecryptionHandle : Clock -> decryptionHandle.

Local Abbreviation addKey := (addKeyTo Key NewKeyRing AddKey).
Local Abbreviation setter := (applySetter Key NewKeyRing AddKey).
Local Abbreviation setters := (applySetters Key NewKeyRing AddKey).
Local Abbreviation build := (New validate defaultDecryptionHandle).
Local Abbreviation outcomeOf := (keyAdditionError Key NewKeyRing AddKey).

Ltac run :=
  unfold updateHandle, addKeyTo, mbind, mret, readHandle, writeHandle,
    readKeyRing, writeKeyRing, allocKeyRing, allocHandle, getKeyrings in *.

Lemma updateHandle_inv dpb f σ dpb' σ' :
  updateHandle dpb f σ = Some (dpb', σ') ->
  exists h, handles σ !! handle dpb = Some h
            /\ dpb' = dpb
            /\ σ' = setHandles σ (<[handle dpb := f h]> (handles σ)).
Proof.
  run. destruct (handles σ !! handle dpb) as [h|]; [|discriminate].
  intros [= <- <-]. exists h. auto.
Qed.

(** What a call of [DecryptionKey] or [VerifyKey] does. *)
Lemma addKeyTo_inv get set dpb key σ dpb' σ' :
  addKey get set dpb key σ = Some (dpb', σ') ->
  exists h, handles σ !! handle dpb = Some h
    /\ dpb' = setErr dpb (outcomeOf get h σ key)
    /\ ((get h = None /\
         exists v, handles σ' = <[handle dpb := set h v]> (handles σ)
           /\ match v with
              | Some k => k = fresh (dom (keyringStore σ))
                          /\ exists kr, keyringStore σ' = <[k := kr]> (keyringStore σ)
              | None => keyringStore σ' = keyringStore σ
              end)
        \/ (exists k kr, get h = Some k
              /\ handles σ' = handles σ
              /\ keyringStore σ' = <[k := kr]> (keyringStore σ)
              /\ is_Some (keyringStore σ !! k))).
Proof.
  unfold keyAdditionError. run.
  destruct (handles σ !! handle dpb) as [h|]; [|discriminate].
  destruct (get h) as [k|] eqn:Hget.
  - simpl. destruct (keyringStore σ !! k) as [kr|] eqn:Hk; [|discriminate].
    destruct (AddKey kr key) as [kr' e] eqn:HA. intros [= <- <-].
    exists h. split; [reflexivity|]. rewrite Hget, Hk, HA.
    split; [reflexivity|].
    right. exists k, kr'. simpl. eauto.
  - destruct (NewKeyRing key) as [[kr|] e] eqn:HN; intros [= <- <-]; exists h;
      (split; [reflexivity|]); rewrite Hget, ?HN; (split; [reflexivity|]); left;
      (split; [reflexivity|]).
    + exists (Some (fresh (dom (keyringStore σ)))). simpl. eauto.
    + exists None. simpl. auto.
Qed.

Lemma addKeyTo_runs get set dpb key σ h :
  handles σ !! handle dpb = Some h ->
  (forall k, get h = Some k -> is_Some (keyringStore σ !! k)) ->
  exists σ', addKey get set dpb key σ = Some (setErr dpb (outcomeOf get h σ key), σ').
Proof.
  intros Hh Hk. unfold keyAdditionError. run. rewrite Hh.
  destruct (get h) as [k|].
  - destruct (Hk k eq_refl) as [kr Hkr]. simpl. rewrite Hkr.
    destruct (AddKey kr key) as [kr' e]. eexists. reflexivity.
  - destruct (NewKeyRing key) as [[kr|] e]; eexists; reflexivity.
Qed.

(** A configuration method works on the draft only: the builder keeps its
    draft and its clock, and every other handle is left as it was. *)
Lemma applySetter_frame dpb c σ dpb' σ' :
  setter dpb c σ = Some (dpb', σ') ->
  handle dpb' = handle dpb
  /\ defaultClock dpb' = defaultClock dpb
  /\ forall l, l <> handle dpb -> handles σ' !! l = handles σ !! l.
Proof.
  destruct c; simpl; intros H;
    first
      [ apply updateHandle_inv in H as (h & Hh & -> & ->);
        (split; [reflexivity|]); (split; [reflexivity|]);
        intros l Hl; simpl; apply lookup_insert_ne; congruence
      | apply addKeyTo_inv in H as (h & Hh & -> & Hcases);
        (split; [reflexivity|]); (split; [reflexivity|]);
        intros l Hl;
        destruct Hcases as [(_ & v & -> & _)|(k & kr & _ & -> & _)];
        [apply lookup_insert_ne; congruence|reflexivity] ].
Qed.

Lemma applySetters_frame cs dpb σ dpb' σ' :
  setters dpb cs σ = Some (dpb', σ') ->
  handle dpb' = handle dpb
  /\ defaultClock dpb' = defaultClock dpb
  /\ forall l, l <> handle dpb -> handles σ' !! l = handles σ !! l.
Proof.
  revert dpb σ. induction cs as [|c cs IH]; intros dpb σ; simpl.
  - unfold mret. intros [= <- <-]. auto.
  - unfold mbind. destruct (setter dpb c σ) as [[dpb1 σ1]|] eqn:Hc; [|discriminate].
    intros H. apply IH in H as (Hh & Hc' & Hf).
    apply applySetter_frame in Hc as (Hh1 & Hc1 & Hf1).
    split; [congruence|]. split; [congruence|].
    intros l Hl. rewrite Hf by congruence. apply Hf1. exact Hl.
Qed.

Lemma fresh_keyring_ne (σ : Heap) k kr :
  keyringStore σ !! k = Some kr -> k <> fresh (dom (keyringStore σ)).
Proof.
  intros Hk Heq. apply (is_fresh (dom (keyringStore σ))).
  rewrite <- Heq. apply elem_of_dom. eauto.
Qed.

Lemma applySetter_outOfReach k kr dpb c σ dpb' σ' :
  ~ passesKeyRing Key c k ->
  outOfReach k kr dpb σ ->
  setter dpb c σ = Some (dpb', σ') ->
  outOfReach k kr dpb' σ'.
Proof.
  intros Hpass [Hk Hd] H. unfold outOfReach.
  destruct c; simpl in H, Hpass;
    try (apply updateHandle_inv in H as (h & Hh & -> & ->);
         destruct (Hd h Hh) as [Hd1 Hd2];
         split; [exact Hk|]; simpl; intros h'; rewrite lookup_insert_eq;
         intros [= <-]; simpl; split; congruence).
  - apply addKeyTo_inv in H as (h & Hh & -> & Hcases).
    destruct (Hd h Hh) as [Hd1 Hd2]. simpl.
    destruct Hcases as [(Hg & v & Hhs & Hv)|(k' & kr' & Hg & Hhs & Hks & _)].
    + rewrite Hhs. destruct v as [kf|].
      * destruct Hv as [-> [krf Hks]]. rewrite Hks.
        pose proof (fresh_keyring_ne σ k kr Hk) as Hne.
        split; [rewrite lookup_insert_ne by congruence; exact Hk|].
        intros h'. rewrite lookup_insert_eq. intros [= <-]. simpl.
        split; congruence.
      * rewrite Hv. split; [exact Hk|].
        intros h'. rewrite lookup_insert_eq. intros [= <-]. simpl.
        split; congruence.
    + rewrite Hhs, Hks.
      split; [rewrite lookup_insert_ne by congruence; exact Hk|].
      intros h' Hh'. apply Hd. exact Hh'.
  - apply addKeyTo_inv in H as (h & Hh & -> & Hcases).
    destruct (Hd h Hh) as [Hd1 Hd2]. simpl.
    destruct Hcases as [(Hg & v & Hhs & Hv)|(k' & kr' & Hg & Hhs & Hks & _)].
    + rewrite Hhs. destruct v as [kf|].
      * destruct Hv as [-> [krf Hks]]. rewrite Hks.
        pose proof (fresh_keyring_ne σ k kr Hk) as Hne.
        split; [rewrite lookup_insert_ne by congruence; exact Hk|].
        intros h'. rewrite lookup_insert_eq. intros [= <-]. simpl.
        split; congruence.
      * rewrite Hv. split; [exact Hk|].
        intros h'. rewrite lookup_insert_eq. intros [= <-]. simpl.
        split; congruence.
    + rewrite Hhs, Hks.
      split; [rewrite lookup_insert_ne by congruence; exact Hk|].
      intros h' Hh'. apply Hd. exact Hh'.
Qed.

Lemma applySetters_outOfReach k kr cs dpb σ dpb' σ' :
  Forall (fun c => ~ passesKeyRing Key c k) cs ->
  outOfReach k kr dpb σ ->
  setters dpb cs σ = Some (dpb', σ') ->
  outOfReach k kr dpb' σ'.
Proof.
  intros Hcs. revert dpb σ. induction Hcs as [|c cs Hc _ IH]; intros dpb σ Hout; simpl.
  - unfold mret. intros [= <- <-]. exact Hout.
  - unfold mbind. destruct (setter dpb c σ) as [[dpb1 σ1]|] eqn:Hs; [|discriminate].
    apply IH. exact (applySetter_outOfReach _ _ _ _ _ _ _ Hc Hout Hs).
Qed.

(** What a successful [New] does. *)
Lemma New_success_inv dpb σ h dpb' σ' :
  build dpb σ = Some (((Some h, None), dpb'), σ') ->
  err dpb = None
  /\ h = handle dpb
  /\ (exists d, handles σ !! handle dpb = Some d /\ validate (keyringStore σ) d = None)
  /\ dpb' = mkBuilder (fresh (dom (handles σ))) (defaultClock dpb) None
  /\ σ' = setHandles σ (<[fresh (dom (handles σ)) :=
                           defaultDecryptionHandle (defaultClock dpb)]> (handles σ)).
Proof.
  unfold New. destruct (err dpb) as [e|] eqn:He; [unfold mret; discriminate|].
  run. destruct (handles σ !! handle dpb) as [d|]; [|discriminate]. simpl.
  destruct (validate (keyringStore σ) d) eqn:Hv; [discriminate|].
  intros [= <- <- <-]. eauto 10.
Qed.

Lemma New_runs dpb σ d :
  err dpb = None ->
  handles σ !! handle dpb = Some d ->
  validate (keyringStore σ) d = None ->
  build dpb σ =
  Some (((Some (handle dpb), None),
         mkBuilder (fresh (dom (handles σ))) (defaultClock dpb) None),
        setHandles σ (<[fresh (dom (handles σ)) :=
                          defaultDecryptionHandle (defaultClock dpb)]> (handles σ))).
Proof.
  intros He Hd Hv. unfold New. rewrite He. run. rewrite Hd. simpl. rewrite Hv.
  reflexivity.
Qed.

(** C9: [DecryptionKey] and [VerifyKey] leave in the builder's [err] the
    error of that very call, whatever [err] held before; when the call
    succeeds, [err] is nil again and [New] goes on to validate the draft and,
    the draft being valid, returns it. *)
Theorem key_setters_overwrite_stored_error dpb key σ h :
  handles σ !! handle dpb = Some h ->
  (forall k, dh_DecryptionKeyRing h = Some k \/ dh_VerifyKeyRing h = Some k ->
             is_Some (keyringStore σ !! k)) ->
  (exists dpb' σ',
     DecryptionKey Key NewKeyRing AddKey dpb key σ = Some (dpb', σ')
     /\ err dpb' = outcomeOf dh_DecryptionKeyRing h σ key
     /\ (err dpb' = None ->
         forall d, handles σ' !! handle dpb' = Some d ->
                   validate (keyringStore σ') d = None ->
         exists dpb2 σ2,
           build dpb' σ' = Some (((Some (handle dpb), None), dpb2), σ2)))
  /\ (exists dpb' σ',
       VerifyKey Key NewKeyRing AddKey dpb key σ = Some (dpb', σ')
       /\ err dpb' = outcomeOf dh_VerifyKeyRing h σ key
       /\ (err dpb' = None ->
           forall d, handles σ' !! handle dpb' = Some d ->
                     validate (keyringStore σ') d = None ->
           exists dpb2 σ2,
             build dpb' σ' = Some (((Some (handle dpb), None), dpb2), σ2))).
Proof.
  intros Hh Hk. split.
  - destruct (addKeyTo_runs dh_DecryptionKeyRing setDecryptionKeyRing dpb key σ h Hh)
      as [σ' Hrun]; [intros k Hg; apply Hk; left; exact Hg|].
    exists (setErr dpb (outcomeOf dh_DecryptionKeyRing h σ key)), σ'.
    split; [exact Hrun|]. split; [reflexivity|].
    intros He d Hd Hv. eexists _, _. exact (New_runs _ _ _ He Hd Hv).
  - destruct (addKeyTo_runs dh_VerifyKeyRing setVerifyKeyRing dpb key σ h Hh)
      as [σ' Hrun]; [intros k Hg; apply Hk; right; exact Hg|].
    exists (setErr dpb (outcomeOf dh_VerifyKeyRing h σ key)), σ'.
    split; [exact Hrun|]. split; [reflexivity|].
    intros He d Hd Hv. eexists _, _. exact (New_runs _ _ _ He Hd Hv).
Qed.

(** C5: a successful [New] returns the draft and leaves the builder exactly
    as [newDecryptionHandleBuilder] with the builder's clock would have made
    it: the new draft is the default handle, in a new object, and [err] is
    nil.  The returned handle is not written by [New] nor by any
    configuration method called afterwards, and a key ring that the default
    handle does not point to is not written either unless the caller hands
    it to the builder again. *)
Theorem New_resets_the_draft dpb σ h dpb' σ' :
  build dpb σ = Some (((Some h, None), dpb'), σ') ->
  h = handle dpb
  /\ newDecryptionHandleBuilder defaultDecryptionHandle (defaultClock dpb) σ
     = Some (dpb', σ')
  /\ handle dpb' <> h
  /\ handles σ !! handle dpb' = None
  /\ handles σ' !! handle dpb' = Some (defaultDecryptionHandle (defaultClock dpb))
  /\ err dpb' = None
  /\ defaultClock dpb' = defaultClock dpb
  /\ handles σ' !! h = handles σ !! h
  /\ keyringStore σ' = keyringStore σ
  /\ forall cs dpb2 σ2,
       setters dpb' cs σ' = Some (dpb2, σ2) ->
       handle dpb2 = handle dpb'
       /\ handles σ2 !! h = handles σ !! h
       /\ forall k kr,
            keyringStore σ !! k = Some kr ->
            dh_DecryptionKeyRing (defaultDecryptionHandle (defaultClock dpb)) <> Some k ->
            dh_VerifyKeyRing (defaultDecryptionHandle (defaultClock dpb)) <> Some k ->
            Forall (fun c => ~ passesKeyRing Key c k) cs ->
            keyringStore σ2 !! k = Some kr.
Proof.
  intros H. apply New_success_inv in H as (He & -> & (d & Hd & Hv) & -> & ->).
  set (l := fresh (dom (handles σ))).
  assert (handles σ !! l = None) as Hfresh
    by (apply not_elem_of_dom; apply is_fresh).
  assert (l <> handle dpb) as Hne by congruence.
  split; [reflexivity|]. split; [reflexivity|]. split; [exact Hne|].
  split; [exact Hfresh|]. simpl.
  split; [apply lookup_insert_eq|]. split; [reflexivity|]. split; [reflexivity|].
  split; [apply lookup_insert_ne; exact Hne|]. split; [reflexivity|].
  intros cs dpb2 σ2 Hcs.
  destruct (applySetters_frame _ _ _ _ _ Hcs) as (Hh & _ & Hf). simpl in Hh, Hf.
  split; [exact Hh|].
  split; [rewrite Hf by congruence; simpl; apply lookup_insert_ne; exact Hne|].
  intros k kr Hk Hd1 Hd2 Hpass.
  assert (outOfReach k kr (mkBuilder l (defaultClock dpb) None)
            (setHandles σ (<[l := defaultDecryptionHandle (defaultClock dpb)]> (handles σ))))
    as Hout.
  { split; [exact Hk|]. simpl. intros h'. rewrite lookup_insert_eq.
    intros [= <-]. split; assumption. }
  exact (proj1 (applySetters_outOfReach _ _ _ _ _ _ _ Hpass Hout Hcs)).
Qed.

End BuilderFacts.

(** ** The properties at concrete inputs *)

Section Instances.

Import Examples Byte.

Local Abbreviation toyDecryptStream :=
  (decryptStream ∅ 0 "context" (Toy.lib book)).
Local Abbreviation toyAndParse :=
  (decryptStreamWithSessionAndParse ∅ 0 "context" Toy.GetCipherFunc
     (Toy.Decrypt book) (Toy.lib book)).
Local Abbreviation toyDetached :=
  (decryptStreamAndVerifyDetached ∅ 0 "context" Toy.GetCipherFunc
     (Toy.Decrypt book) (Toy.lib book) Toy.verifyingDetachedReader).

Lemma toy_library_propagates r keyring config :
  propagatesPromptError (Toy.readWithPrompt book r keyring config).
Proof.
  unfold Toy.readWithPrompt.
  destruct r as [[|[] [|[] ?]]|]; try apply propagates_Finished.
  apply propagates_AskPrompt; [reflexivity|].
  intros [[pw1|] [e1|]]; try apply propagates_Finished.
  destruct (Toy.decryptWithPassphrase book config contents pw1);
    [apply propagates_Finished|].
  apply propagates_AskPrompt; [reflexivity|].
  intros [[pw2|] [e2|]]; try apply propagates_Finished.
  destruct (Toy.decryptWithPassphrase book config contents pw2);
    apply propagates_Finished.
Qed.

(** A wrong passphrase: the prompt is invoked twice, hands out the
    passphrase once, and the call fails. *)
Lemma password_prompt_answers_once_witness :
  toyDecryptStream (passwordHandle [x70]) passwordMessage
  = ((None, Some wrongPasswordOrMalformed),
     [(Some [x70], None); (None, Some wrongPassword)])
  /\ oneShotAnswers [x70] [(Some [x70], None); (None, Some wrongPassword)]
  /\ (passwordAnswers [(Some [x70], None); (None, Some wrongPassword)] <= 1)%nat
  /\ length [(Some [x70], None); (None, Some wrongPassword)] = 2%nat.
Proof.
  assert (toyDecryptStream (passwordHandle [x70]) passwordMessage
          = ((None, Some wrongPasswordOrMalformed),
             [(Some [x70], None); (None, Some wrongPassword)])) as H
    by (vm_compute; reflexivity).
  destruct (password_prompt_answers_once ∅ 0 "context" (Toy.lib book)
              (passwordHandle [x70]) passwordMessage [x70] _ _ _
              eq_refl eq_refl H) as (Hshape & Hcount & _ & Hprop).
  destruct (Hprop (toy_library_propagates _ _ _) ltac:(simpl; lia)) as (Hlen & _ & _).
  split; [exact H|]. split; [exact Hshape|]. split; [exact Hcount|exact Hlen].
Defined.

(** The right passphrase decrypts with one invocation of the prompt. *)
Lemma right_password_decrypts :
  exists reader,
    toyDecryptStream (passwordHandle [x70; x77]) passwordMessage
    = ((Some reader, None), [(Some [x70; x77], None)])
    /\ readAll Toy.canonicalize (internalReader reader) = Body hello.
Proof. eexists. split; [vm_compute; reflexivity|reflexivity]. Qed.

(** A handle with a key ring and a password: the library is called without
    a prompt, and the password changes nothing. *)
Lemma private_keys_take_precedence_over_password_witness :
  let keyrings : gmap loc KeyRing := {[ 0%nat := mkKeyRing [42] ]} in
  let call := decryptStream keyrings 0 "context" (constantLibrary textSigned) in
  snd (call (keyHandle 0%nat (Some [x70; x77])) passwordMessage) = []
  /\ call (setPassword (keyHandle 0%nat (Some [x70; x77])) None) passwordMessage
     = call (keyHandle 0%nat (Some [x70; x77])) passwordMessage.
Proof.
  intros keyrings call.
  destruct (private_keys_take_precedence_over_password keyrings 0 "context"
              (constantLibrary textSigned) (keyHandle 0%nat (Some [x70; x77]))
              passwordMessage) as [Hkey _].
  destruct (Hkey 0%nat eq_refl) as (Hans & Hpw & _).
  split; [exact Hans|exact (Hpw None)].
Defined.

(** A literal followed by a signature without its one-pass packet: refused
    as an outer message, read in session-key mode. *)
Lemma session_parse_accepts_content_refused_by_sequence_check_witness :
  let content := [LiteralDataPacket hello; Signature SigTypeBinary 5 1700000000] in
  (exists md,
     decryptStreamWithSessionAndParse {[ 0%nat := mkKeyRing [42] ]} 0 "context"
       Toy.GetCipherFunc (Toy.Decrypt book) (Toy.lib book)
       (sessionHandle [k1]) [SymmetricallyEncrypted true [xa4]]
     = (Some md, 1700000000, None)
     /\ md_LiteralData md = Some hello
     /\ md_SessionKey md = Some (Key k1))
  /\ exists e',
       decryptStream {[ 0%nat := mkKeyRing [42] ]} 0 "context" (Toy.lib book)
         (keyHandle 0%nat None) content
       = ((None,
           Some (withMessage e' "gopenpgp: decrypting message with private keys failed")),
          []).
Proof.
  intros content.
  assert (forall keyring config,
            cfg_CheckPacketSequence config = Some false ->
            exists md,
              ReadMessage_nilPrompt (Toy.lib book) (Some content) keyring config = inr md)
    as Hoff.
  { intros keyring config H. simpl.
    unfold Toy.readPlain, Toy.strictPacketSequence. rewrite H.
    eexists. reflexivity. }
  assert (forall keyring config,
            cfg_CheckPacketSequence config <> Some false ->
            exists e',
              ReadMessage_nilPrompt (Toy.lib book) (Some content) keyring config = inl e')
    as Hon.
  { intros keyring config H. simpl.
    unfold Toy.readPlain, Toy.strictPacketSequence.
    destruct (cfg_CheckPacketSequence config) as [[|]|];
      [eexists; reflexivity|congruence|eexists; reflexivity]. }
  destruct (session_parse_accepts_content_refused_by_sequence_check
              {[ 0%nat := mkKeyRing [42] ]} 0 "context"
              Toy.GetCipherFunc (Toy.Decrypt book) (Toy.lib book)
              (sessionHandle [k1]) [SymmetricallyEncrypted true [xa4]]
              content None k1 [] eq_refl Hoff Hon) as [(md & Hmd & Hcall) Houter].
  split.
  - rewrite Hcall. vm_compute in Hmd. injection Hmd as <-.
    eexists. split; [reflexivity|]. split; reflexivity.
  - exact (Houter (keyHandle 0%nat None) 0%nat eq_refl).
Defined.

(** Both streams under a passphrase: each read gets the passphrase from a
    prompt of its own. *)
Lemma detached_streams_are_decrypted_independently_witness :
  snd (toyDetached (passwordHandle [x70; x77]) passwordMessage passwordMessage)
  = ([(Some [x70; x77], None)], [(Some [x70; x77], None)])
  /\ oneShotAnswers [x70; x77]
       (snd (snd (toyDetached (passwordHandle [x70; x77]) passwordMessage passwordMessage)))
  /\ exists reader,
       fst (toyDetached (sessionHandle [k1; k2])
              [SymmetricallyEncrypted true [xa1]] [SymmetricallyEncrypted true [xa5]])
       = returns (Some reader, None).
Proof.
  destruct (detached_streams_are_decrypted_independently ∅ 0 "context"
              Toy.GetCipherFunc (Toy.Decrypt book) (Toy.lib book)
              Toy.verifyingDetachedReader (passwordHandle [x70; x77])
              passwordMessage passwordMessage) as (_ & _ & Hprompt).
  destruct (Hprompt eq_refl [x70; x77] eq_refl) as (_ & Hsig & _).
  destruct (detached_streams_are_decrypted_independently ∅ 0 "context"
              Toy.GetCipherFunc (Toy.Decrypt book) (Toy.lib book)
              Toy.verifyingDetachedReader (sessionHandle [k1; k2])
              [SymmetricallyEncrypted true [xa1]] [SymmetricallyEncrypted true [xa5]])
    as (Hsession & _ & _).
  split; [vm_compute; reflexivity|]. split; [exact Hsig|].
  eexists. rewrite Hsession by (simpl; lia). vm_compute. reflexivity.
Defined.

(** The signature stream carries a literal of its own; the reader exposes
    the literal data of the data stream. *)
Lemma detached_metadata_comes_from_data_stream_witness :
  exists reader,
    fst (toyDetached (sessionHandle [k1])
           [SymmetricallyEncrypted true [xa1]] [SymmetricallyEncrypted true [xa5]])
    = returns (Some reader, None)
    /\ md_LiteralData (details reader) = Some hello.
Proof.
  destruct (fst (toyDetached (sessionHandle [k1])
                   [SymmetricallyEncrypted true [xa1]] [SymmetricallyEncrypted true [xa5]]))
    as [[[reader|] [e|]]|] eqn:H; try (vm_compute in H; discriminate H).
  destruct (detached_metadata_comes_from_data_stream ∅ 0 "context"
              Toy.GetCipherFunc (Toy.Decrypt book) (Toy.lib book)
              Toy.verifyingDetachedReader _ _ _ _ H) as [(mdData & Hd & Hl) _].
  exists reader. split; [reflexivity|]. rewrite Hl.
  vm_compute in Hd. injection Hd as <-. reflexivity.
Defined.

(** [New] on a builder whose draft holds a password. *)
Lemma New_resets_the_draft_witness :
  newDecryptionHandleBuilder Toy.defaultDecryptionHandle clock heapPassword
  = Some (mkBuilder 1%nat clock None,
          mkHeap (<[1%nat := Toy.defaultDecryptionHandle clock]>
                    {[ 0%nat := passwordHandle [x70; x77] ]}) ∅)
  /\ New Toy.validate Toy.defaultDecryptionHandle builder0 heapPassword
     = Some (((Some 0%nat, None), mkBuilder 1%nat clock None),
             mkHeap (<[1%nat := Toy.defaultDecryptionHandle clock]>
                       {[ 0%nat := passwordHandle [x70; x77] ]}) ∅).
Proof.
  assert (New Toy.validate Toy.defaultDecryptionHandle builder0 heapPassword
          = Some (((Some 0%nat, None), mkBuilder 1%nat clock None),
                  mkHeap (<[1%nat := Toy.defaultDecryptionHandle clock]>
                            {[ 0%nat := passwordHandle [x70; x77] ]}) ∅)) as H
    by (vm_compute; reflexivity).
  destruct (New_resets_the_draft Toy.Key Toy.NewKeyRing Toy.AddKey Toy.validate
              Toy.defaultDecryptionHandle _ _ _ _ _ H) as (_ & Hnew & _).
  split; [exact Hnew|exact H].
Defined.

(** The failed [DecryptionKey(lockedKey)] on a new builder. *)
Lemma locked_key_records_error :
  DecryptionKey Toy.Key Toy.NewKeyRing Toy.AddKey builder0 lockedKey heapNew
  = Some (builderAfterLocked, heapAfterLocked).
Proof. vm_compute. reflexivity. Qed.

(** After the failed call, [New] fails; after a further call that succeeds,
    [New] returns the draft. *)
Lemma key_setters_overwrite_stored_error_witness :
  New Toy.validate Toy.defaultDecryptionHandle builderAfterLocked heapAfterLocked
  = Some (((None, err builderAfterLocked), builderAfterLocked), heapAfterLocked)
  /\ exists dpb' σ' dpb2 σ2,
       DecryptionKey Toy.Key Toy.NewKeyRing Toy.AddKey builderAfterLocked unlockedKey
         heapAfterLocked = Some (dpb', σ')
       /\ err dpb' = None
       /\ New Toy.validate Toy.defaultDecryptionHandle dpb' σ'
          = Some (((Some 0%nat, None), dpb2), σ2).
Proof.
  split; [vm_compute; reflexivity|].
  destruct (key_setters_overwrite_stored_error Toy.Key Toy.NewKeyRing Toy.AddKey
              Toy.validate Toy.defaultDecryptionHandle builderAfterLocked unlockedKey
              heapAfterLocked
              (setDecryptionKeyRing (Toy.defaultDecryptionHandle clock) (Some 0%nat)))
    as [(dpb' & σ' & Hrun & Herr & Hnew) _].
  - vm_compute. reflexivity.
  - intros k [[= <-]|[=]]. exists (mkKeyRing []). vm_compute. reflexivity.
  - vm_compute in Hrun. injection Hrun as <- <-.
    destruct (Hnew eq_refl
                (setDecryptionKeyRing (Toy.defaultDecryptionHandle clock) (Some 0%nat)))
      as (dpb2 & σ2 & Hbuild); [vm_compute; reflexivity|vm_compute; reflexivity|].
    eexists _, _, dpb2, σ2. split; [vm_compute; reflexivity|].
    split; [reflexivity|exact Hbuild].
Defined.

End Instances.

(** ** More on the decryption attempts *)

Section MoreSessionKeyFacts.

Variable GetCipherFunc : SessionKey -> CipherFunction * option error.
Variable Decrypt : Packet -> CipherFunction -> bytes -> error + ReadCloser.

Local Abbreviation attempt := (decryptStreamWithSessionKey GetCipherFunc Decrypt).
Local Abbreviation loop := (sessionKeyLoop GetCipherFunc Decrypt).
Local Abbreviation onPacket := (attemptOnPacket GetCipherFunc Decrypt).

Lemma attempt_key_prefix sk ks r :
  forallb isKeyPacket ks = true -> attempt sk (ks ++ r) = attempt sk r.
Proof.
  induction ks as [|k ks IH]; [reflexivity|]. simpl.
  destruct (isKeyPacket k) eqn:Hk; [|discriminate]. simpl. intros H.
  destruct k; simpl in Hk; try discriminate; simpl; exact (IH H).
Qed.

Lemma attempt_on_non_key_packet sk p rest :
  isKeyPacket p = false -> attempt sk (p :: rest) = (onPacket sk p, rest).
Proof.
  intros Hk. unfold attemptOnPacket.
  destruct p; simpl in Hk; try discriminate; reflexivity.
Qed.

(** The first packet that is not a key-exchange packet decides an attempt:
    what the attempt returns is what that packet gives - the decryption of
    an encrypted-data packet, "invalid packet type" for any other - whatever
    packets follow it. *)
Theorem attempt_is_decided_by_first_non_key_packet sk ks p rest :
  forallb isKeyPacket ks = true ->
  isKeyPacket p = false ->
  fst (decryptStreamWithSessionKey GetCipherFunc Decrypt sk (ks ++ p :: rest))
  = attemptOnPacket GetCipherFunc Decrypt sk p
  /\ (isDataPacket p = false ->
      fst (decryptStreamWithSessionKey GetCipherFunc Decrypt sk (ks ++ p :: rest))
      = (None, Some (errors_New "gopenpgp: invalid packet type")))
  /\ forall rest',
       fst (decryptStreamWithSessionKey GetCipherFunc Decrypt sk (ks ++ p :: rest'))
       = fst (decryptStreamWithSessionKey GetCipherFunc Decrypt sk (ks ++ p :: rest)).
Proof.
  intros Hks Hp.
  assert (forall q, fst (attempt sk (ks ++ p :: q)) = onPacket sk p) as H.
  { intros q. rewrite (attempt_key_prefix _ _ _ Hks),
      (attempt_on_non_key_packet _ _ _ Hp). reflexivity. }
  split; [apply H|]. split.
  - intros Hd. rewrite H. unfold attemptOnPacket. rewrite Hd. reflexivity.
  - intros rest'. rewrite !H. reflexivity.
Qed.

(** A session key marked v6 is used without looking up its cipher, with the
    zero cipher function; for any other key a failed cipher lookup ends the
    attempt before [Decrypt] is called. *)
Theorem cipher_is_looked_up_only_for_non_v6_keys sk r :
  (v6 sk = true ->
   forall GetCipherFunc',
     decryptStreamWithSessionKey GetCipherFunc' Decrypt sk r
     = decryptStreamWithSessionKey GetCipherFunc Decrypt sk r)
  /\ (v6 sk = true ->
      forall p, isDataPacket p = true ->
        decryptDataPacket GetCipherFunc Decrypt sk p =
        match Decrypt p 0 (Key sk) with
        | inl e => (None, Some (withMessage e "gopenpgp: unable to decrypt symmetric packet"))
        | inr decrypted => (Some decrypted, None)
        end)
  /\ (v6 sk = false ->
      forall e, snd (GetCipherFunc sk) = Some e ->
        (forall Decrypt',
           decryptStreamWithSessionKey GetCipherFunc Decrypt' sk r
           = decryptStreamWithSessionKey GetCipherFunc Decrypt sk r)
        /\ forall p, isDataPacket p = true ->
             decryptDataPacket GetCipherFunc Decrypt sk p
             = (None, Some (withMessage e "gopenpgp: unable to decrypt with session key"))).
Proof.
  split; [|split].
  - intros Hv G'. induction r as [|p r' IH]; [reflexivity|].
    destruct p; simpl; try exact IH; try reflexivity;
      unfold decryptDataPacket; rewrite Hv; reflexivity.
  - intros Hv p Hp. unfold decryptDataPacket. rewrite Hv. simpl.
    destruct p; simpl in Hp; try discriminate; simpl;
      destruct (Decrypt _ 0 (Key sk)); reflexivity.
  - intros Hv e He.
    assert (forall D' p, decryptDataPacket GetCipherFunc D' sk p
              = (None, Some (withMessage e "gopenpgp: unable to decrypt with session key")))
      as Hd.
    { intros D' p. unfold decryptDataPacket. rewrite Hv. simpl.
      destruct (GetCipherFunc sk) as [dc e']. simpl in He. subst e'. reflexivity. }
    split.
    + intros D'. induction r as [|p r' IH]; [reflexivity|].
      destruct p; simpl; try exact IH; try reflexivity; rewrite !Hd; reflexivity.
    + intros p _. apply Hd.
Qed.

Lemma loop_keeps_error cs d e r d' e' r' :
  loop cs d (Some e) r = ((d', e', None), r') -> exists e'', e' = Some e''.
Proof.
  revert d e r. induction cs as [|c cs IH]; intros d e r; simpl.
  - intros [= _ <- _]. eauto.
  - destruct (attempt c r) as [[dc [ec|]] rc]; [|discriminate]. apply IH.
Qed.

Lemma loop_nonempty_error cs d e r d' e' r' :
  cs <> [] -> loop cs d e r = ((d', e', None), r') -> exists e'', e' = Some e''.
Proof.
  destruct cs as [|c cs]; [congruence|]. intros _. simpl.
  destruct (attempt c r) as [[dc [ec|]] rc]; [|discriminate].
  apply loop_keeps_error.
Qed.

Lemma loop_key_prefix cs d e ks r :
  forallb isKeyPacket ks = true ->
  fst (loop cs d e (ks ++ r)) = fst (loop cs d e r).
Proof.
  intros Hks. destruct cs as [|c cs]; [reflexivity|].
  simpl. rewrite (attempt_key_prefix _ _ _ Hks). reflexivity.
Qed.

End MoreSessionKeyFacts.

(** ** More on session-key mode and detached verification *)

Section MoreCoreFacts.

Variable keyrings : gmap loc KeyRing.
Variable now : Z.
Variable SignatureContextName : string.
Variable GetCipherFunc : SessionKey -> CipherFunction * option error.
Variable Decrypt : Packet -> CipherFunction -> bytes -> error + ReadCloser.
Variable lib : OpenPGP.
Variable verifyingDetachedReader :
  BodyReader -> BodyReader -> option loc -> option VerificationContext ->
  bool -> Config -> Clock -> option VerifyDataReader * option error.

Local Abbreviation loop := (sessionKeyLoop GetCipherFunc Decrypt).
Local Abbreviation andParse :=
  (decryptStreamWithSessionAndParse keyrings now SignatureContextName
     GetCipherFunc Decrypt lib).
Local Abbreviation withSession :=
  (decryptStreamWithSession keyrings now SignatureContextName GetCipherFunc Decrypt lib).
Local Abbreviation detached :=
  (decryptStreamAndVerifyDetached keyrings now SignatureContextName
     GetCipherFunc Decrypt lib verifyingDetachedReader).

Lemma andParse_depends_on_loop dh r r0 :
  fst (loop (dh_SessionKeys dh) None None r) = fst (loop (dh_SessionKeys dh) None None r0) ->
  andParse dh r = andParse dh r0.
Proof.
  unfold decryptStreamWithSessionAndParse.
  destruct (loop (dh_SessionKeys dh) None None r) as [[[d e] s] r1].
  destruct (loop (dh_SessionKeys dh) None None r0) as [[[d0 e0] s0] r2].
  simpl. intros [= -> -> ->]. reflexivity.
Qed.

(** Key-exchange packets in front of a message change nothing in session-key
    mode: with them or without them the call returns the same. *)
Theorem leading_key_packets_are_ignored dh ks r :
  forallb isKeyPacket ks = true ->
  decryptStreamWithSessionAndParse keyrings now SignatureContextName
    GetCipherFunc Decrypt lib dh (ks ++ r)
  = decryptStreamWithSessionAndParse keyrings now SignatureContextName
      GetCipherFunc Decrypt lib dh r
  /\ decryptStreamWithSession keyrings now SignatureContextName
       GetCipherFunc Decrypt lib dh (ks ++ r)
     = decryptStreamWithSession keyrings now SignatureContextName
         GetCipherFunc Decrypt lib dh r.
Proof.
  intros Hks.
  assert (andParse dh (ks ++ r) = andParse dh r) as H
    by (apply andParse_depends_on_loop, loop_key_prefix; exact Hks).
  split; [exact H|]. unfold decryptStreamWithSession. rewrite H. reflexivity.
Qed.

(** With at least one candidate the call returns either message details
    that record the key of one of the candidates, or an error. *)
Lemma andParse_result dh r :
  dh_SessionKeys dh <> [] ->
  (exists md c, andParse dh r = (Some md, dh_clock dh now, None)
                /\ c ∈ dh_SessionKeys dh
                /\ md_SessionKey md = Some (Key c))
  \/ (exists e, andParse dh r = (None, 0, Some e)).
Proof.
  intros Hne. unfold decryptStreamWithSessionAndParse.
  destruct (loop (dh_SessionKeys dh) None None r) as [[[d e] [sel|]] r'] eqn:Hl.
  - destruct (loop_selects_first_success _ _ _ _ _ _ _ _ _ _ Hl)
      as (b & a & _ & _ & _ & Hcs & _).
    pose proof (sessionParseSetup_config keyrings now SignatureContextName dh)
      as (_ & Ht & _).
    destruct (sessionParseSetup keyrings now SignatureContextName dh) as [keyring config].
    simpl in *. destruct (ReadMessage_nilPrompt lib d keyring config) as [e'|md].
    + right. eexists. reflexivity.
    + left. eexists _, sel. rewrite Ht. split; [reflexivity|].
      split; [|reflexivity]. rewrite Hcs. apply elem_of_app. right. apply list_elem_of_here.
  - destruct (loop_nonempty_error _ _ _ _ _ _ _ _ _ Hne Hl) as [e'' ->].
    right. eexists. reflexivity.
Qed.

(** With no session key candidates on the handle,
    [decryptStreamWithSessionAndParse] returns neither message details nor an
    error, and [decryptStreamWithSession] dereferences the nil details.
    Whenever [decryptStreamWithSession] returns, it returns either a reader
    that has not been read, carries the clock's time and records the key of
    one of the candidates, or the failure wrapped as "error in reading
    message". *)
Theorem decryptStreamWithSession_without_candidates dh r :
  (dh_SessionKeys dh = [] ->
   decryptStreamWithSessionAndParse keyrings now SignatureContextName GetCipherFunc
     Decrypt lib dh r = (None, 0, None)
   /\ decryptStreamWithSession keyrings now SignatureContextName GetCipherFunc Decrypt
        lib dh r = panics)
  /\ (forall res,
        decryptStreamWithSession keyrings now SignatureContextName GetCipherFunc
          Decrypt lib dh r = returns res ->
        (exists reader c,
           res = (Some reader, None)
           /\ verifyTime reader = dh_clock dh now
           /\ readAllDone reader = false
           /\ c ∈ dh_SessionKeys dh
           /\ md_SessionKey (details reader) = Some (Key c))
        \/ (exists e,
              res = (None, Some (withMessage e "gopenpgp: error in reading message")))).
Proof.
  destruct (dh_SessionKeys dh) as [|c0 cs0] eqn:Hcs.
  - unfold decryptStreamWithSession.
    rewrite (andParse_no_candidates keyrings now SignatureContextName GetCipherFunc
               Decrypt lib dh r Hcs).
    split; [split; reflexivity|]. discriminate.
  - assert (dh_SessionKeys dh <> []) as Hne by (rewrite Hcs; discriminate).
    split; [discriminate|].
    unfold decryptStreamWithSession.
    destruct (andParse_result dh r Hne) as [(md & c & -> & Hin & Hk)|(e & ->)].
    + intros res [= <-]. left. eexists _, c. simpl. rewrite <- Hcs. auto.
    + intros res [= <-]. right. eexists. reflexivity.
Qed.

(** Whenever [decryptStreamAndVerifyDetached] returns, it returns either a
    reader and no error, or no reader and an error that names the stage that
    failed: the failure on the data stream wrapped as "error in reading data
    message", the failure on the signature stream wrapped as "error in
    reading detached signature message", or, unwrapped, the error of
    [verifyingDetachedReader] called with the handle's verification key ring
    and context, the intended-recipients check as the handle has it and the
    clock fixed at the time of the call. *)
Theorem detached_returns_reader_or_staged_error dh data sig res :
  fst (decryptStreamAndVerifyDetached keyrings now SignatureContextName
         GetCipherFunc Decrypt lib verifyingDetachedReader dh data sig)
  = returns res ->
  (exists reader, res = (Some reader, None))
  \/ (exists e,
        res = (None, Some (withMessage e "gopenpgp: error in reading data message")))
  \/ (exists e,
        res = (None, Some (withMessage e
                 "gopenpgp: error in reading detached signature message")))
  \/ (exists e body signature,
        res = (None, Some e)
        /\ snd (verifyingDetachedReader body signature (dh_VerifyKeyRing dh)
                  (dh_VerificationContext dh) (dh_DisableVerifyTimeCheck dh)
                  (setCheckIntendedRecipients emptyConfig
                     (Some (negb (dh_DisableIntendedRecipients dh))))
                  (NewConstantClock (dh_clock dh now))) = Some e).
Proof.
  assert (forall md s,
            bindDetached verifyingDetachedReader dh (dh_clock dh now) md s = returns res ->
            (exists reader, res = (Some reader, None))
            \/ (exists e body signature,
                  res = (None, Some e)
                  /\ snd (verifyingDetachedReader body signature (dh_VerifyKeyRing dh)
                            (dh_VerificationContext dh) (dh_DisableVerifyTimeCheck dh)
                            (setCheckIntendedRecipients emptyConfig
                               (Some (negb (dh_DisableIntendedRecipients dh))))
                            (NewConstantClock (dh_clock dh now))) = Some e)) as Hbind.
  { intros [md|] s; [|discriminate]. unfold bindDetached.
    destruct (verifyingDetachedReader (md_UnverifiedBody md) s _ _ _ _ _)
      as [[v|] [e|]] eqn:Hv; try discriminate.
    - intros [= <-]. right. exists e, (md_UnverifiedBody md), s.
      rewrite Hv. split; reflexivity.
    - intros [= <-]. left. eexists. reflexivity.
    - intros [= <-]. right. exists e, (md_UnverifiedBody md), s.
      rewrite Hv. split; reflexivity. }
  assert (forall md s,
            bindDetached verifyingDetachedReader dh (dh_clock dh now) md s = returns res ->
            (exists reader, res = (Some reader, None))
            \/ (exists e,
                  res = (None, Some (withMessage e "gopenpgp: error in reading data message")))
            \/ (exists e,
                  res = (None, Some (withMessage e
                           "gopenpgp: error in reading detached signature message")))
            \/ (exists e body signature,
                  res = (None, Some e)
                  /\ snd (verifyingDetachedReader body signature (dh_VerifyKeyRing dh)
                            (dh_VerificationContext dh) (dh_DisableVerifyTimeCheck dh)
                            (setCheckIntendedRecipients emptyConfig
                               (Some (negb (dh_DisableIntendedRecipients dh))))
                            (NewConstantClock (dh_clock dh now))) = Some e)) as Hbind'.
  { intros md s Hb. destruct (Hbind md s Hb) as [H|H]; [left; exact H|].
    right. right. right. exact H. }
  destruct (0 <? length (dh_SessionKeys dh))%nat eqn:Hlen.
  - apply Nat.ltb_lt in Hlen.
    rewrite (detached_session_mode keyrings now SignatureContextName GetCipherFunc
               Decrypt lib verifyingDetachedReader dh data sig Hlen). cbn [fst].
    destruct (andParse dh data) as [[mdData t] [e|]].
    { intros [= <-]. right. left. eexists. reflexivity. }
    destruct (andParse dh sig) as [[[mdSig|] t'] [e|]]; try discriminate.
    + intros [= <-]. right. right. left. eexists. reflexivity.
    + apply Hbind'.
    + intros [= <-]. right. right. left. eexists. reflexivity.
  - assert (dh_SessionKeys dh = []) as Hk
      by (destruct (dh_SessionKeys dh); [reflexivity|discriminate Hlen]).
    rewrite (detached_prompt_mode keyrings now SignatureContextName GetCipherFunc
               Decrypt lib verifyingDetachedReader dh data sig Hk _ _
               (surjective_pairing _)).
    destruct (ReadMessage lib (Some data) _ _ _) as [[e|mdData] answersData].
    { intros [= <-]. right. left. eexists. reflexivity. }
    destruct (ReadMessage lib (Some sig) _ _ _) as [[e|mdSig] answersSig].
    { intros [= <-]. right. right. left. eexists. reflexivity. }
    cbn [fst]. apply Hbind'.
Qed.

(** When the data stream cannot be decrypted, the signature stream is not
    looked at: the call returns the data stream's error wrapped as "error in
    reading data message", whatever the signature stream is, and no prompt
    is created or invoked for the signature stream. *)
Theorem detached_fails_on_data_before_signature dh data sig :
  detachedDataDetails keyrings now SignatureContextName GetCipherFunc Decrypt lib
    dh data = None ->
  (exists e,
     fst (decryptStreamAndVerifyDetached keyrings now SignatureContextName
            GetCipherFunc Decrypt lib verifyingDetachedReader dh data sig)
     = returns (None, Some (withMessage e "gopenpgp: error in reading data message")))
  /\ snd (snd (decryptStreamAndVerifyDetached keyrings now SignatureContextName
                 GetCipherFunc Decrypt lib verifyingDetachedReader dh data sig)) = []
  /\ forall sig',
       decryptStreamAndVerifyDetached keyrings now SignatureContextName
         GetCipherFunc Decrypt lib verifyingDetachedReader dh data sig'
       = decryptStreamAndVerifyDetached keyrings now SignatureContextName
           GetCipherFunc Decrypt lib verifyingDetachedReader dh data sig.
Proof.
  unfold detachedDataDetails.
  destruct (0 <? length (dh_SessionKeys dh))%nat eqn:Hlen.
  - apply Nat.ltb_lt in Hlen. intros Hnone.
    assert (dh_SessionKeys dh <> []) as Hne
      by (destruct (dh_SessionKeys dh); [simpl in Hlen; lia|discriminate]).
    assert (exists e, andParse dh data = (None, 0, Some e)) as [e He].
    { destruct (andParse_result dh data Hne) as [(md & c & Heq & _)|H]; [|exact H].
      rewrite Heq in Hnone. discriminate. }
    assert (forall s, detached dh data s
              = (returns (None, Some (withMessage e "gopenpgp: error in reading data message")),
                 ([], []))) as Hall.
    { intros s.
      rewrite (detached_session_mode keyrings now SignatureContextName GetCipherFunc
                 Decrypt lib verifyingDetachedReader dh data s Hlen), He. reflexivity. }
    split; [exists e; rewrite Hall; reflexivity|].
    split; [rewrite Hall; reflexivity|]. intros s. rewrite !Hall. reflexivity.
  - assert (dh_SessionKeys dh = []) as Hk
      by (destruct (dh_SessionKeys dh); [reflexivity|discriminate Hlen]).
    intros Hnone.
    assert (forall s, detached dh data s =
              match ReadMessage lib (Some data) (fst (detachedSetup keyrings now dh))
                      (createPasswordPrompt (dh_Password dh))
                      (snd (detachedSetup keyrings now dh)) with
              | (inl e, answersData) =>
                  (returns (None, Some (withMessage e "gopenpgp: error in reading data message")),
                   (answersData, []))
              | (inr _, _) => detached dh data s
              end) as Hall.
    { intros s.
      rewrite (detached_prompt_mode keyrings now SignatureContextName GetCipherFunc
                 Decrypt lib verifyingDetachedReader dh data s Hk _ _
                 (surjective_pairing _)) at 1.
      destruct (ReadMessage lib (Some data) _ _ _) as [[e|mdData] answersData] eqn:Hr;
        [reflexivity|].
      rewrite (detached_prompt_mode keyrings now SignatureContextName GetCipherFunc
                 Decrypt lib verifyingDetachedReader dh data s Hk _ _
                 (surjective_pairing _)), Hr. reflexivity. }
    destruct (ReadMessage lib (Some data) (fst (detachedSetup keyrings now dh))
                (createPasswordPrompt (dh_Password dh))
                (snd (detachedSetup keyrings now dh))) as [[e|mdData] answersData];
      [|discriminate Hnone].
    split; [exists e; rewrite Hall; reflexivity|].
    split; [rewrite Hall; reflexivity|]. intros s. rewrite !Hall. reflexivity.
Qed.

Lemma andParse_after_selection dh r d e c r' :
  loop (dh_SessionKeys dh) None None r = ((d, e, Some c), r') ->
  andParse dh r =
  match ReadMessage_nilPrompt lib d
          (fst (sessionParseSetup keyrings now SignatureContextName dh))
          (snd (sessionParseSetup keyrings now SignatureContextName dh)) with
  | inl e' =>
      (None, 0, Some (withMessage e' "gopenpgp: unable to decode symmetric packet"))
  | inr md =>
      (Some (setUnverifiedBody (setSessionKey md (Some (Key c)))
               (checkReader d (md_UnverifiedBody md))),
       dh_clock dh now, None)
  end.
Proof.
  intros Hl.
  pose proof (sessionParseSetup_config keyrings now SignatureContextName dh)
    as (_ & Ht & _).
  unfold decryptStreamWithSessionAndParse. rewrite Hl.
  destruct (sessionParseSetup keyrings now SignatureContextName dh) as [keyring config].
  simpl in *. destruct (ReadMessage_nilPrompt lib d keyring config); [reflexivity|].
  rewrite Ht. reflexivity.
Qed.

(** The candidate whose [Decrypt] succeeds first settles the call: the
    candidates behind it are never tried, also when the library then rejects
    the decrypted stream - the call fails with "unable to decode symmetric
    packet" whatever candidates follow. *)
Theorem candidates_behind_the_selected_one_are_never_tried dh r d e c r' more :
  sessionKeyLoop GetCipherFunc Decrypt (dh_SessionKeys dh) None None r
  = ((d, e, Some c), r') ->
  sessionKeyLoop GetCipherFunc Decrypt (dh_SessionKeys dh ++ more) None None r
  = ((d, e, Some c), r')
  /\ decryptStreamWithSessionAndParse keyrings now SignatureContextName
       GetCipherFunc Decrypt lib (setSessionKeys dh (dh_SessionKeys dh ++ more)) r
     = decryptStreamWithSessionAndParse keyrings now SignatureContextName
         GetCipherFunc Decrypt lib dh r
  /\ (forall e',
        ReadMessage_nilPrompt lib d
          (fst (sessionParseSetup keyrings now SignatureContextName dh))
          (snd (sessionParseSetup keyrings now SignatureContextName dh)) = inl e' ->
        decryptStreamWithSessionAndParse keyrings now SignatureContextName
          GetCipherFunc Decrypt lib (setSessionKeys dh (dh_SessionKeys dh ++ more)) r
        = (None, 0, Some (withMessage e' "gopenpgp: unable to decode symmetric packet"))).
Proof.
  intros Hl.
  assert (loop (dh_SessionKeys dh ++ more) None None r = ((d, e, Some c), r')) as Hmore
    by (rewrite loop_app, Hl; reflexivity).
  assert (andParse (setSessionKeys dh (dh_SessionKeys dh ++ more)) r = andParse dh r) as Heq.
  { unfold decryptStreamWithSessionAndParse. simpl. rewrite Hmore, Hl. reflexivity. }
  split; [exact Hmore|]. split; [exact Heq|].
  intros e' Hr. rewrite Heq.
  rewrite (andParse_after_selection dh r d e c r' Hl), Hr. reflexivity.
Qed.

End MoreCoreFacts.

(** ** [getSignaturePacket] *)

Section SignaturePacketFacts.

Variable packet_Read : bytes -> option Packet * option error.

(** [getSignaturePacket] hands back the error of [packet.Read] as it is, and
    a packet only when [packet.Read] returned a signature packet.  For any
    other packet it returns neither a packet nor an error: the message
    "invalid signature packet" wraps a nil error and is never returned. *)
Theorem getSignaturePacket_returns_nil_for_other_packets sig :
  snd (getSignaturePacket packet_Read sig) = snd (packet_Read sig)
  /\ (forall p, fst (getSignaturePacket packet_Read sig) = Some p ->
        packet_Read sig = (Some p, None)
        /\ exists t k c, p = Signature t k c)
  /\ (forall p, packet_Read sig = (Some p, None) ->
        (forall t k c, p <> Signature t k c) ->
        getSignaturePacket packet_Read sig = (None, None))
  /\ (forall cause msg,
        snd (getSignaturePacket packet_Read sig) = Some (withMessage cause msg) ->
        snd (packet_Read sig) = Some (withMessage cause msg)).
Proof.
  unfold getSignaturePacket.
  destruct (packet_Read sig) as [p [e|]]; simpl.
  - split; [reflexivity|]. split; [discriminate|].
    split; [discriminate|]. auto.
  - destruct p as [[]|]; simpl;
      (split; [reflexivity|]);
      (split; [first [discriminate | intros p [= <-]; eauto 6]|]);
      (split; [|discriminate]);
      try (intros; reflexivity).
    intros p [= <-] Hn. exfalso. exact (Hn _ _ _ eq_refl).
Qed.

End SignaturePacketFacts.

(** ** More on the decryption handle builder *)

Section MoreBuilderFacts.

Variable Key : Type.
Variable NewKeyRing : Key -> option KeyRing * option error.
Variable AddKey : KeyRing -> Key -> KeyRing * option error.
Variable validate : gmap loc KeyRing -> decryptionHandle -> option error.
Variable defaultDecryptionHandle : Clock -> decryptionHandle.

Local Abbreviation setter := (applySetter Key NewKeyRing AddKey).
Local Abbreviation setters := (applySetters Key NewKeyRing AddKey).
Local Abbreviation build := (New validate defaultDecryptionHandle).
Local Abbreviation run := (runCalls Key NewKeyRing AddKey validate defaultDecryptionHandle).

Lemma non_key_setter_keeps_builder dpb c σ dpb' σ' :
  isKeySetter Key c = false ->
  setter dpb c σ = Some (dpb', σ') ->
  dpb' = dpb /\ keyringStore σ' = keyringStore σ.
Proof.
  intros Hc H. destruct c; simpl in Hc; try discriminate; simpl in H;
    apply updateHandle_inv in H as (h & _ & -> & ->); auto.
Qed.

Lemma non_key_setters_keep_builder cs dpb σ dpb' σ' :
  Forall (fun c => isKeySetter Key c = false) cs ->
  setters dpb cs σ = Some (dpb', σ') ->
  dpb' = dpb /\ keyringStore σ' = keyringStore σ.
Proof.
  intros Hcs. revert dpb σ. induction Hcs as [|c cs Hc _ IH]; intros dpb σ; simpl.
  - unfold mret. intros [= <- <-]. auto.
  - unfold mbind. destruct (setter dpb c σ) as [[dpb1 σ1]|] eqn:Hs; [|discriminate].
    destruct (non_key_setter_keeps_builder _ _ _ _ _ Hc Hs) as [-> Hk].
    intros H. destruct (IH _ _ H) as [-> Hk']. split; [reflexivity|congruence].
Qed.

Lemma New_with_stored_error dpb σ e :
  err dpb = Some e -> build dpb σ = Some (((None, Some e), dpb), σ).
Proof. intros He. unfold New. rewrite He. reflexivity. Qed.

(** While the builder holds an error, the configuration methods other than
    [DecryptionKey] and [VerifyKey] leave it in place, and [New] returns it:
    the draft is neither validated nor handed out nor replaced. *)
Theorem stored_error_survives_configuration dpb σ e cs dpb' σ' :
  err dpb = Some e ->
  Forall (fun c => isKeySetter Key c = false) cs ->
  applySetters Key NewKeyRing AddKey dpb cs σ = Some (dpb', σ') ->
  dpb' = dpb
  /\ New validate defaultDecryptionHandle dpb' σ' = Some (((None, Some e), dpb'), σ').
Proof.
  intros He Hcs H. destruct (non_key_setters_keep_builder _ _ _ _ _ Hcs H) as [-> _].
  split; [reflexivity|]. exact (New_with_stored_error _ _ _ He).
Qed.

Lemma New_failure_inv dpb σ e dpb1 σ1 :
  build dpb σ = Some (((None, Some e), dpb1), σ1) ->
  σ1 = σ /\ dpb1 = setErr dpb (Some e)
  /\ (err dpb = Some e
      \/ (err dpb = None
          /\ exists d, handles σ !! handle dpb = Some d
                       /\ validate (keyringStore σ) d = Some e)).
Proof.
  unfold New. destruct (err dpb) as [e0|] eqn:He.
  - unfold mret. intros [= <- <- <-]. split; [reflexivity|].
    split; [destruct dpb; unfold setErr; simpl in *; congruence|left; reflexivity].
  - unfold mbind, readHandle, getKeyrings, allocHandle, mret.
    destruct (handles σ !! handle dpb) as [d|] eqn:Hd; [|discriminate]. simpl.
    destruct (validate (keyringStore σ) d) as [e1|] eqn:Hv; [|discriminate].
    intros [= <- <- <-]. split; [reflexivity|]. split; [reflexivity|].
    right. split; [reflexivity|]. exists d. auto.
Qed.

(** A failed [New] changes nothing but [err]: the draft stays in place with
    its configuration, and the error is remembered.  Until [DecryptionKey]
    or [VerifyKey] is called, every later [New] returns the same error
    without validating the draft again, whatever was configured in
    between. *)
Theorem failed_New_is_remembered dpb σ e dpb1 σ1 :
  New validate defaultDecryptionHandle dpb σ = Some (((None, Some e), dpb1), σ1) ->
  σ1 = σ
  /\ handle dpb1 = handle dpb
  /\ err dpb1 = Some e
  /\ forall cs dpb2 σ2,
       Forall (fun c => isKeySetter Key c = false) cs ->
       applySetters Key NewKeyRing AddKey dpb1 cs σ1 = Some (dpb2, σ2) ->
       New validate defaultDecryptionHandle dpb2 σ2 = Some (((None, Some e), dpb2), σ2).
Proof.
  intros H. apply New_failure_inv in H as (-> & -> & _).
  split; [reflexivity|]. split; [reflexivity|]. split; [reflexivity|].
  intros cs dpb2 σ2 Hcs Hrun.
  exact (proj2 (stored_error_survives_configuration (setErr dpb (Some e)) σ e cs dpb2 σ2
                  eq_refl Hcs Hrun)).
Qed.

(** [DecryptionKey] on a draft that already has a key ring adds the key to
    that very object: the key ring at the address the draft points to is
    replaced by what [AddKey] leaves, no object is created, and the draft is
    untouched - so a key ring the caller handed over with [DecryptionKeys]
    is changed in place.  On a draft without a key ring a new object is
    created and every existing key ring stays as it was. *)
Theorem DecryptionKey_adds_to_the_ring_in_place dpb key σ h dpb' σ' :
  handles σ !! handle dpb = Some h ->
  DecryptionKey Key NewKeyRing AddKey dpb key σ = Some (dpb', σ') ->
  match dh_DecryptionKeyRing h with
  | Some k =>
      exists kr, keyringStore σ !! k = Some kr
        /\ keyringStore σ' = <[k := fst (AddKey kr key)]> (keyringStore σ)
        /\ handles σ' = handles σ
        /\ dom (keyringStore σ') = dom (keyringStore σ)
  | None =>
      (forall k kr, keyringStore σ !! k = Some kr -> keyringStore σ' !! k = Some kr)
      /\ match fst (NewKeyRing key) with
         | Some kr =>
             exists k, keyringStore σ !! k = None
               /\ keyringStore σ' = <[k := kr]> (keyringStore σ)
               /\ handles σ' !! handle dpb = Some (setDecryptionKeyRing h (Some k))
         | None =>
             keyringStore σ' = keyringStore σ
             /\ handles σ' !! handle dpb = Some (setDecryptionKeyRing h None)
         end
  end.
Proof.
  intros Hh. unfold DecryptionKey, addKeyTo, mbind, mret, readHandle, writeHandle,
    readKeyRing, writeKeyRing, allocKeyRing. rewrite Hh.
  destruct (dh_DecryptionKeyRing h) as [k|].
  - destruct (keyringStore σ !! k) as [kr|] eqn:Hk; [|discriminate].
    destruct (AddKey kr key) as [kr' e] eqn:HA. intros [= <- <-]. exists kr.
    rewrite HA. simpl.
    split; [reflexivity|]. split; [reflexivity|]. split; [reflexivity|].
    rewrite dom_insert_L. apply elem_of_dom_2 in Hk.
    apply set_eq. intros x. rewrite elem_of_union, elem_of_singleton.
    split; [intros [->|Hx]; assumption|intros Hx; right; exact Hx].
  - destruct (NewKeyRing key) as [[kr|] e]; intros [= <- <-]; simpl.
    + assert (keyringStore σ !! fresh (dom (keyringStore σ)) = None) as Hf
        by (apply not_elem_of_dom, is_fresh).
      split.
      * intros k kr' Hk. rewrite lookup_insert_ne; [exact Hk|]. congruence.
      * exists (fresh (dom (keyringStore σ))). split; [exact Hf|].
        split; [reflexivity|]. apply lookup_insert_eq.
    + split; [auto|]. split; [reflexivity|]. apply lookup_insert_eq.
Qed.

(** *** Pointers stay valid *)

Lemma wellFormed_setter dpb c σ :
  wellFormed dpb σ ->
  validCall Key σ (configure Key c) ->
  exists dpb' σ',
    setter dpb c σ = Some (dpb', σ')
    /\ wellFormed dpb' σ'
    /\ dom (keyringStore σ) ⊆ dom (keyringStore σ').
Proof.
  intros (h & Hh & Hd & Hv) Hc.
  assert (forall f,
            (forall k, dh_DecryptionKeyRing (f h) = Some k -> is_Some (keyringStore σ !! k)) ->
            (forall k, dh_VerifyKeyRing (f h) = Some k -> is_Some (keyringStore σ !! k)) ->
            exists dpb' σ', updateHandle dpb f σ = Some (dpb', σ')
              /\ wellFormed dpb' σ' /\ dom (keyringStore σ) ⊆ dom (keyringStore σ')) as Hupd.
  { intros f H1 H2. unfold updateHandle, mbind, mret, readHandle, writeHandle.
    rewrite Hh. eexists _, _. split; [reflexivity|]. split; [|reflexivity].
    exists (f h). simpl. rewrite lookup_insert_eq. auto. }
  assert (forall get set,
            (forall k, get h = Some k -> is_Some (keyringStore σ !! k)) ->
            (forall v, dh_DecryptionKeyRing (set h v) = dh_DecryptionKeyRing h
                       /\ dh_VerifyKeyRing (set h v) = v
                       \/ dh_DecryptionKeyRing (set h v) = v
                          /\ dh_VerifyKeyRing (set h v) = dh_VerifyKeyRing h) ->
            forall key, exists dpb' σ',
              addKeyTo Key NewKeyRing AddKey get set dpb key σ = Some (dpb', σ')
              /\ wellFormed dpb' σ' /\ dom (keyringStore σ) ⊆ dom (keyringStore σ')) as Hadd.
  { intros get set Hg Hset key.
    unfold addKeyTo, mbind, mret, readHandle, writeHandle, readKeyRing, writeKeyRing,
      allocKeyRing. rewrite Hh.
    destruct (get h) as [k|] eqn:Hget.
    - destruct (Hg k eq_refl) as [kr Hkr]. rewrite Hkr.
      destruct (AddKey kr key) as [kr' e]. eexists _, _. split; [reflexivity|].
      simpl. split.
      + exists h. simpl. split; [exact Hh|].
        split; intros k' Hk'; rewrite lookup_insert; case_decide; eauto.
      + rewrite dom_insert_L. set_solver.
    - destruct (NewKeyRing key) as [[kr|] e]; eexists _, _; (split; [reflexivity|]);
        simpl.
      + split; [|rewrite dom_insert_L; set_solver].
        eexists. simpl. rewrite lookup_insert_eq. split; [reflexivity|].
        destruct (Hset (Some (fresh (dom (keyringStore σ))))) as [[-> ->]|[-> ->]];
          split; intros k' Hk'; rewrite lookup_insert; case_decide; eauto;
          congruence.
      + split; [|reflexivity].
        eexists. simpl. rewrite lookup_insert_eq. split; [reflexivity|].
        destruct (Hset None) as [[-> ->]|[-> ->]]; split; auto; discriminate. }
  destruct c; simpl in *;
    try (apply Hupd; simpl; assumption).
  - apply Hupd; simpl; [|assumption].
    intros k ->. exact Hc.
  - apply Hadd; [exact Hd|]. intros v. right. split; reflexivity.
  - apply Hupd; simpl; [assumption|]. intros k ->. exact Hc.
  - apply Hadd; [exact Hv|]. intros v. left. split; reflexivity.
Qed.

Lemma validCall_mono (σ σ' : Heap) c :
  dom (keyringStore σ) ⊆ dom (keyringStore σ') ->
  validCall Key σ c -> validCall Key σ' c.
Proof.
  intros Hsub. destruct c as [[[k|]| | | |[k|]| | | | | |]|]; simpl; auto;
    rewrite <- !elem_of_dom; apply Hsub.
Qed.

(** From a new builder on, no call ever dereferences an address that holds
    no object, provided the key rings the caller hands over are on the heap
    (and the default handle points to no key ring): every sequence of
    configuration calls and [New]s runs to its end and leaves the builder
    with a draft on the heap whose key rings are on the heap. *)
Theorem builder_calls_never_dereference_dangling_pointers clock σ cs :
  (forall c, dh_DecryptionKeyRing (defaultDecryptionHandle c) = None
             /\ dh_VerifyKeyRing (defaultDecryptionHandle c) = None) ->
  Forall (validCall Key σ) cs ->
  exists dpb0 σ0 dpb' results σ',
    newDecryptionHandleBuilder defaultDecryptionHandle clock σ = Some (dpb0, σ0)
    /\ runCalls Key NewKeyRing AddKey validate defaultDecryptionHandle dpb0 cs σ0
       = Some ((dpb', results), σ')
    /\ wellFormed dpb' σ'
    /\ defaultClock dpb' = clock.
Proof.
  intros Hdef Hcs.
  assert (forall c (τ : Heap) l,
            wellFormed (mkBuilder l c None)
              (setHandles τ (<[l := defaultDecryptionHandle c]> (handles τ)))) as Hnew.
  { intros c τ l. exists (defaultDecryptionHandle c). simpl.
    rewrite lookup_insert_eq. split; [reflexivity|].
    destruct (Hdef c) as [-> ->]. split; discriminate. }
  assert (forall cs' dpb (τ : Heap),
            wellFormed dpb τ -> Forall (validCall Key τ) cs' ->
            exists dpb' results τ',
              run dpb cs' τ = Some ((dpb', results), τ')
              /\ wellFormed dpb' τ' /\ defaultClock dpb' = defaultClock dpb) as Hrun.
  { induction cs' as [|c cs' IH]; intros dpb τ Hwf Hv.
    - exists dpb, [], τ. auto.
    - apply Forall_cons in Hv as [Hc Hv]. destruct c as [c|].
      + destruct (wellFormed_setter dpb c τ Hwf Hc) as (dpb1 & τ1 & Hs & Hwf1 & Hsub).
        assert (defaultClock dpb1 = defaultClock dpb) as Hclk
          by exact (proj1 (proj2 (applySetter_frame _ _ _ _ _ _ _ _ Hs))).
        destruct (IH dpb1 τ1 Hwf1) as (dpb' & rs & τ' & Hr & Hwf' & Hc').
        { eapply Forall_impl; [exact Hv|]. intros x. apply validCall_mono. exact Hsub. }
        exists dpb', rs, τ'. simpl. unfold mbind. rewrite Hs.
        split; [exact Hr|]. split; [exact Hwf'|congruence].
      + assert (exists r dpb1 τ1,
                  build dpb τ = Some ((r, dpb1), τ1) /\ wellFormed dpb1 τ1
                  /\ defaultClock dpb1 = defaultClock dpb
                  /\ dom (keyringStore τ) ⊆ dom (keyringStore τ1)) as Hb.
        { destruct Hwf as (h & Hh & Hd & Hvr). unfold New.
          destruct (err dpb) as [e|] eqn:He.
          - eexists _, _, _. unfold mret. split; [reflexivity|].
            split; [exists h; auto|]. auto.
          - unfold mbind, mret, readHandle, getKeyrings, allocHandle. rewrite Hh. simpl.
            destruct (validate (keyringStore τ) h) as [e|].
            + eexists _, _, _. split; [reflexivity|]. split; [exists h; auto|]. auto.
            + eexists _, _, _. split; [reflexivity|]. split; [apply Hnew|]. auto. }
        destruct Hb as (r & dpb1 & τ1 & Hb & Hwf1 & Hclk & Hsub).
        destruct (IH dpb1 τ1 Hwf1) as (dpb' & rs & τ' & Hr & Hwf' & Hc').
        { eapply Forall_impl; [exact Hv|]. intros x. apply validCall_mono. exact Hsub. }
        exists dpb', (r :: rs), τ'. simpl. unfold mbind, mret. rewrite Hb. simpl.
        rewrite Hr. simpl. split; [reflexivity|]. split; [exact Hwf'|congruence]. }
  unfold newDecryptionHandleBuilder, mbind, mret, allocHandle.
  eexists _, _. 
  destruct (Hrun cs (mkBuilder (fresh (dom (handles σ))) clock None)
              (setHandles σ (<[fresh (dom (handles σ)) := defaultDecryptionHandle clock]>
                               (handles σ)))
              (Hnew _ _ _) Hcs) as (dpb' & rs & σ' & Hr & Hwf & Hclk).
  exists dpb', rs, σ'. split; [reflexivity|]. split; [exact Hr|]. split; [exact Hwf|exact Hclk].
Qed.

End MoreBuilderFacts.

(** ** The builder and the core together *)

Section BuilderAndCore.

Variable now : Z.
Variable SignatureContextName : string.
Variable GetCipherFunc : SessionKey -> CipherFunction * option error.
Variable Decrypt : Packet -> CipherFunction -> bytes -> error + ReadCloser.
Variable lib : OpenPGP.
Variable verifyingDetachedReader :
  BodyReader -> BodyReader -> option loc -> option VerificationContext ->
  bool -> Config -> Clock -> option VerifyDataReader * option error.

(** The builder's [SessionKey] method writes the field [SessionKey] of the
    draft.  The decryption functions read the candidates from the field
    [SessionKeys] and never read [SessionKey]: on the draft before and after
    the call they return the same, and the call leaves [SessionKeys] as it
    was. *)
Theorem SessionKey_setter_is_not_read_by_the_core dpb s σ h :
  handles σ !! handle dpb = Some h ->
  exists σ',
    SessionKey_ dpb s σ = Some (dpb, σ')
    /\ handles σ' !! handle dpb = Some (setHandleSessionKey h s)
    /\ keyringStore σ' = keyringStore σ
    /\ dh_SessionKeys (setHandleSessionKey h s) = dh_SessionKeys h
    /\ (forall msg,
          decryptStream (keyringStore σ') now SignatureContextName lib
            (setHandleSessionKey h s) msg
          = decryptStream (keyringStore σ) now SignatureContextName lib h msg)
    /\ (forall r,
          decryptStreamWithSession (keyringStore σ') now SignatureContextName
            GetCipherFunc Decrypt lib (setHandleSessionKey h s) r
          = decryptStreamWithSession (keyringStore σ) now SignatureContextName
              GetCipherFunc Decrypt lib h r)
    /\ (forall data sig,
          decryptStreamAndVerifyDetached (keyringStore σ') now SignatureContextName
            GetCipherFunc Decrypt lib verifyingDetachedReader
            (setHandleSessionKey h s) data sig
          = decryptStreamAndVerifyDetached (keyringStore σ) now SignatureContextName
              GetCipherFunc Decrypt lib verifyingDetachedReader h data sig).
Proof.
  intros Hh. unfold SessionKey_, updateHandle, mbind, mret, readHandle, writeHandle.
  rewrite Hh. eexists. split; [reflexivity|]. simpl.
  split; [apply lookup_insert_eq|]. repeat split.
Qed.

(** After [VerifyTime(t)] the draft's clock is constant: the decryption
    functions give the library the time [t] and record [t] in the reader,
    and what they return does not depend on the instant of the call. *)
Theorem VerifyTime_fixes_the_verification_time dpb t σ h :
  handles σ !! handle dpb = Some h ->
  exists σ',
    VerifyTime dpb t σ = Some (dpb, σ')
    /\ handles σ' !! handle dpb = Some (setClock h (NewConstantClock t))
    /\ (forall keyrings now' msg,
          decryptStream keyrings now' SignatureContextName lib
            (setClock h (NewConstantClock t)) msg
          = decryptStream keyrings now SignatureContextName lib
              (setClock h (NewConstantClock t)) msg)
    /\ (forall keyrings msg reader e,
          fst (decryptStream keyrings now SignatureContextName lib
                 (setClock h (NewConstantClock t)) msg) = (Some reader, e) ->
          verifyTime reader = t)
    /\ (forall keyrings now' r,
          decryptStreamWithSession keyrings now' SignatureContextName
            GetCipherFunc Decrypt lib (setClock h (NewConstantClock t)) r
          = decryptStreamWithSession keyrings now SignatureContextName
              GetCipherFunc Decrypt lib (setClock h (NewConstantClock t)) r)
    /\ (forall keyrings now' data sig,
          decryptStreamAndVerifyDetached keyrings now' SignatureContextName
            GetCipherFunc Decrypt lib verifyingDetachedReader
            (setClock h (NewConstantClock t)) data sig
          = decryptStreamAndVerifyDetached keyrings now SignatureContextName
              GetCipherFunc Decrypt lib verifyingDetachedReader
              (setClock h (NewConstantClock t)) data sig).
Proof.
  intros Hh. unfold VerifyTime, updateHandle, mbind, mret, readHandle, writeHandle.
  rewrite Hh. eexists. split; [reflexivity|]. simpl.
  split; [apply lookup_insert_eq|].
  assert (forall keyrings now' r,
            decryptStreamWithSessionAndParse keyrings now' SignatureContextName
              GetCipherFunc Decrypt lib (setClock h (NewConstantClock t)) r
            = decryptStreamWithSessionAndParse keyrings now SignatureContextName
                GetCipherFunc Decrypt lib (setClock h (NewConstantClock t)) r) as Hparse.
  { intros keyrings now' r. unfold decryptStreamWithSessionAndParse, sessionParseSetup.
    simpl. destruct (sessionKeyLoop _ _ _ _ _ r) as [[[d e] [sel|]] r']; [|reflexivity].
    destruct (dh_VerificationContext h), (dh_VerifyKeyRing h), (dh_DecryptionKeyRing h);
      reflexivity. }
  split; [|split; [|split]].
  - intros keyrings now' msg. unfold decryptStream, decryptStreamSetup. simpl.
    destruct (dh_DecryptionKeyRing h), (dh_VerifyKeyRing h), (dh_VerificationContext h);
      reflexivity.
  - intros keyrings msg reader e. unfold decryptStream, decryptStreamSetup. simpl.
    destruct (dh_DecryptionKeyRing h), (dh_VerifyKeyRing h), (dh_VerificationContext h);
      simpl;
      match goal with
      | |- context [ReadMessage ?l ?r ?en ?p ?c] =>
          destruct (ReadMessage l r en p c) as [[e'|md] answers]
      | |- context [ReadMessage_nilPrompt ?l ?r ?en ?c] =>
          destruct (ReadMessage_nilPrompt l r en c) as [e'|md]
      end; simpl; try discriminate; intros [= <- _]; reflexivity.
  - intros keyrings now' r. unfold decryptStreamWithSession. rewrite Hparse. reflexivity.
  - intros keyrings now' data sig. unfold decryptStreamAndVerifyDetached.
    rewrite !(Hparse keyrings now'). reflexivity.
Qed.

End BuilderAndCore.

(** ** The signature handle builder *)

Section SignBuilderFacts.

Variable P : Type.
Variable Key : Type.
Variable NewKeyRing : Key -> option KeyRing * option error.
Variable AddKey : KeyRing -> Key -> KeyRing * option error.
Variable validate : gmap loc KeyRing -> Sign.signatureHandle P -> option error.
Variable defaultSignatureHandle : P -> Clock -> Sign.signatureHandle P.

Lemma armorWithHeader_headers version comment (h : Sign.signatureHandle P) name :
  Sign.armorHeader P (Sign.armorWithHeader P version comment h) name =
  if decide (name = "Comment") then Some comment
  else if decide (name = "Version") then Some version
  else Sign.armorHeader P h name.
Proof.
  unfold Sign.armorHeader, Sign.armorWithHeader. simpl.
  rewrite lookup_insert. destruct (decide ("Comment" = name)) as [<-|Hc].
  - rewrite decide_True by reflexivity. reflexivity.
  - rewrite decide_False by congruence.
    rewrite lookup_insert. destruct (decide ("Version" = name)) as [<-|Hv].
    + rewrite decide_True by reflexivity. reflexivity.
    + rewrite decide_False by congruence.
      destruct (Sign.sh_ArmorHeaders h); [reflexivity|apply lookup_empty].
Qed.

(** [ArmorWithHeader(version, comment)] switches armoring on and sets the
    headers "Version" and "Comment" to its arguments; every other header of
    the draft, every other field of the draft, every other handle and the key
    rings stay as they were. *)
Theorem ArmorWithHeader_sets_version_and_comment shb version comment
    (σ : Sign.SignHeap P) h :
  Sign.signHandles σ !! Sign.shb_handle shb = Some h ->
  exists σ' h',
    Sign.ArmorWithHeader P shb version comment σ = Some (shb, σ')
    /\ Sign.signHandles σ' !! Sign.shb_handle shb = Some h'
    /\ Sign.sh_Armored h' = true
    /\ Sign.armorHeader P h' "Version" = Some version
    /\ Sign.armorHeader P h' "Comment" = Some comment
    /\ (forall name, name <> "Version" -> name <> "Comment" ->
          Sign.armorHeader P h' name = Sign.armorHeader P h name)
    /\ Sign.sh_ArmorHeaders h' <> None
    /\ (Sign.sh_SignKeyRing h' = Sign.sh_SignKeyRing h
        /\ Sign.sh_SignContext h' = Sign.sh_SignContext h
        /\ Sign.sh_Detached h' = Sign.sh_Detached h
        /\ Sign.sh_IsUTF8 h' = Sign.sh_IsUTF8 h
        /\ Sign.sh_clock h' = Sign.sh_clock h
        /\ Sign.sh_profile h' = Sign.sh_profile h)
    /\ (forall l, l <> Sign.shb_handle shb ->
          Sign.signHandles σ' !! l = Sign.signHandles σ !! l)
    /\ Sign.signKeyrings σ' = Sign.signKeyrings σ.
Proof.
  intros Hh. unfold Sign.ArmorWithHeader, Sign.updateSignHandle. rewrite Hh.
  eexists _, (Sign.armorWithHeader P version comment h).
  split; [reflexivity|]. simpl. split; [apply lookup_insert_eq|].
  split; [reflexivity|].
  split; [rewrite armorWithHeader_headers; reflexivity|].
  split; [rewrite armorWithHeader_headers; reflexivity|].
  split.
  { intros name Hv Hc. rewrite armorWithHeader_headers.
    rewrite !decide_False by assumption. reflexivity. }
  split; [discriminate|]. split; [repeat split|].
  split; [|reflexivity]. intros l Hl. apply lookup_insert_ne. congruence.
Qed.

Lemma armorWithHeader_twice v1 c1 v2 c2 (h : Sign.signatureHandle P) :
  Sign.armorWithHeader P v2 c2 (Sign.armorWithHeader P v1 c1 h)
  = Sign.armorWithHeader P v2 c2 h.
Proof.
  unfold Sign.armorWithHeader, Sign.setArmorHeaders, Sign.setArmored. simpl.
  f_equal. f_equal. apply map_eq. intros k.
  rewrite !lookup_insert. repeat case_decide; reflexivity.
Qed.

(** Of several calls of [ArmorWithHeader] the last one decides: calling it
    with [v1], [c1] and then with [v2], [c2] leaves the heap exactly as the
    second call alone does; and [Armor] before it adds nothing. *)
Theorem ArmorWithHeader_last_call_wins shb v1 c1 v2 c2 (σ : Sign.SignHeap P) :
  Sign.applySignCalls P Key NewKeyRing AddKey shb
    [Sign.callArmorWithHeader Key v1 c1; Sign.callArmorWithHeader Key v2 c2] σ
  = Sign.ArmorWithHeader P shb v2 c2 σ
  /\ Sign.applySignCalls P Key NewKeyRing AddKey shb
       [Sign.callArmor Key; Sign.callArmorWithHeader Key v2 c2] σ
     = Sign.ArmorWithHeader P shb v2 c2 σ.
Proof.
  simpl. unfold Sign.ArmorWithHeader, Sign.Armor, Sign.updateSignHandle.
  destruct (Sign.signHandles σ !! Sign.shb_handle shb) as [h|]; [|split; reflexivity].
  simpl. rewrite !lookup_insert_eq, !insert_insert_eq.
  split; [rewrite armorWithHeader_twice; reflexivity|reflexivity].
Qed.

(** A successful [New] of the signature builder returns the draft and
    leaves the builder as [newSignHandleBuilder] would have made it from the
    profile of the returned draft and the builder's clock: of the old
    configuration only the profile is carried over. *)
Theorem sign_New_resets_the_draft_and_keeps_the_profile shb (σ : Sign.SignHeap P) h shb' σ' :
  Sign.New P validate defaultSignatureHandle shb σ = Some (((Some h, None), shb'), σ') ->
  h = Sign.shb_handle shb
  /\ exists d,
       Sign.signHandles σ !! h = Some d
       /\ Sign.newSignHandleBuilder P defaultSignatureHandle (Sign.sh_profile d)
            (Sign.shb_defaultClock shb) σ = Some (shb', σ')
       /\ Sign.shb_handle shb' <> h
       /\ Sign.signHandles σ' !! h = Some d
       /\ Sign.signHandles σ' !! Sign.shb_handle shb'
          = Some (defaultSignatureHandle (Sign.sh_profile d) (Sign.shb_defaultClock shb))
       /\ Sign.shb_err shb' = None
       /\ Sign.signKeyrings σ' = Sign.signKeyrings σ.
Proof.
  unfold Sign.New. destruct (Sign.shb_err shb) as [e|] eqn:He; [discriminate|].
  destruct (Sign.signHandles σ !! Sign.shb_handle shb) as [d|] eqn:Hd; [|discriminate].
  simpl. destruct (validate (Sign.signKeyrings σ) d) as [e|]; [discriminate|].
  simpl. intros [= <- <- <-]. split; [reflexivity|]. exists d.
  assert (Sign.signHandles σ !! fresh (dom (Sign.signHandles σ)) = None) as Hf
    by (apply not_elem_of_dom, is_fresh).
  assert (fresh (dom (Sign.signHandles σ)) <> Sign.shb_handle shb) as Hne by congruence.
  split; [exact Hd|]. split; [reflexivity|]. simpl. split; [exact Hne|].
  split; [rewrite lookup_insert_ne by exact Hne; exact Hd|].
  split; [apply lookup_insert_eq|]. split; reflexivity.
Qed.

Lemma applySignCall_err shb c (σ : Sign.SignHeap P) shb' σ' :
  Sign.isSigningKey Key c = false ->
  Sign.applySignCall P Key NewKeyRing AddKey shb c σ = Some (shb', σ') ->
  shb' = shb.
Proof.
  intros Hc. destruct c; simpl in Hc; try discriminate; simpl;
    unfold Sign.SigningKeys, Sign.SigningContext_, Sign.Detached, Sign.Armor,
      Sign.ArmorWithHeader, Sign.UTF8, Sign.SignTime, Sign.updateSignHandle;
    destruct (Sign.signHandles σ !! Sign.shb_handle shb); try discriminate;
    intros [= <- _]; reflexivity.
Qed.

(** The signature builder's [err] is assigned in two places.  [SigningKey]
    assigns the error of that call, replacing what was there.  [New], when no
    error is held, assigns what [validate] says of the draft: when that is an
    error, [New] returns it, hands out nothing, keeps the draft, and the
    builder holds the error afterwards.  The other configuration methods
    leave the builder as it is, and while an error is held [New] returns it
    without validating, handing out or replacing the draft. *)
Theorem sign_err_is_assigned_by_SigningKey_and_New shb (σ : Sign.SignHeap P) :
  (forall key h shb' σ',
     Sign.signHandles σ !! Sign.shb_handle shb = Some h ->
     Sign.SigningKey P Key NewKeyRing AddKey shb key σ = Some (shb', σ') ->
     Sign.shb_err shb' =
     match Sign.sh_SignKeyRing h with
     | None => snd (NewKeyRing key)
     | Some k =>
         match Sign.signKeyrings σ !! k with
         | Some kr => snd (AddKey kr key)
         | None => None
         end
     end)
  /\ (forall h e,
        Sign.shb_err shb = None ->
        Sign.signHandles σ !! Sign.shb_handle shb = Some h ->
        validate (Sign.signKeyrings σ) h = Some e ->
        Sign.New P validate defaultSignatureHandle shb σ
        = Some (((None, Some e),
                 Sign.mkSignBuilder (Sign.shb_handle shb) (Sign.shb_defaultClock shb)
                   (Some e)), σ))
  /\ (forall c shb' σ',
        Sign.isSigningKey Key c = false ->
        Sign.applySignCall P Key NewKeyRing AddKey shb c σ = Some (shb', σ') ->
        shb' = shb)
  /\ (forall cs shb' σ' e,
        Sign.shb_err shb = Some e ->
        Forall (fun c => Sign.isSigningKey Key c = false) cs ->
        Sign.applySignCalls P Key NewKeyRing AddKey shb cs σ = Some (shb', σ') ->
        shb' = shb
        /\ Sign.New P validate defaultSignatureHandle shb' σ'
           = Some (((None, Some e), shb'), σ')).
Proof.
  split; [|split; [|split]].
  - intros key h shb' σ' Hh. unfold Sign.SigningKey. rewrite Hh.
    destruct (Sign.sh_SignKeyRing h) as [k|].
    + destruct (Sign.signKeyrings σ !! k) as [kr|]; [|discriminate].
      destruct (AddKey kr key) as [kr' e]. intros [= <- _]. reflexivity.
    + destruct (NewKeyRing key) as [[kr|] e]; intros [= <- _]; reflexivity.
  - intros h e He Hh Hv. unfold Sign.New. rewrite He, Hh. simpl. rewrite Hv.
    reflexivity.
  - intros c shb' σ' Hc Hs. exact (applySignCall_err _ _ _ _ _ Hc Hs).
  - intros cs shb' σ' e He Hcs. revert σ.
    induction Hcs as [|c cs Hc _ IH]; intros σ; simpl.
    + intros [= <- <-]. split; [reflexivity|]. unfold Sign.New. rewrite He. reflexivity.
    + destruct (Sign.applySignCall P Key NewKeyRing AddKey shb c σ) as [[shb1 σ1]|] eqn:Hs;
        [|discriminate].
      rewrite (applySignCall_err _ _ _ _ _ Hc Hs). apply IH.
Qed.

End SignBuilderFacts.

(** ** The further properties at concrete inputs *)

Section MoreInstances.

Import Examples MoreExamples Byte.

Local Abbreviation toyAttempt :=
  (decryptStreamWithSessionKey Toy.GetCipherFunc (Toy.Decrypt book)).
Local Abbreviation toyLoop := (sessionKeyLoop Toy.GetCipherFunc (Toy.Decrypt book)).
Local Abbreviation toyAndParse :=
  (decryptStreamWithSessionAndParse ∅ 0 "context" Toy.GetCipherFunc
     (Toy.Decrypt book) (Toy.lib book)).
Local Abbreviation toyWithSession :=
  (decryptStreamWithSession ∅ 0 "context" Toy.GetCipherFunc
     (Toy.Decrypt book) (Toy.lib book)).
Local Abbreviation toyDetached :=
  (decryptStreamAndVerifyDetached ∅ 0 "context" Toy.GetCipherFunc
     (Toy.Decrypt book) (Toy.lib book) Toy.verifyingDetachedReader).
Local Abbreviation toySetters := (applySetters Toy.Key Toy.NewKeyRing Toy.AddKey).
Local Abbreviation toyNew := (New Toy.validate Toy.defaultDecryptionHandle).

Lemma attempt_is_decided_by_first_non_key_packet_witness :
  fst (toyAttempt k1 (keyPackets ++ dataUnderK1 :: [UserId "bob"]))
  = (Some [LiteralDataPacket hello], None)
  /\ fst (toyAttempt k1 (keyPackets ++ UserId "bob" :: [dataUnderK1]))
     = (None, Some (errors_New "gopenpgp: invalid packet type")).
Proof.
  destruct (attempt_is_decided_by_first_non_key_packet Toy.GetCipherFunc
              (Toy.Decrypt book) k1 keyPackets dataUnderK1 [UserId "bob"]
              eq_refl eq_refl) as (Hdata & _ & _).
  destruct (attempt_is_decided_by_first_non_key_packet Toy.GetCipherFunc
              (Toy.Decrypt book) k1 keyPackets (UserId "bob") [dataUnderK1]
              eq_refl eq_refl) as (_ & Hother & _).
  split; [rewrite Hdata; reflexivity|exact (Hother eq_refl)].
Defined.

Lemma cipher_is_looked_up_only_for_non_v6_keys_witness :
  decryptStreamWithSessionKey (fun _ => (0, Some io_EOF)) (Toy.Decrypt book) v6Key
    [dataUnderK1]
  = ((Some [LiteralDataPacket hello], None), [])
  /\ decryptStreamWithSessionKey Toy.GetCipherFunc (fun _ _ _ => inr []) kUnknown
       [dataUnderK1]
     = ((None,
         Some (withMessage (errors_New "gopenpgp: unsupported cipher function")
                 "gopenpgp: unable to decrypt with session key")), []).
Proof.
  destruct (cipher_is_looked_up_only_for_non_v6_keys Toy.GetCipherFunc
              (Toy.Decrypt book) v6Key [dataUnderK1]) as (Hv6 & _ & _).
  destruct (cipher_is_looked_up_only_for_non_v6_keys Toy.GetCipherFunc
              (Toy.Decrypt book) kUnknown [dataUnderK1]) as (_ & _ & Hlookup).
  split.
  - rewrite (Hv6 eq_refl). reflexivity.
  - destruct (Hlookup eq_refl _ eq_refl) as [Hd _]. rewrite Hd. reflexivity.
Defined.

Lemma leading_key_packets_are_ignored_witness :
  toyAndParse (sessionHandle [k1]) (keyPackets ++ [dataUnderK1])
  = toyAndParse (sessionHandle [k1]) [dataUnderK1].
Proof.
  exact (proj1 (leading_key_packets_are_ignored ∅ 0 "context" Toy.GetCipherFunc
                  (Toy.Decrypt book) (Toy.lib book) (sessionHandle [k1]) keyPackets
                  [dataUnderK1] eq_refl)).
Defined.

Lemma decryptStreamWithSession_without_candidates_witness :
  toyAndParse (sessionHandle []) [dataUnderK1] = (None, 0, None)
  /\ toyWithSession (sessionHandle []) [dataUnderK1] = panics.
Proof.
  destruct (decryptStreamWithSession_without_candidates ∅ 0 "context"
              Toy.GetCipherFunc (Toy.Decrypt book) (Toy.lib book)
              (sessionHandle []) [dataUnderK1]) as [Hpanic _].
  exact (Hpanic eq_refl).
Defined.

Lemma detached_returns_reader_or_staged_error_witness :
  exists e,
    fst (toyDetached (sessionHandle [k1; k2]) [dataUnderK1] [dataUnderK2])
    = returns (None, Some (withMessage e
                 "gopenpgp: error in reading detached signature message")).
Proof.
  destruct (fst (toyDetached (sessionHandle [k1; k2]) [dataUnderK1] [dataUnderK2]))
    as [res|] eqn:Hrun; [|vm_compute in Hrun; discriminate Hrun].
  destruct (detached_returns_reader_or_staged_error ∅ 0 "context" Toy.GetCipherFunc
              (Toy.Decrypt book) (Toy.lib book) Toy.verifyingDetachedReader
              (sessionHandle [k1; k2]) [dataUnderK1] [dataUnderK2] res Hrun)
    as [[reader ->]|[[e ->]|[[e ->]|(e & body & signature & -> & Hv)]]].
  - vm_compute in Hrun. discriminate Hrun.
  - vm_compute in Hrun. discriminate Hrun.
  - exists e. reflexivity.
  - vm_compute in Hv. discriminate Hv.
Defined.

Lemma detached_fails_on_data_before_signature_witness :
  toyDetached (sessionHandle [k1]) [dataUnderK2] [dataUnderK1]
  = toyDetached (sessionHandle [k1]) [dataUnderK2] []
  /\ snd (snd (toyDetached (sessionHandle [k1]) [dataUnderK2] [])) = [].
Proof.
  destruct (detached_fails_on_data_before_signature ∅ 0 "context"
              Toy.GetCipherFunc (Toy.Decrypt book) (Toy.lib book)
              Toy.verifyingDetachedReader (sessionHandle [k1])
              [dataUnderK2] [] eq_refl) as (_ & Hnone & Hsame).
  split; [exact (Hsame [dataUnderK1])|exact Hnone].
Defined.

Lemma candidates_behind_the_selected_one_are_never_tried_witness :
  toyAndParse (setSessionKeys (sessionHandle [k1]) ([k1] ++ [k2; kUnknown])) [dataUnderK1]
  = toyAndParse (sessionHandle [k1]) [dataUnderK1].
Proof.
  exact (proj1 (proj2 (candidates_behind_the_selected_one_are_never_tried ∅ 0 "context"
                         Toy.GetCipherFunc (Toy.Decrypt book) (Toy.lib book)
                         (sessionHandle [k1]) [dataUnderK1]
                         (Some [LiteralDataPacket hello]) None k1 [] [k2; kUnknown]
                         eq_refl))).
Defined.

Lemma getSignaturePacket_returns_nil_for_other_packets_witness :
  getSignaturePacket readTable [x02] = (None, None)
  /\ getSignaturePacket readTable [x01]
     = (Some (Signature SigTypeBinary 5 1700000000), None)
  /\ getSignaturePacket readTable [] = (None, Some io_EOF).
Proof.
  destruct (getSignaturePacket_returns_nil_for_other_packets readTable [x02])
    as (_ & _ & Hother & _).
  split; [|split; reflexivity].
  apply (Hother (UserId "alice") eq_refl). discriminate.
Defined.

Lemma stored_error_survives_configuration_witness :
  exists σ',
    toySetters builderFailed
      [callPassword Toy.Key (Some [x70; x77]); callRetrieveSessionKey Toy.Key] heapNew
    = Some (builderFailed, σ')
    /\ toyNew builderFailed σ'
       = Some (((None, err builderFailed), builderFailed), σ').
Proof.
  destruct (toySetters builderFailed
              [callPassword Toy.Key (Some [x70; x77]); callRetrieveSessionKey Toy.Key]
              heapNew) as [[dpb' σ']|] eqn:Hrun; [|vm_compute in Hrun; discriminate Hrun].
  destruct (stored_error_survives_configuration Toy.Key Toy.NewKeyRing Toy.AddKey
              Toy.validate Toy.defaultDecryptionHandle builderFailed heapNew _
              [callPassword Toy.Key (Some [x70; x77]); callRetrieveSessionKey Toy.Key]
              dpb' σ' eq_refl
              ltac:(repeat constructor) Hrun) as [-> Hnew].
  exists σ'. split; [reflexivity|exact Hnew].
Defined.

(** The draft has no credentials, [New] fails; a password is then set, the
    draft would validate, and [New] still returns the first error. *)
Lemma failed_New_is_remembered_witness :
  exists dpb2 σ2 d,
    toySetters builderFailed [callPassword Toy.Key (Some [x70; x77])] heapNew
    = Some (dpb2, σ2)
    /\ handles σ2 !! handle dpb2 = Some d
    /\ Toy.validate (keyringStore σ2) d = None
    /\ toyNew dpb2 σ2 = Some (((None, err builderFailed), dpb2), σ2).
Proof.
  assert (toyNew builder0 heapNew
          = Some (((None, Some (errors_New "gopenpgp: no decryption key material provided")),
                   builderFailed), heapNew)) as Hfail by (vm_compute; reflexivity).
  destruct (failed_New_is_remembered Toy.Key Toy.NewKeyRing Toy.AddKey Toy.validate
              Toy.defaultDecryptionHandle _ _ _ _ _ Hfail) as (_ & _ & _ & Hlater).
  destruct (toySetters builderFailed [callPassword Toy.Key (Some [x70; x77])] heapNew)
    as [[dpb2 σ2]|] eqn:Hrun; [|vm_compute in Hrun; discriminate Hrun].
  pose proof (Hlater [callPassword Toy.Key (Some [x70; x77])] dpb2 σ2
                ltac:(repeat constructor) Hrun) as Hnew.
  vm_compute in Hrun. injection Hrun as <- <-.
  eexists _, _, _. split; [reflexivity|].
  split; [vm_compute; reflexivity|]. split; [reflexivity|exact Hnew].
Defined.

(** The caller's key ring at address 3 receives the key. *)
Lemma DecryptionKey_adds_to_the_ring_in_place_witness :
  exists dpb' σ',
    DecryptionKey Toy.Key Toy.NewKeyRing Toy.AddKey builder0 unlockedKey heapCallerRing
    = Some (dpb', σ')
    /\ keyringStore σ' !! 3%nat = Some (mkKeyRing [42; 8])
    /\ handles σ' = handles heapCallerRing.
Proof.
  destruct (DecryptionKey Toy.Key Toy.NewKeyRing Toy.AddKey builder0 unlockedKey
              heapCallerRing) as [[dpb' σ']|] eqn:Hrun;
    [|vm_compute in Hrun; discriminate Hrun].
  pose proof (DecryptionKey_adds_to_the_ring_in_place Toy.Key Toy.NewKeyRing Toy.AddKey
                builder0 unlockedKey heapCallerRing
                (setDecryptionKeyRing (Toy.defaultDecryptionHandle clock) (Some 3%nat))
                dpb' σ' eq_refl Hrun) as H.
  simpl in H. destruct H as (kr & Hkr & Hstore & Hhandles & _).
  exists dpb', σ'. split; [reflexivity|]. split; [|exact Hhandles].
  rewrite Hstore, lookup_insert_eq.
  vm_compute in Hkr. injection Hkr as <-. reflexivity.
Defined.

Lemma builder_calls_never_dereference_dangling_pointers_witness :
  exists dpb0 σ0 dpb' results σ',
    newDecryptionHandleBuilder Toy.defaultDecryptionHandle clock (mkHeap ∅ ∅)
    = Some (dpb0, σ0)
    /\ runCalls Toy.Key Toy.NewKeyRing Toy.AddKey Toy.validate
         Toy.defaultDecryptionHandle dpb0
         [build Toy.Key;
          configure Toy.Key (callDecryptionKey Toy.Key lockedKey);
          configure Toy.Key (callDecryptionKey Toy.Key unlockedKey);
          build Toy.Key;
          configure Toy.Key (callVerifyKeys Toy.Key None);
          build Toy.Key] σ0
       = Some ((dpb', results), σ')
    /\ wellFormed dpb' σ'
    /\ defaultClock dpb' = clock.
Proof.
  apply (builder_calls_never_dereference_dangling_pointers Toy.Key Toy.NewKeyRing
           Toy.AddKey Toy.validate Toy.defaultDecryptionHandle clock (mkHeap ∅ ∅)).
  - intros c. split; reflexivity.
  - repeat constructor.
Defined.

Lemma SessionKey_setter_is_not_read_by_the_core_witness :
  exists σ',
    SessionKey_ builder0 (Some k1) heapPassword = Some (builder0, σ')
    /\ handles σ' !! 0%nat
       = Some (setHandleSessionKey (passwordHandle [x70; x77]) (Some k1))
    /\ decryptStream (keyringStore σ') 0 "context" (Toy.lib book)
         (setHandleSessionKey (passwordHandle [x70; x77]) (Some k1)) passwordMessage
       = decryptStream ∅ 0 "context" (Toy.lib book)
           (passwordHandle [x70; x77]) passwordMessage.
Proof.
  destruct (SessionKey_setter_is_not_read_by_the_core 0 "context" Toy.GetCipherFunc
              (Toy.Decrypt book) (Toy.lib book) Toy.verifyingDetachedReader
              builder0 (Some k1) heapPassword (passwordHandle [x70; x77]) eq_refl)
    as (σ' & Hrun & Hdraft & _ & _ & Hstream & _).
  exists σ'. split; [exact Hrun|]. split; [exact Hdraft|]. apply Hstream.
Defined.

Lemma VerifyTime_fixes_the_verification_time_witness :
  exists σ',
    VerifyTime builder0 1234 heapPassword = Some (builder0, σ')
    /\ forall now',
         decryptStream ∅ now' "context" (Toy.lib book)
           (setClock (passwordHandle [x70; x77]) (NewConstantClock 1234)) passwordMessage
         = decryptStream ∅ 0 "context" (Toy.lib book)
             (setClock (passwordHandle [x70; x77]) (NewConstantClock 1234)) passwordMessage.
Proof.
  destruct (VerifyTime_fixes_the_verification_time 0 "context" Toy.GetCipherFunc
              (Toy.Decrypt book) (Toy.lib book) Toy.verifyingDetachedReader
              builder0 1234 heapPassword (passwordHandle [x70; x77]) eq_refl)
    as (σ' & Hrun & _ & Hstream & _).
  exists σ'. split; [exact Hrun|]. intros now'. apply Hstream.
Defined.

Lemma ArmorWithHeader_sets_version_and_comment_witness :
  exists σ' h',
    Sign.ArmorWithHeader Z signBuilder0 "GopenPGP 3" "hello" signHeap0
    = Some (signBuilder0, σ')
    /\ Sign.signHandles σ' !! 0%nat = Some h'
    /\ Sign.armorHeader Z h' "Version" = Some "GopenPGP 3"
    /\ Sign.armorHeader Z h' "Comment" = Some "hello"
    /\ Sign.armorHeader Z h' "Hash" = Some "SHA512"
    /\ Sign.sh_Detached h' = true.
Proof.
  destruct (ArmorWithHeader_sets_version_and_comment Z signBuilder0 "GopenPGP 3" "hello"
              signHeap0 _ eq_refl)
    as (σ' & h' & Hrun & Hh & _ & Hv & Hc & Hother & _ & (_ & _ & Hd & _) & _).
  exists σ', h'. split; [exact Hrun|]. split; [exact Hh|]. split; [exact Hv|].
  split; [exact Hc|]. split; [|exact Hd].
  rewrite (Hother "Hash") by discriminate. reflexivity.
Defined.

Lemma ArmorWithHeader_last_call_wins_witness :
  Sign.applySignCalls Z Toy.Key Toy.NewKeyRing Toy.AddKey signBuilder0
    [Sign.callArmorWithHeader Toy.Key "1" "first"; Sign.callArmorWithHeader Toy.Key "2" "second"]
    signHeap0
  = Sign.ArmorWithHeader Z signBuilder0 "2" "second" signHeap0.
Proof.
  exact (proj1 (ArmorWithHeader_last_call_wins Z Toy.Key Toy.NewKeyRing Toy.AddKey
                  signBuilder0 "1" "first" "2" "second" signHeap0)).
Defined.

Lemma sign_New_resets_the_draft_and_keeps_the_profile_witness :
  exists shb' σ',
    Sign.New Z signValidate signDefault signBuilder0 signHeap0
    = Some (((Some 0%nat, None), shb'), σ')
    /\ Sign.newSignHandleBuilder Z signDefault 7 clock signHeap0 = Some (shb', σ')
    /\ Sign.signHandles σ' !! Sign.shb_handle shb' = Some (signDefault 7 clock).
Proof.
  destruct (Sign.New Z signValidate signDefault signBuilder0 signHeap0)
    as [[[[[h|] [e|]] shb'] σ']|] eqn:Hrun; try (vm_compute in Hrun; discriminate Hrun).
  destruct (sign_New_resets_the_draft_and_keeps_the_profile Z signValidate signDefault
              signBuilder0 signHeap0 h shb' σ' Hrun)
    as (-> & d & Hd & Hnew & _ & _ & Hdraft & _).
  vm_compute in Hd. injection Hd as <-.
  exists shb', σ'. split; [reflexivity|]. split; [exact Hnew|exact Hdraft].
Defined.

Lemma sign_err_is_assigned_by_SigningKey_and_New_witness :
  let noKey := errors_New "gopenpgp: no signing key provided" in
  Sign.New Z signValidate signDefault signBuilder0 signHeapNoKey
  = Some (((None, Some noKey), Sign.mkSignBuilder 0%nat clock (Some noKey)),
          signHeapNoKey)
  /\ Sign.New Z signValidate signDefault (Sign.mkSignBuilder 0%nat clock (Some noKey))
       signHeap0
     = Some (((None, Some noKey), Sign.mkSignBuilder 0%nat clock (Some noKey)),
             signHeap0).
Proof.
  intros noKey.
  destruct (sign_err_is_assigned_by_SigningKey_and_New Z Toy.Key Toy.NewKeyRing
              Toy.AddKey signValidate signDefault signBuilder0 signHeapNoKey)
    as (_ & Hnew & _ & _).
  destruct (sign_err_is_assigned_by_SigningKey_and_New Z Toy.Key Toy.NewKeyRing
              Toy.AddKey signValidate signDefault
              (Sign.mkSignBuilder 0%nat clock (Some noKey)) signHeap0)
    as (_ & _ & _ & Hkeep).
  split.
  - apply (Hnew (signDefault 7 clock) noKey);
      [reflexivity|vm_compute; reflexivity|reflexivity].
  - exact (proj2 (Hkeep [] _ _ noKey eq_refl (List.Forall_nil _) eq_refl)).
Defined.

End MoreInstances.
